(** * The x402 payment adapter of the DenScope trust SDK

    A shallow embedding of [src/x402.ts], [src/errors.ts], [src/constants.ts]
    and of [src/client.ts] (the request dispatcher and the endpoint methods),
    with the platform functions they call ([split], [parseInt], [BigInt],
    [String], [atob], [btoa], [JSON.parse], [JSON.stringify], [Headers.get],
    [URLSearchParams]).

    Conventions.
    - A JavaScript string is the list of its UTF-16 code units ([jsstring]).
    - A JavaScript number is modelled exactly on the integers ([Int]); [NaN]
      is kept apart, and a JSON literal that denotes no integer is carried as
      the exact decimal it was written as ([Frac]).  The rounding of doubles
      is not modelled.
    - Code that can throw returns a [Result]; code that talks to the transport,
      the signing capability, the random source or the clock is a [Prog], a
      finite tree of requests to the outside world, run against an [Env].
    - The types of the source are erased when it runs.  [X402.buildPaymentHeader]
      is the builder on arguments of its declared types; what the dispatcher
      decodes from a response is whatever JSON the server sent, and
      [RunTime.buildPaymentHeader] and [Client.request] read it as the code
      does, property by property ([RunTime.Get]), with the [TypeError]s of
      the language. *)

From Stdlib Require Import String Ascii List NArith ZArith Bool Lia.
From Stdlib Require Strings.Byte.
Import ListNotations.

Set Implicit Arguments.
Set Warnings "-register-all".

Local Open Scope N_scope.

(* ================================================================== *)
(** * Platform: strings, numbers and their conversions *)
(* ================================================================== *)

Module JS.

(** A string is a sequence of 16-bit code units. *)
Definition jsstring := list N.

(** The code units of a literal of the source. *)
Definition js (s : string) : jsstring :=
  map N_of_ascii (list_ascii_of_string s).

Fixpoint str_eqb (a b : jsstring) : bool :=
  match a, b with
  | [], [] => true
  | x :: a', y :: b' => (x =? y) && str_eqb a' b'
  | _, _ => false
  end.

(** Numbers: [NaN], the integers, and the decimals [m / 10^e] that are not
    integers. *)
Inductive number : Type :=
| NaN
| Int (z : Z)
| Frac (m : Z) (e : positive).

(** ** Characters *)

Definition ch (a : ascii) : N := N_of_ascii a.

Definition is_digit (c : N) : bool := (48 <=? c) && (c <=? 57).

(** The value of a digit of a radix up to 16, in either case. *)
Definition digit_val (c : N) : option N :=
  if (48 <=? c) && (c <=? 57) then Some (c - 48)
  else if (97 <=? c) && (c <=? 102) then Some (c - 87)
  else if (65 <=? c) && (c <=? 70) then Some (c - 55)
  else None.

Definition is_radix_digit (radix : N) (c : N) : bool :=
  match digit_val c with
  | Some d => d <? radix
  | None => false
  end.

(** The digit characters that [Number.prototype.toString] emits: lower case. *)
Definition digit_char (d : N) : N :=
  if d <? 10 then 48 + d else 87 + d.

(** [StrWhiteSpaceChar] of ECMAScript: white space and line terminators. *)
Definition is_whitespace (c : N) : bool :=
  (c =? 9) || (c =? 10) || (c =? 11) || (c =? 12) || (c =? 13) || (c =? 32)
  || (c =? 160) || (c =? 5760) || ((8192 <=? c) && (c <=? 8202))
  || (c =? 8232) || (c =? 8233) || (c =? 8239) || (c =? 8287)
  || (c =? 12288) || (c =? 65279).

(** ** Scanning *)

(** The longest prefix whose characters satisfy [p], and what follows it. *)
Fixpoint span (p : N -> bool) (s : jsstring) : jsstring * jsstring :=
  match s with
  | [] => ([], [])
  | c :: r =>
      if p c then let (a, b) := span p r in (c :: a, b) else ([], s)
  end.

Fixpoint trimStart (s : jsstring) : jsstring :=
  match s with
  | [] => []
  | c :: r => if is_whitespace c then trimStart r else s
  end.

Definition trimEnd (s : jsstring) : jsstring := rev (trimStart (rev s)).

Definition trim (s : jsstring) : jsstring := trimEnd (trimStart s).

(** The number a digit sequence denotes in [radix] (most significant digit
    first). *)
Definition digits_value (radix : N) (ds : jsstring) : N :=
  fold_left (fun acc c =>
               acc * radix + match digit_val c with Some d => d | None => 0 end)
            ds 0.

(** ** [Number.prototype.toString(radix)] and [String(n)] on integers *)

Fixpoint digits_of (fuel : nat) (radix n : N) (acc : jsstring) : jsstring :=
  let acc' := digit_char (n mod radix) :: acc in
  match fuel with
  | O => acc'
  | S f => if n <? radix then acc' else digits_of f radix (n / radix) acc'
  end.

Definition N_toString (radix n : N) : jsstring :=
  digits_of (N.to_nat (N.log2 n)) radix n [].

(** [String(z)] for an integer [z]: a minus sign when negative, then the
    decimal digits. *)
Definition String_of_Z (z : Z) : jsstring :=
  match z with
  | Zneg p => ch "-" :: N_toString 10 (Npos p)
  | _ => N_toString 10 (Z.to_N z)
  end.

(** [String(x)] for a number.  A decimal that is no integer is printed in
    exponent form, which [JSON.parse] reads back; the shortest form that
    JavaScript prints for a double is not modelled. *)
Definition String_of_number (x : number) : jsstring :=
  match x with
  | NaN => js "NaN"
  | Int z => String_of_Z z
  | Frac m e =>
      String_of_Z m ++ js "e-" ++ N_toString 10 (Npos e)
  end.

(** ** [String.prototype.padStart] *)

Definition padStart (targetLength : nat) (pad : jsstring) (s : jsstring)
  : jsstring :=
  let k := (targetLength - length s)%nat in
  firstn k (concat (repeat pad k)) ++ s.

(** ** [String.prototype.split] with a one-character separator *)

Fixpoint split (sep : N) (s : jsstring) : list jsstring :=
  match s with
  | [] => [[]]
  | c :: r =>
      if c =? sep then [] :: split sep r
      else match split sep r with
           | [] => [[c]]
           | p :: ps => (c :: p) :: ps
           end
  end.

(** ** [parseInt(s, 10)] *)

(** The integer the leading digits denote.  [parseInt] rounds it to a double,
    which is the same number when it is a safe integer; the statements about
    chain identifiers are made for such numbers. *)

Definition parseInt10 (s : jsstring) : number :=
  let inputS := trimStart s in
  let '(negative, body) :=
    match inputS with
    | c :: r =>
        if c =? ch "-" then (true, r)
        else if c =? ch "+" then (false, r)
        else (false, inputS)
    | [] => (false, inputS)
    end in
  let (Zd, _) := span is_digit body in
  match Zd with
  | [] => NaN
  | _ =>
      let mathInt := Z.of_N (digits_value 10 Zd) in
      Int (if negative then - mathInt else mathInt)%Z
  end.

(** ** [BigInt(s)] on a string: [StringToBigInt] *)

Definition all_radix_digits (radix : N) (s : jsstring) : bool :=
  match s with
  | [] => false
  | _ => forallb (is_radix_digit radix) s
  end.

Definition StringToBigInt (s : jsstring) : option Z :=
  let t := trim s in
  match t with
  | [] => Some 0%Z
  | c0 :: r0 =>
      let prefixed (radix : N) (ds : jsstring) :=
        if all_radix_digits radix ds
        then Some (Z.of_N (digits_value radix ds)) else None in
      let decimal (neg : bool) (ds : jsstring) :=
        if all_radix_digits 10 ds
        then Some (let v := Z.of_N (digits_value 10 ds) in
                   if neg then (- v)%Z else v)
        else None in
      if c0 =? ch "-" then decimal true r0
      else if c0 =? ch "+" then decimal false r0
      else if c0 =? ch "0" then
        match r0 with
        | c1 :: ds =>
            if (c1 =? ch "x") || (c1 =? ch "X") then prefixed 16 ds
            else if (c1 =? ch "o") || (c1 =? ch "O") then prefixed 8 ds
            else if (c1 =? ch "b") || (c1 =? ch "B") then prefixed 2 ds
            else decimal false t
        | [] => decimal false t
        end
      else decimal false t
  end.

(** ** [btoa] and [atob] *)

(** The character of a 6-bit value in the base64 alphabet, and back. *)
Definition b64_char (i : N) : N :=
  if i <? 26 then 65 + i
  else if i <? 52 then 71 + i
  else if i <? 62 then i - 4
  else if i =? 62 then 43
  else 47.

Definition b64_val (c : N) : option N :=
  if (65 <=? c) && (c <=? 90) then Some (c - 65)
  else if (97 <=? c) && (c <=? 122) then Some (c - 71)
  else if (48 <=? c) && (c <=? 57) then Some (c + 4)
  else if c =? 43 then Some 62
  else if c =? 47 then Some 63
  else None.

Fixpoint b64_encode (s : jsstring) : jsstring :=
  match s with
  | [] => []
  | [a] =>
      [b64_char (a / 4); b64_char ((a mod 4) * 16); ch "="; ch "="]
  | [a; b] =>
      [b64_char (a / 4); b64_char ((a mod 4) * 16 + b / 16);
       b64_char ((b mod 16) * 4); ch "="]
  | a :: b :: c :: r =>
      b64_char (a / 4) :: b64_char ((a mod 4) * 16 + b / 16)
      :: b64_char ((b mod 16) * 4 + c / 64) :: b64_char (c mod 64)
      :: b64_encode r
  end.

(** [btoa] raises [InvalidCharacterError] ([None]) on a character above
    U+00FF. *)
Definition btoa (s : jsstring) : option jsstring :=
  if forallb (fun c => c <=? 255) s then Some (b64_encode s) else None.

Fixpoint b64_decode (vals : list N) : jsstring :=
  match vals with
  | s1 :: s2 :: s3 :: s4 :: r =>
      (s1 * 4 + s2 / 16) :: ((s2 mod 16) * 16 + s3 / 4)
      :: ((s3 mod 4) * 64 + s4) :: b64_decode r
  | [s1; s2; s3] => [s1 * 4 + s2 / 16; (s2 mod 16) * 16 + s3 / 4]
  | [s1; s2] => [s1 * 4 + s2 / 16]
  | _ => []
  end.

Definition is_ascii_whitespace (c : N) : bool :=
  (c =? 9) || (c =? 10) || (c =? 12) || (c =? 13) || (c =? 32).

Fixpoint map_option {A B : Type} (f : A -> option B) (l : list A)
  : option (list B) :=
  match l with
  | [] => Some []
  | x :: r =>
      match f x, map_option f r with
      | Some y, Some ys => Some (y :: ys)
      | _, _ => None
      end
  end.

(** [atob]: the forgiving base64 decoding of the HTML standard; [None] is the
    [InvalidCharacterError] it raises. *)
Definition atob (data : jsstring) : option jsstring :=
  let d := filter (fun c => negb (is_ascii_whitespace c)) data in
  let d :=
    if (length d mod 4 =? 0)%nat then
      match rev d with
      | e1 :: e2 :: r =>
          if e1 =? ch "=" then
            if e2 =? ch "=" then rev r else rev (e2 :: r)
          else d
      | [e1] => if e1 =? ch "=" then [] else d
      | [] => d
      end
    else d in
  if (length d mod 4 =? 1)%nat then None
  else match map_option b64_val d with
       | Some vals => Some (b64_decode vals)
       | None => None
       end.

(** ** JSON values, [JSON.stringify] and [JSON.parse] *)

(** The values [JSON.parse] builds and [JSON.stringify] prints.  An object
    holds its own properties in enumeration order. *)
Inductive JSON : Type :=
| JNull
| JBool (b : bool)
| JNum (x : number)
| JStr (s : jsstring)
| JArr (elems : list JSON)
| JObj (props : list (jsstring * JSON)).

(** What an expression can evaluate to where JSON came in: a JSON value, or
    [undefined] ([None]). *)
Definition Value : Type := option JSON.

(** A string as a value; a string written where a value is expected stands
    for this value. *)
Definition str (s : jsstring) : Value := Some (JStr s).

Coercion str : jsstring >-> Value.

(** Property lookup [o.k] on the own properties. *)
Fixpoint lookup (k : jsstring) (o : list (jsstring * JSON)) : option JSON :=
  match o with
  | [] => None
  | (k', v) :: r => if str_eqb k k' then Some v else lookup k r
  end.

Definition is_high_surrogate (c : N) : bool := (55296 <=? c) && (c <=? 56319).
Definition is_low_surrogate (c : N) : bool := (56320 <=? c) && (c <=? 57343).

(** [\uXXXX] with four lower-case hexadecimal digits. *)
Definition unicode_escape (c : N) : jsstring :=
  js "\u" ++ padStart 4 (js "0") (N_toString 16 c).

(** [QuoteJSONString], without the enclosing quotes. *)
Fixpoint quote_chars (s : jsstring) : jsstring :=
  match s with
  | [] => []
  | c :: r =>
      if c =? 8 then js "\b" ++ quote_chars r
      else if c =? 9 then js "\t" ++ quote_chars r
      else if c =? 10 then js "\n" ++ quote_chars r
      else if c =? 12 then js "\f" ++ quote_chars r
      else if c =? 13 then js "\r" ++ quote_chars r
      else if c =? 34 then [92; 34] ++ quote_chars r
      else if c =? 92 then [92; 92] ++ quote_chars r
      else if c <? 32 then unicode_escape c ++ quote_chars r
      else if is_high_surrogate c then
        match r with
        | d :: r' =>
            if is_low_surrogate d then c :: d :: quote_chars r'
            else unicode_escape c ++ quote_chars r
        | [] => unicode_escape c
        end
      else if is_low_surrogate c then unicode_escape c ++ quote_chars r
      else c :: quote_chars r
  end.

Definition QuoteJSONString (s : jsstring) : jsstring :=
  34 :: quote_chars s ++ [34].

Fixpoint join (sep : jsstring) (l : list jsstring) : jsstring :=
  match l with
  | [] => []
  | [x] => x
  | x :: r => x ++ sep ++ join sep r
  end.

Fixpoint JSON_stringify (v : JSON) : jsstring :=
  match v with
  | JNull => js "null"
  | JBool true => js "true"
  | JBool false => js "false"
  | JNum NaN => js "null"
  | JNum x => String_of_number x
  | JStr s => QuoteJSONString s
  | JArr l => js "[" ++ join (js ",") (map JSON_stringify l) ++ js "]"
  | JObj o =>
      js "{"
      ++ join (js ",")
           (map (fun kv => QuoteJSONString (fst kv) ++ js ":"
                           ++ JSON_stringify (snd kv)) o)
      ++ js "}"
  end.

(** *** Parsing *)

Definition is_json_whitespace (c : N) : bool :=
  (c =? 9) || (c =? 10) || (c =? 13) || (c =? 32).

Fixpoint skip_ws (s : jsstring) : jsstring :=
  match s with
  | [] => []
  | c :: r => if is_json_whitespace c then skip_ws r else s
  end.

Definition hex4_value (h1 h2 h3 h4 : N) : option N :=
  match digit_val h1, digit_val h2, digit_val h3, digit_val h4 with
  | Some a, Some b, Some c, Some d => Some (((a * 16 + b) * 16 + c) * 16 + d)
  | _, _, _, _ => None
  end.

(** The characters of a string literal up to its closing quote. *)
Fixpoint parse_chars (s : jsstring) : option (jsstring * jsstring) :=
  let cons (c : N) (r : option (jsstring * jsstring)) :=
    match r with
    | Some (cs, rest) => Some (c :: cs, rest)
    | None => None
    end in
  match s with
  | [] => None
  | c :: r =>
      if c =? 34 then Some ([], r)
      else if c =? 92 then
        match r with
        | [] => None
        | e :: r' =>
            if e =? 34 then cons 34 (parse_chars r')
            else if e =? 92 then cons 92 (parse_chars r')
            else if e =? 47 then cons 47 (parse_chars r')
            else if e =? ch "b" then cons 8 (parse_chars r')
            else if e =? ch "f" then cons 12 (parse_chars r')
            else if e =? ch "n" then cons 10 (parse_chars r')
            else if e =? ch "r" then cons 13 (parse_chars r')
            else if e =? ch "t" then cons 9 (parse_chars r')
            else if e =? ch "u" then
              match r' with
              | h1 :: h2 :: h3 :: h4 :: r'' =>
                  match hex4_value h1 h2 h3 h4 with
                  | Some u => cons u (parse_chars r'')
                  | None => None
                  end
              | _ => None
              end
            else None
        end
      else if c <? 32 then None
      else cons c (parse_chars r)
  end.

(** Cancel the factors of ten that numerator and denominator share. *)
Fixpoint reduce_decimal (m : Z) (k : nat) : Z * nat :=
  match k with
  | O => (m, O)
  | S k' => if (m mod 10 =? 0)%Z then reduce_decimal (m / 10)%Z k' else (m, k)
  end.

(** The number [sign * m * 10^e]. *)
Definition decimal_number (negative : bool) (m : N) (e : Z) : number :=
  let sm := (if negative then - Z.of_N m else Z.of_N m)%Z in
  match e with
  | Zneg p =>
      match reduce_decimal sm (Pos.to_nat p) with
      | (m', O) => Int m'
      | (m', S k) => Frac m' (Pos.of_succ_nat k)
      end
  | _ => Int (sm * 10 ^ e)%Z
  end.

(** A JSON number literal: an optional minus sign; an integer part that is
    a single zero or starts with a digit other than zero; an optional
    fraction (a point and at least one digit); an optional exponent (e or E,
    an optional sign, at least one digit). *)
Definition parse_unsigned (negative : bool) (s1 : jsstring)
  : option (number * jsstring) :=
  let (ip, s2) := span is_digit s1 in
  match ip with
  | [] => None
  | d0 :: more =>
      if (d0 =? ch "0") && negb (match more with [] => true | _ => false end)
      then None
      else
        let after_fraction :=
          match s2 with
          | c :: r =>
              if c =? ch "." then
                let (fp, s3) := span is_digit r in
                match fp with
                | [] => None
                | _ => Some (fp, s3)
                end
              else Some ([], s2)
          | [] => Some ([], s2)
          end in
        match after_fraction with
        | None => None
        | Some (fp, s3) =>
            let after_exponent :=
              match s3 with
              | c :: r =>
                  if (c =? ch "e") || (c =? ch "E") then
                    let (eneg, r1) :=
                      match r with
                      | g :: r' =>
                          if g =? ch "-" then (true, r')
                          else if g =? ch "+" then (false, r')
                          else (false, r)
                      | [] => (false, r)
                      end in
                    let (ep, s4) := span is_digit r1 in
                    match ep with
                    | [] => None
                    | _ =>
                        let ev := Z.of_N (digits_value 10 ep) in
                        Some ((if eneg then - ev else ev)%Z, s4)
                    end
                  else Some (0%Z, s3)
              | [] => Some (0%Z, s3)
              end in
            match after_exponent with
            | None => None
            | Some (ev, s4) =>
                Some (decimal_number negative (digits_value 10 (ip ++ fp))
                        (ev - Z.of_nat (length fp)),
                      s4)
            end
        end
  end.

Definition parse_number (s : jsstring) : option (number * jsstring) :=
  match s with
  | c :: r =>
      if c =? ch "-" then parse_unsigned true r else parse_unsigned false s
  | [] => None
  end.

(** Whether [s] starts with [p], and what follows. *)
Fixpoint strip_prefix (p s : jsstring) : option jsstring :=
  match p, s with
  | [], _ => Some s
  | a :: p', b :: s' => if a =? b then strip_prefix p' s' else None
  | _ :: _, [] => None
  end.

(** An array index: the canonical decimal form of an integer below
    [2^32 - 1].  Such keys are enumerated first, in ascending order. *)
Definition is_array_index (k : jsstring) : bool :=
  match k with
  | [] => false
  | c :: r =>
      forallb is_digit k
      && ((negb (c =? ch "0")) || (match r with [] => true | _ => false end))
      && (digits_value 10 k <=? 4294967294)
  end.

Fixpoint has_key (k : jsstring) (o : list (jsstring * JSON)) : bool :=
  match o with
  | [] => false
  | (k', _) :: r => str_eqb k k' || has_key k r
  end.

Fixpoint replace_prop (k : jsstring) (v : JSON) (o : list (jsstring * JSON))
  : list (jsstring * JSON) :=
  match o with
  | [] => []
  | (k', v') :: r =>
      if str_eqb k k' then (k', v) :: r else (k', v') :: replace_prop k v r
  end.

Fixpoint insert_index (k : jsstring) (v : JSON) (o : list (jsstring * JSON))
  : list (jsstring * JSON) :=
  match o with
  | [] => [(k, v)]
  | (k', v') :: r =>
      if is_array_index k' && (digits_value 10 k' <? digits_value 10 k)
      then (k', v') :: insert_index k v r
      else (k, v) :: o
  end.

(** [CreateDataProperty] on an ordinary object: a key already present keeps
    its place and takes the new value. *)
Definition define_prop (o : list (jsstring * JSON)) (kv : jsstring * JSON)
  : list (jsstring * JSON) :=
  let (k, v) := kv in
  if has_key k o then replace_prop k v o
  else if is_array_index k then insert_index k v o
  else o ++ [kv].

Fixpoint parse_value (fuel : nat) (s : jsstring) {struct fuel}
  : option (JSON * jsstring) :=
  match fuel with
  | O => None
  | S f =>
      match skip_ws s with
      | [] => None
      | c :: r =>
          if c =? ch "{" then
            match skip_ws r with
            | c' :: r' =>
                if c' =? ch "}" then Some (JObj [], r')
                else
                  match parse_members f (c' :: r') with
                  | Some (ms, rest) => Some (JObj (fold_left define_prop ms []), rest)
                  | None => None
                  end
            | [] => None
            end
          else if c =? ch "[" then
            match skip_ws r with
            | c' :: r' =>
                if c' =? ch "]" then Some (JArr [], r')
                else
                  match parse_elements f (c' :: r') with
                  | Some (vs, rest) => Some (JArr vs, rest)
                  | None => None
                  end
            | [] => None
            end
          else if c =? 34 then
            match parse_chars r with
            | Some (str, rest) => Some (JStr str, rest)
            | None => None
            end
          else if c =? ch "t" then
            match strip_prefix (js "rue") r with
            | Some rest => Some (JBool true, rest)
            | None => None
            end
          else if c =? ch "f" then
            match strip_prefix (js "alse") r with
            | Some rest => Some (JBool false, rest)
            | None => None
            end
          else if c =? ch "n" then
            match strip_prefix (js "ull") r with
            | Some rest => Some (JNull, rest)
            | None => None
            end
          else
            match parse_number (c :: r) with
            | Some (x, rest) => Some (JNum x, rest)
            | None => None
            end
      end
  end

with parse_elements (fuel : nat) (s : jsstring) {struct fuel}
  : option (list JSON * jsstring) :=
  match fuel with
  | O => None
  | S f =>
      match parse_value f s with
      | None => None
      | Some (v, r) =>
          match skip_ws r with
          | c :: r' =>
              if c =? ch "," then
                match parse_elements f r' with
                | Some (vs, rest) => Some (v :: vs, rest)
                | None => None
                end
              else if c =? ch "]" then Some ([v], r')
              else None
          | [] => None
          end
      end
  end

with parse_members (fuel : nat) (s : jsstring) {struct fuel}
  : option (list (jsstring * JSON) * jsstring) :=
  match fuel with
  | O => None
  | S f =>
      match skip_ws s with
      | c :: r =>
          if c =? 34 then
            match parse_chars r with
            | None => None
            | Some (k, r1) =>
                match skip_ws r1 with
                | c1 :: r2 =>
                    if c1 =? ch ":" then
                      match parse_value f r2 with
                      | None => None
                      | Some (v, r3) =>
                          match skip_ws r3 with
                          | c3 :: r4 =>
                              if c3 =? ch "," then
                                match parse_members f r4 with
                                | Some (ms, rest) => Some ((k, v) :: ms, rest)
                                | None => None
                                end
                              else if c3 =? ch "}" then Some ([(k, v)], r4)
                              else None
                          | [] => None
                          end
                      end
                    else None
                | [] => None
                end
            end
          else None
      | [] => None
      end
  end.

(** [JSON.parse]: one value between optional white space; [None] is the
    [SyntaxError] it raises.  The fuel covers every text: between two nested
    calls of the parser at least one character is consumed every second
    call. *)
Definition JSON_parse (text : jsstring) : option JSON :=
  match parse_value (2 * length text + 2) text with
  | Some (v, rest) =>
      match skip_ws rest with
      | [] => Some v
      | _ => None
      end
  | None => None
  end.

End JS.

Import JS.

(* ================================================================== *)
(** * [src/types.ts]: configuration and x402 wire types *)
(* ================================================================== *)

Module Types.

(** [X402Config.account]; its [signTypedData] is the signing capability,
    answered by the environment (see [Effects.Env]). *)
Record Account : Type := { address : jsstring }.

Record X402Config : Type := {
  x402_account : Account;
  x402_baseUrl : option jsstring
}.

(** [DenScopeConfig = ApiKeyConfig | X402Config], as the object it is at run
    time: the dispatcher only asks which of the keys [apiKey] and [account]
    it has. *)
Record DenScopeConfig : Type := {
  apiKey : option jsstring;
  account : option Account;
  baseUrl : option jsstring
}.

Record Extra : Type := {
  assetTransferMethod : jsstring;
  name : jsstring;
  version : jsstring
}.

Record PaymentRequirement : Type := {
  scheme : jsstring;
  network : jsstring;
  amount : jsstring;
  asset : jsstring;
  payTo : jsstring;
  maxTimeoutSeconds : number;
  extra : Extra
}.

Record ResourceInfo : Type := {
  url : jsstring;
  description : jsstring;
  mimeType : jsstring
}.

Record PaymentRequiredBody : Type := {
  x402Version : number;
  accepts : list PaymentRequirement;
  resource : ResourceInfo;
  error : jsstring
}.

(** The objects of these types as JSON values, keys in declaration order. *)
Definition Extra_json (e : Extra) : JSON :=
  JObj [(js "assetTransferMethod", JStr (assetTransferMethod e));
        (js "name", JStr (name e));
        (js "version", JStr (version e))].

Definition PaymentRequirement_json (r : PaymentRequirement) : JSON :=
  JObj [(js "scheme", JStr (scheme r));
        (js "network", JStr (network r));
        (js "amount", JStr (amount r));
        (js "asset", JStr (asset r));
        (js "payTo", JStr (payTo r));
        (js "maxTimeoutSeconds", JNum (maxTimeoutSeconds r));
        (js "extra", Extra_json (extra r))].

Definition ResourceInfo_json (r : ResourceInfo) : JSON :=
  JObj [(js "url", JStr (url r));
        (js "description", JStr (description r));
        (js "mimeType", JStr (mimeType r))].

Definition PaymentRequiredBody_json (b : PaymentRequiredBody) : JSON :=
  JObj [(js "x402Version", JNum (x402Version b));
        (js "accepts", JArr (map PaymentRequirement_json (accepts b)));
        (js "resource", ResourceInfo_json (resource b));
        (js "error", JStr (error b))].

(** Whether a JSON value has a declared type: the properties the interface
    declares are present with the declared types (it may have others), and
    the typed value it then stands for.  The code makes no such test: the
    casts [as T] of the source are erased, and these recognizers serve to
    state what holds of values that do have the declared types. *)
Definition get_string (k : string) (o : list (jsstring * JSON))
  : option jsstring :=
  match lookup (js k) o with Some (JStr s) => Some s | _ => None end.

Definition get_number (k : string) (o : list (jsstring * JSON))
  : option number :=
  match lookup (js k) o with Some (JNum x) => Some x | _ => None end.

Definition asExtra (v : JSON) : option Extra :=
  match v with
  | JObj o =>
      match get_string "assetTransferMethod" o, get_string "name" o,
            get_string "version" o with
      | Some a, Some n, Some w =>
          Some {| assetTransferMethod := a; name := n; version := w |}
      | _, _, _ => None
      end
  | _ => None
  end.

Definition asPaymentRequirement (v : JSON) : option PaymentRequirement :=
  match v with
  | JObj o =>
      match get_string "scheme" o, get_string "network" o,
            get_string "amount" o, get_string "asset" o,
            get_string "payTo" o, get_number "maxTimeoutSeconds" o,
            lookup (js "extra") o with
      | Some s, Some n, Some a, Some t, Some p, Some m, Some x =>
          match asExtra x with
          | Some e =>
              Some {| scheme := s; network := n; amount := a; asset := t;
                      payTo := p; maxTimeoutSeconds := m; extra := e |}
          | None => None
          end
      | _, _, _, _, _, _, _ => None
      end
  | _ => None
  end.

Definition asResourceInfo (v : JSON) : option ResourceInfo :=
  match v with
  | JObj o =>
      match get_string "url" o, get_string "description" o,
            get_string "mimeType" o with
      | Some u, Some d, Some m =>
          Some {| url := u; description := d; mimeType := m |}
      | _, _, _ => None
      end
  | _ => None
  end.

Definition asPaymentRequiredBody (v : JSON) : option PaymentRequiredBody :=
  match v with
  | JObj o =>
      match get_number "x402Version" o, lookup (js "accepts") o,
            lookup (js "resource") o, get_string "error" o with
      | Some w, Some (JArr l), Some r, Some e =>
          match map_option asPaymentRequirement l, asResourceInfo r with
          | Some reqs, Some res =>
              Some {| x402Version := w; accepts := reqs; resource := res;
                      error := e |}
          | _, _ => None
          end
      | _, _, _, _ => None
      end
  | _ => None
  end.

End Types.

Import Types.

(* ================================================================== *)
(** * [src/constants.ts] *)
(* ================================================================== *)

Module Constants.

Definition DEFAULT_BASE_URL : jsstring := js "https://denscope.vercel.app".

Definition API_PREFIX : jsstring := js "/api/v1".

(** EIP-3009 TransferWithAuthorization types for EIP-712 signing. *)
Definition EIP3009_TYPES : list (jsstring * list (jsstring * jsstring)) :=
  [(js "TransferWithAuthorization",
    [(js "from", js "address");
     (js "to", js "address");
     (js "value", js "uint256");
     (js "validAfter", js "uint256");
     (js "validBefore", js "uint256");
     (js "nonce", js "bytes32")])].

(** Default signature validity window: 1 hour. *)
Definition SIGNATURE_VALIDITY_SECONDS : Z := 3600.

End Constants.

Import Constants.

(* ================================================================== *)
(** * [src/errors.ts] *)
(* ================================================================== *)

Module Errors.

Inductive ErrorClass : Type :=
| DenScopeErrorClass
| PaymentRequiredErrorClass
| AuthenticationErrorClass.

(** An instance of [DenScopeError] or of one of its subclasses. *)
Record DenScopeError : Type := {
  err_class : ErrorClass;
  err_name : jsstring;
  err_message : jsstring;
  err_status : Z;
  err_body : option JSON
}.

Definition new_DenScopeError (message : jsstring) (status : Z)
    (body : option JSON) : DenScopeError :=
  {| err_class := DenScopeErrorClass; err_name := js "DenScopeError";
     err_message := message; err_status := status; err_body := body |}.

Definition new_PaymentRequiredError (message : jsstring) (body : option JSON)
  : DenScopeError :=
  let super := new_DenScopeError message 402 body in
  {| err_class := PaymentRequiredErrorClass; err_name := js "PaymentRequiredError";
     err_message := err_message super; err_status := err_status super;
     err_body := err_body super |}.

Definition new_AuthenticationError (message : jsstring) (status : option Z)
    (body : option JSON) : DenScopeError :=
  let super :=
    new_DenScopeError message
      (match status with Some st => st | None => 401%Z end) body in
  {| err_class := AuthenticationErrorClass; err_name := js "AuthenticationError";
     err_message := err_message super; err_status := err_status super;
     err_body := err_body super |}.

(** [e instanceof C]. *)
Definition instanceof (e : DenScopeError) (c : ErrorClass) : bool :=
  match c, err_class e with
  | DenScopeErrorClass, _ => true
  | PaymentRequiredErrorClass, PaymentRequiredErrorClass => true
  | AuthenticationErrorClass, AuthenticationErrorClass => true
  | _, _ => false
  end.

(** What the code can throw. *)
Inductive Exn : Type :=
| Thrown (e : DenScopeError)
| SyntaxError (source : jsstring)
| InvalidCharacterError
| Rejected (reason : JSON)
| TypeError
| RangeError.

Inductive Result (A : Type) : Type :=
| Ok (a : A)
| Err (e : Exn).

Arguments Ok {A} a.
Arguments Err {A} e.

End Errors.

Import Errors.

(* ================================================================== *)
(** * The outside world: transport, signing capability, randomness, clock *)
(* ================================================================== *)

Module Effects.

(** [Headers]: the header list of a response. *)
Definition Headers := list (jsstring * jsstring).

Definition ascii_lower (c : N) : N :=
  if (65 <=? c) && (c <=? 90) then c + 32 else c.

(** [Headers.prototype.get]: names are matched without regard to case, the
    values of a repeated header are joined. *)
Definition Headers_get (h : Headers) (name : jsstring) : option jsstring :=
  match filter (fun nv => str_eqb (map ascii_lower (fst nv))
                                  (map ascii_lower name)) h with
  | [] => None
  | vs => Some (join (js ", ") (map snd vs))
  end.

(** What the transport hands back: status, headers, and what reading the body
    as JSON or as text gives. *)
Record Response : Type := {
  status : Z;
  headers : Headers;
  json : Result JSON;
  text : Result jsstring
}.

(** [Response.ok]. *)
Definition ok (r : Response) : bool :=
  ((200 <=? status r) && (status r <=? 299))%Z.

(** The EIP-712 request handed to [signTypedData].  What comes from the
    requirement is handed on as it is read, whatever value it is. *)
Module Domain.
Record t : Type := {
  name : Value;
  version : Value;
  chainId : number;
  verifyingContract : Value
}.
End Domain.

Module Message.
Record t : Type := {
  from : jsstring;
  to : Value;
  value : Z;
  validAfter : Z;
  validBefore : Z;
  nonce : jsstring
}.
End Message.

Record SignArgs : Type := {
  domain : Domain.t;
  types : list (jsstring * list (jsstring * jsstring));
  primaryType : jsstring;
  message : Message.t
}.

(** A program: what it returns or throws, or the next thing it asks of the
    outside world and how it goes on from the answer.  [IllTyped] stands for
    a step the source gives no meaning to; no program of this file takes
    it. *)
Inductive Prog (A : Type) : Type :=
| Ret (a : A)
| Throw (e : Exn)
| IllTyped
| Fetch (url : jsstring) (hs : Headers) (k : Result Response -> Prog A)
| SignTypedData (args : SignArgs) (k : Result jsstring -> Prog A)
| GetRandomValues (n : nat) (k : list Byte.byte -> Prog A)
| DateNow (k : Z -> Prog A).

Arguments Ret {A} a.
Arguments Throw {A} e.
Arguments IllTyped {A}.
Arguments Fetch {A} url hs k.
Arguments SignTypedData {A} args k.
Arguments GetRandomValues {A} n k.
Arguments DateNow {A} k.

Fixpoint bind {A B : Type} (p : Prog A) (f : A -> Prog B) : Prog B :=
  match p with
  | Ret a => f a
  | Throw e => Throw e
  | IllTyped => IllTyped
  | Fetch u h k => Fetch u h (fun x => bind (k x) f)
  | SignTypedData a k => SignTypedData a (fun x => bind (k x) f)
  | GetRandomValues n k => GetRandomValues n (fun x => bind (k x) f)
  | DateNow k => DateNow (fun x => bind (k x) f)
  end.

(** A throwing computation inside a program. *)
Definition lift {A : Type} (r : Result A) : Prog A :=
  match r with
  | Ok a => Ret a
  | Err e => Throw e
  end.

(** [await]: a rejected promise throws. *)
Definition await {A : Type} (r : Result A) : Prog A := lift r.

(** What was observed of a run, oldest first. *)
Inductive Obs : Type :=
| ObsFetch (url : jsstring) (hs : Headers) (answer : Result Response)
| ObsSign (args : SignArgs) (answer : Result jsstring)
| ObsRandom (bytes : list Byte.byte)
| ObsNow (ms : Z).

Definition Trace := list Obs.

(** The outside world.  Transport, signing capability and clock may answer
    from everything that happened before; the random source is a stream of
    bytes, read once each. *)
Record Env : Type := {
  transport : Trace -> jsstring -> Headers -> Result Response;
  signTypedData : Trace -> SignArgs -> Result jsstring;
  entropy : nat -> Byte.byte;
  Date_now : Trace -> Z
}.

Fixpoint drawn (t : Trace) : nat :=
  match t with
  | [] => O
  | ObsRandom bytes :: r => (length bytes + drawn r)%nat
  | _ :: r => drawn r
  end.

Inductive Outcome (A : Type) : Type :=
| Returns (a : A)
| Throws (e : Exn)
| GoesWrong.

Arguments Returns {A} a.
Arguments Throws {A} e.
Arguments GoesWrong {A}.

(** Run a program after the history [t]; the result and the history
    extended. *)
Fixpoint run {A : Type} (env : Env) (p : Prog A) (t : Trace)
  : Outcome A * Trace :=
  match p with
  | Ret a => (Returns a, t)
  | Throw e => (Throws e, t)
  | IllTyped => (GoesWrong, t)
  | Fetch u h k =>
      let answer := transport env t u h in
      run env (k answer) (t ++ [ObsFetch u h answer])
  | SignTypedData a k =>
      let answer := signTypedData env t a in
      run env (k answer) (t ++ [ObsSign a answer])
  | GetRandomValues n k =>
      let bytes := map (entropy env) (seq (drawn t) n) in
      run env (k bytes) (t ++ [ObsRandom bytes])
  | DateNow k =>
      let ms := Date_now env t in
      run env (k ms) (t ++ [ObsNow ms])
  end.

(** The transport calls and the signing requests of a history. *)
Fixpoint fetches (t : Trace) : list (jsstring * Headers) :=
  match t with
  | [] => []
  | ObsFetch u h _ :: r => (u, h) :: fetches r
  | _ :: r => fetches r
  end.

Fixpoint signings (t : Trace) : list SignArgs :=
  match t with
  | [] => []
  | ObsSign a _ :: r => a :: signings r
  | _ :: r => signings r
  end.

Fixpoint draws (t : Trace) : list (list Byte.byte) :=
  match t with
  | [] => []
  | ObsRandom b :: r => b :: draws r
  | _ :: r => draws r
  end.

End Effects.

Import Effects.

Notation "x <- p ;; k" := (bind p (fun x => k))
  (at level 61, p at next level, right associativity).

(* ================================================================== *)
(** * [src/x402.ts] *)
(* ================================================================== *)

Module X402.

(** Decode the PAYMENT-REQUIRED header from a 402 response. *)
Definition decodePaymentRequired (response : Response) : Result JSON :=
  match Headers_get (headers response) (js "payment-required") with
  | None | Some [] =>
      Err (Thrown (new_PaymentRequiredError
                     (js "402 response missing PAYMENT-REQUIRED header") None))
  | Some header =>
      match atob header with
      | Some json =>
          match JSON_parse json with
          | Some v => Ok v
          | None =>
              Err (Thrown (new_PaymentRequiredError
                             (js "Failed to decode PAYMENT-REQUIRED header")
                             None))
          end
      | None =>
          Err (Thrown (new_PaymentRequiredError
                         (js "Failed to decode PAYMENT-REQUIRED header")
                         None))
      end
  end.

(** [Array.from(bytes).map(b => b.toString(16).padStart(2, '0')).join('')] *)
Definition hex_of_bytes (bytes : list Byte.byte) : jsstring :=
  concat (map (fun b => padStart 2 (js "0") (N_toString 16 (Byte.to_N b)))
              bytes).

(** Generate a random 32-byte hex nonce. *)
Definition randomNonce : Prog jsstring :=
  GetRandomValues 32 (fun bytes => Ret (js "0x" ++ hex_of_bytes bytes)).

(** Parse chain ID from CAIP-2 network string. *)
Definition parseChainId (network : jsstring) : Result number :=
  let parts := split (ch ":") network in
  if negb (length parts =? 2)%nat
     || negb (str_eqb (nth 0 parts []) (js "eip155"))
  then Err (Thrown (new_PaymentRequiredError
                      (js "Unsupported network format: " ++ network) None))
  else Ok (parseInt10 (nth 1 parts [])).

(** [BigInt(s)] on a string; a [SyntaxError] when it is no integer literal. *)
Definition BigInt (s : jsstring) : Result Z :=
  match StringToBigInt s with
  | Some z => Ok z
  | None => Err (SyntaxError s)
  end.

(** The envelope that is serialised into the X-PAYMENT header. *)
Definition envelope (config : X402Config) (requirement : PaymentRequirement)
    (resource : ResourceInfo) (signature : jsstring) (validBefore : Z)
    (nonce : jsstring) : JSON :=
  JObj [(js "x402Version", JNum (Int 2));
        (js "resource", ResourceInfo_json resource);
        (js "accepted", PaymentRequirement_json requirement);
        (js "payload",
         JObj [(js "signature", JStr signature);
               (js "authorization",
                JObj [(js "from", JStr (address (x402_account config)));
                      (js "to", JStr (payTo requirement));
                      (js "value", JStr (amount requirement));
                      (js "validAfter", JStr (js "0"));
                      (js "validBefore", JStr (String_of_Z validBefore));
                      (js "nonce", JStr nonce)])])].

(** Sign an x402 payment and build the X-PAYMENT header value: the function
    on arguments of its declared types. *)
Definition buildPaymentHeader (config : X402Config)
    (requirement : PaymentRequirement) (resource : ResourceInfo)
  : Prog jsstring :=
  chainId <- lift (parseChainId (network requirement)) ;;
  let domain :=
    {| Domain.name := str (name (extra requirement));
       Domain.version := str (version (extra requirement));
       Domain.chainId := chainId;
       Domain.verifyingContract := str (asset requirement) |} in
  nonce <- randomNonce ;;
  DateNow (fun ms =>
  let now := (ms / 1000)%Z in
  let validBefore := (now + SIGNATURE_VALIDITY_SECONDS)%Z in
  value <- lift (BigInt (amount requirement)) ;;
  let message :=
    {| Message.from := address (x402_account config);
       Message.to := str (payTo requirement);
       Message.value := value;
       Message.validAfter := 0%Z;
       Message.validBefore := validBefore;
       Message.nonce := nonce |} in
  SignTypedData
    {| domain := domain;
       types := EIP3009_TYPES;
       primaryType := js "TransferWithAuthorization";
       message := message |}
    (fun answer =>
  signature <- await answer ;;
  let payload :=
    envelope config requirement resource signature validBefore nonce in
  match btoa (JSON_stringify payload) with
  | Some header => Ret header
  | None => Throw InvalidCharacterError
  end)).

End X402.

Import X402.

(* ================================================================== *)
(** * The code on the values it meets at run time *)
(* ================================================================== *)

(** The names of the properties the code reads from what it decoded. *)
Module Key.
Inductive t : Type :=
| accepts
| length
| resource
| network
| extra
| name
| version
| asset
| payTo
| amount.
End Key.

Module RunTime.

Definition Key_string (k : Key.t) : jsstring :=
  match k with
  | Key.accepts => js "accepts"
  | Key.length => js "length"
  | Key.resource => js "resource"
  | Key.network => js "network"
  | Key.extra => js "extra"
  | Key.name => js "name"
  | Key.version => js "version"
  | Key.asset => js "asset"
  | Key.payTo => js "payTo"
  | Key.amount => js "amount"
  end.

(** [v.length] of an array or a string. *)
Definition length_value (n : nat) : Value := Some (JNum (Int (Z.of_nat n))).

(** [v.k]: a [TypeError] on [undefined] and [null]; an own property of an
    object; the length of an array or of a string; [undefined] in every
    other case, as none of these names is a property that the prototypes of
    objects, arrays, strings, numbers or booleans have. *)
Definition Get (v : Value) (k : Key.t) : Result Value :=
  match v with
  | None | Some JNull => Err TypeError
  | Some (JObj o) => Ok (lookup (Key_string k) o)
  | Some (JArr l) =>
      Ok (match k with Key.length => length_value (length l) | _ => None end)
  | Some (JStr s) =>
      Ok (match k with Key.length => length_value (length s) | _ => None end)
  | Some (JBool _) | Some (JNum _) => Ok None
  end.

(** [v[0]]: the first element of an array, the first code unit of a string,
    the own property [0] of an object. *)
Definition Get0 (v : Value) : Result Value :=
  match v with
  | None | Some JNull => Err TypeError
  | Some (JArr l) => Ok (nth_error l 0)
  | Some (JStr s) => Ok (match s with c :: _ => Some (JStr [c]) | [] => None end)
  | Some (JObj o) => Ok (lookup (js "0") o)
  | Some (JBool _) | Some (JNum _) => Ok None
  end.

(** [ToBoolean]: what counts as true in a condition. *)
Definition ToBoolean (v : Value) : bool :=
  match v with
  | None | Some JNull => false
  | Some (JBool b) => b
  | Some (JNum (Int z)) => negb (z =? 0)%Z
  | Some (JNum NaN) => false
  | Some (JNum (Frac _ _)) => true
  | Some (JStr s) => match s with [] => false | _ => true end
  | Some (JArr _) | Some (JObj _) => true
  end.

(** [ToString] of a JSON value: an array is its elements joined by commas,
    [null] among them as the empty string; an object is [[object Object]],
    unless an own property [toString] hides the method, which is a
    [TypeError]. *)
Fixpoint ToString (v : JSON) : Result jsstring :=
  match v with
  | JNull => Ok (js "null")
  | JBool true => Ok (js "true")
  | JBool false => Ok (js "false")
  | JNum x => Ok (String_of_number x)
  | JStr s => Ok s
  | JArr l =>
      match
        (fix elements (l : list JSON) : Result (list jsstring) :=
           match l with
           | [] => Ok []
           | x :: r =>
               match match x with JNull => Ok [] | _ => ToString x end,
                     elements r with
               | Ok a, Ok b => Ok (a :: b)
               | Err e, _ => Err e
               | _, Err e => Err e
               end
           end) l
      with
      | Ok parts => Ok (join (js ",") parts)
      | Err e => Err e
      end
  | JObj o =>
      if has_key (js "toString") o then Err TypeError
      else Ok (js "[object Object]")
  end.

(** [BigInt(v)]: a [TypeError] on [undefined] and [null]; 1 and 0 for the
    booleans; an integral number as it is, a [RangeError] for another; a
    string as an integer literal; an array or an object through its string.
    A number is the integer it is written as when this is a safe integer (see
    [exact_amount] below); the statements about amounts that are numbers are
    made for such numbers. *)
Definition BigInt (v : Value) : Result Z :=
  match v with
  | None | Some JNull => Err TypeError
  | Some (JBool b) => Ok (if b then 1 else 0)%Z
  | Some (JNum (Int z)) => Ok z
  | Some (JNum _) => Err RangeError
  | Some (JStr s) => X402.BigInt s
  | Some w =>
      match ToString w with
      | Ok s => X402.BigInt s
      | Err e => Err e
      end
  end.

(** [parseChainId]: [network.split] is a method of strings only. *)
Definition parseChainId (network : Value) : Result number :=
  match network with
  | Some (JStr s) => X402.parseChainId s
  | _ => Err TypeError
  end.

(** A property of an object literal as [JSON.stringify] prints it: left out
    when its value is [undefined]. *)
Definition property (k : string) (v : Value) : list (jsstring * JSON) :=
  match v with
  | Some x => [(js k, x)]
  | None => []
  end.

(** The envelope, with the resource and the requirement as they are. *)
Definition envelope (config : X402Config) (requirement resource : Value)
    (payTo amount : Value) (signature : jsstring) (validBefore : Z)
    (nonce : jsstring) : JSON :=
  JObj ([(js "x402Version", JNum (Int 2))]
        ++ property "resource" resource
        ++ property "accepted" requirement
        ++ [(js "payload",
             JObj [(js "signature", JStr signature);
                   (js "authorization",
                    JObj ([(js "from", JStr (address (x402_account config)))]
                          ++ property "to" payTo
                          ++ property "value" amount
                          ++ [(js "validAfter", JStr (js "0"));
                              (js "validBefore",
                               JStr (String_of_Z validBefore));
                              (js "nonce", JStr nonce)]))])]).

(** Sign an x402 payment and build the X-PAYMENT header value: the function
    as it runs, on whatever it is handed. *)
Definition buildPaymentHeader (config : X402Config)
    (requirement resource : Value) : Prog jsstring :=
  network <- lift (Get requirement Key.network) ;;
  chainId <- lift (parseChainId network) ;;
  extra <- lift (Get requirement Key.extra) ;;
  name <- lift (Get extra Key.name) ;;
  version <- lift (Get extra Key.version) ;;
  asset <- lift (Get requirement Key.asset) ;;
  let domain :=
    {| Domain.name := name;
       Domain.version := version;
       Domain.chainId := chainId;
       Domain.verifyingContract := asset |} in
  nonce <- randomNonce ;;
  DateNow (fun ms =>
  let now := (ms / 1000)%Z in
  let validBefore := (now + SIGNATURE_VALIDITY_SECONDS)%Z in
  payTo <- lift (Get requirement Key.payTo) ;;
  amount <- lift (Get requirement Key.amount) ;;
  value <- lift (BigInt amount) ;;
  let message :=
    {| Message.from := address (x402_account config);
       Message.to := payTo;
       Message.value := value;
       Message.validAfter := 0%Z;
       Message.validBefore := validBefore;
       Message.nonce := nonce |} in
  SignTypedData
    {| domain := domain;
       types := EIP3009_TYPES;
       primaryType := js "TransferWithAuthorization";
       message := message |}
    (fun answer =>
  signature <- await answer ;;
  let payload :=
    envelope config requirement resource payTo amount signature validBefore
      nonce in
  match btoa (JSON_stringify payload) with
  | Some header => Ret header
  | None => Throw InvalidCharacterError
  end)).

End RunTime.

(* ================================================================== *)
(** * [src/client.ts]: the request dispatcher *)
(* ================================================================== *)

Module Client.

Definition isApiKeyConfig (config : DenScopeConfig) : bool :=
  match apiKey config with Some _ => true | None => false end.


(** [s.replace(/\/$/, '')]: drop one trailing slash. *)
Definition strip_trailing_slash (s : jsstring) : jsstring :=
  match rev s with
  | c :: r => if c =? ch "/" then rev r else s
  | [] => s
  end.

(** The constructor of [DenScope]. *)
Definition DenScope_baseUrl (config : DenScopeConfig) : jsstring :=
  strip_trailing_slash
    (match baseUrl config with Some u => u | None => DEFAULT_BASE_URL end).

Definition handleResponse (response : Response) : Result JSON :=
  if ok response then json response
  else
    let body :=
      match json response with
      | Ok v => Some v
      | Err _ =>
          match text response with
          | Ok s => Some (JStr s)
          | Err _ => None
          end
      end in
    if (status response =? 401)%Z || (status response =? 403)%Z then
      Err (Thrown (new_AuthenticationError
                     (js "Authentication failed: "
                      ++ String_of_Z (status response))
                     (Some (status response)) body))
    else if (status response =? 402)%Z then
      Err (Thrown (new_PaymentRequiredError (js "Payment required") body))
    else
      Err (Thrown (new_DenScopeError
                     (js "API error: " ++ String_of_Z (status response))
                     (status response) body)).

(** [DenScope.request].  The type guards narrow the configuration: the
    match on [apiKey config] is [isApiKeyConfig], the match on [account
    config] is [isX402Config].  What [decodePaymentRequired] returns is read
    as it is. *)
Definition request (config : DenScopeConfig) (path : jsstring) : Prog JSON :=
  let url := DenScope_baseUrl config ++ API_PREFIX ++ path in
  let headers : Headers :=
    match apiKey config with
    | Some key => [(js "Authorization", js "Bearer " ++ key)]
    | None => []
    end in
  Fetch url headers (fun answer =>
  response <- await answer ;;
  match (status response =? 402)%Z, account config with
  | true, Some acct =>
      paymentRequired <- lift (decodePaymentRequired response) ;;
      accepts <- lift (RunTime.Get (Some paymentRequired) Key.accepts) ;;
      length <- lift (RunTime.Get accepts Key.length) ;;
      if negb (RunTime.ToBoolean length) then
        Throw (Thrown (new_PaymentRequiredError
                         (js "No accepted payment methods")
                         (Some paymentRequired)))
      else
        requirement <- lift (RunTime.Get0 accepts) ;;
        resource <- lift (RunTime.Get (Some paymentRequired) Key.resource) ;;
        paymentHeader <-
          RunTime.buildPaymentHeader
            {| x402_account := acct; x402_baseUrl := baseUrl config |}
            requirement resource ;;
        Fetch url [(js "X-PAYMENT", paymentHeader)] (fun answer' =>
        retryResponse <- await answer' ;;
        await (handleResponse retryResponse))
  | _, _ => await (handleResponse response)
  end).

(** Get trust score (supports x402). *)
Definition getScore (config : DenScopeConfig) (chainId agentId : Z)
  : Prog JSON :=
  request config (js "/agent/" ++ String_of_Z chainId ++ js "/"
                  ++ String_of_Z agentId ++ js "/score").

End Client.

Import Client.

(* ================================================================== *)
(** * Vocabulary of the specification *)
(* ================================================================== *)

Module Spec.

(** The four protocol-level failures of the payment adapter, as the errors the
    code throws for them. *)
Definition MissingChallenge : Exn :=
  Thrown (new_PaymentRequiredError
            (js "402 response missing PAYMENT-REQUIRED header") None).

Definition MalformedChallenge : Exn :=
  Thrown (new_PaymentRequiredError
            (js "Failed to decode PAYMENT-REQUIRED header") None).

Definition UnsupportedNetwork (network : jsstring) : Exn :=
  Thrown (new_PaymentRequiredError
            (js "Unsupported network format: " ++ network) None).

Definition NoAcceptedPaymentMethod (paymentRequired : JSON) : Exn :=
  Thrown (new_PaymentRequiredError (js "No accepted payment methods")
            (Some paymentRequired)).

(** The human-readable message of what was thrown. *)
Definition message_text (x : Exn) : jsstring :=
  match x with
  | Thrown e => err_message e
  | SyntaxError _ | InvalidCharacterError | Rejected _ | TypeError
  | RangeError => []
  end.

(** Everything of an error value but its human-readable message. *)
Definition structured (e : DenScopeError)
  : ErrorClass * jsstring * Z * option JSON :=
  (err_class e, err_name e, err_status e, err_body e).

(** A network string of two colon-separated parts with namespace [eip155]. *)
Definition supported_network (network : jsstring) : Prop :=
  exists suffix : jsstring,
    network = js "eip155:" ++ suffix /\ ~ In (ch ":") suffix.

(** A decimal string: digits, after an optional minus sign. *)
Definition is_digits (s : jsstring) : bool :=
  match s with [] => false | _ => forallb is_digit s end.

Definition is_decimal_string (s : jsstring) : bool :=
  match s with
  | c :: r => if c =? ch "-" then is_digits r else is_digits s
  | [] => false
  end.

Definition is_lower_hex (c : N) : bool :=
  is_digit c || ((97 <=? c) && (c <=? 102)).

(** [0x] and 64 lower-case hexadecimal digits. *)
Definition is_nonce_string (s : jsstring) : bool :=
  match s with
  | a :: b :: r =>
      (a =? ch "0") && (b =? ch "x") && (length r =? 64)%nat
      && forallb is_lower_hex r
  | _ => false
  end.

(** The first request of the dispatcher. *)
Definition request_url (config : DenScopeConfig) (path : jsstring)
  : jsstring :=
  DenScope_baseUrl config ++ API_PREFIX ++ path.

Definition request_headers (config : DenScopeConfig) : Headers :=
  match apiKey config with
  | Some key => [(js "Authorization", js "Bearer " ++ key)]
  | None => []
  end.

(** The request [buildPaymentHeader] hands to the signing capability. *)
Definition sign_request (config : X402Config) (r : PaymentRequirement)
    (chainId : number) (value validBefore : Z) (nonce : jsstring)
  : SignArgs :=
  {| domain :=
       {| Domain.name := str (name (extra r));
          Domain.version := str (version (extra r));
          Domain.chainId := chainId;
          Domain.verifyingContract := str (asset r) |};
     types := EIP3009_TYPES;
     primaryType := js "TransferWithAuthorization";
     message :=
       {| Message.from := address (x402_account config);
          Message.to := str (payTo r);
          Message.value := value;
          Message.validAfter := 0%Z;
          Message.validBefore := validBefore;
          Message.nonce := nonce |} |}.

(** The bytes the next call of [crypto.getRandomValues] on a 32-byte array
    reads after the history [t]. *)
Definition next_random (env : Env) (t : Trace) : list Byte.byte :=
  map (entropy env) (seq (drawn t) 32).

Definition nonce_of_bytes (bytes : list Byte.byte) : jsstring :=
  js "0x" ++ hex_of_bytes bytes.

(** The numbers [start], [start + 1], ..., [count] of them. *)
Fixpoint range_from (start : N) (count : nat) : list N :=
  match count with
  | O => []
  | S k => start :: range_from (N.succ start) k
  end.

(** Reading a hexadecimal string back, two digits a byte. *)
Definition hex_pair_value (h l : N) : option Byte.byte :=
  match digit_val h, digit_val l with
  | Some a, Some b => Byte.of_N (a * 16 + b)
  | _, _ => None
  end.

Fixpoint bytes_of_hex (s : jsstring) : option (list Byte.byte) :=
  match s with
  | [] => Some []
  | h :: l :: r =>
      match hex_pair_value h l, bytes_of_hex r with
      | Some b, Some bs => Some (b :: bs)
      | _, _ => None
      end
  | [_] => None
  end.

(** A call of [buildPaymentHeader] after the history [t]: its nonce, the
    clock reading it takes (milliseconds), the construction time in seconds,
    its [validBefore], and the history at the moment it asks for the
    signature. *)
Definition build_nonce (env : Env) (t : Trace) : jsstring :=
  nonce_of_bytes (next_random env t).

Definition build_clock (env : Env) (t : Trace) : Z :=
  Date_now env (t ++ [ObsRandom (next_random env t)]).

Definition build_now (env : Env) (t : Trace) : Z :=
  (build_clock env t / 1000)%Z.

Definition build_validBefore (env : Env) (t : Trace) : Z :=
  (build_now env t + SIGNATURE_VALIDITY_SECONDS)%Z.

Definition build_history (env : Env) (t : Trace) : Trace :=
  (t ++ [ObsRandom (next_random env t)]) ++ [ObsNow (build_clock env t)].

(** The values that [JSON.stringify] prints and [JSON.parse] reads back as
    they were: every number is an integer, and the keys of every object are
    distinct and none is an array index. *)
Fixpoint distinct (ks : list jsstring) : bool :=
  match ks with
  | [] => true
  | k :: r => negb (existsb (str_eqb k) r) && distinct r
  end.

Fixpoint json_plain (v : JSON) : bool :=
  match v with
  | JNull | JBool _ | JStr _ => true
  | JNum (Int _) => true
  | JNum _ => false
  | JArr l => forallb json_plain l
  | JObj o =>
      forallb (fun kv => negb (is_array_index (fst kv)) && json_plain (snd kv))
              o
      && distinct (map fst o)
  end.

(** The calls the parser makes on the text of a value. *)
Fixpoint json_size (v : JSON) : nat :=
  match v with
  | JArr l => S (fold_right (fun x n => S (json_size x + n)) O l)
  | JObj o => S (fold_right (fun kv n => S (json_size (snd kv) + n)) O o)
  | _ => 1
  end.

(** What may follow a value inside a JSON text: nothing, a comma, or a
    closing bracket or brace. *)
Definition value_follow (rest : jsstring) : Prop :=
  match rest with
  | [] => True
  | c :: _ => c = ch "," \/ c = ch "]" \/ c = ch "}"
  end.

(** What may follow a number literal without changing how it reads. *)
Definition number_follow (rest : jsstring) : Prop :=
  match rest with
  | [] => True
  | c :: _ =>
      is_digit c = false /\ c <> ch "." /\ c <> ch "e" /\ c <> ch "E"
  end.

(** The parser reads the text of [v] back, whatever allowed text follows
    it. *)
Definition reads_back (v : JSON) : Prop :=
  forall (fuel : nat) (rest : jsstring),
    (json_size v <= fuel)%nat -> value_follow rest ->
    parse_value fuel (JSON_stringify v ++ rest) = Some (v, rest).

(** The text of a property of an object. *)
Definition member (kv : jsstring * JSON) : jsstring :=
  QuoteJSONString (fst kv) ++ js ":" ++ JSON_stringify (snd kv).

(** The integer fields of a challenge. *)
Definition is_Int (x : number) : bool :=
  match x with Int _ => true | _ => false end.

Definition integral_requirement (r : PaymentRequirement) : bool :=
  is_Int (maxTimeoutSeconds r).

Definition integral_challenge (c : PaymentRequiredBody) : bool :=
  is_Int (x402Version c) && forallb integral_requirement (accepts c).

(** A result as the outcome of the program that awaits it. *)
Definition outcome_of {A : Type} (r : Result A) : Outcome A :=
  match r with
  | Ok a => Returns a
  | Err e => Throws e
  end.

(** Whether a second transport call was made, and the status of the first
    answer. *)
Definition retried (t : Trace) : bool := (2 <=? length (fetches t))%nat.


(** The configuration [request] passes on once it knows the account. *)
Definition narrowed (config : DenScopeConfig) (acct : Account) : X402Config :=
  {| x402_account := acct; x402_baseUrl := baseUrl config |}.

(** Nested lookup [v.k]. *)
Definition field (k : string) (v : JSON) : option JSON :=
  match v with
  | JObj o => lookup (js k) o
  | _ => None
  end.

Definition field2 (k1 k2 : string) (v : JSON) : option JSON :=
  match field k1 v with Some w => field k2 w | None => None end.

Definition field3 (k1 k2 k3 : string) (v : JSON) : option JSON :=
  match field2 k1 k2 v with Some w => field k3 w | None => None end.

(** What [request] reads of the decoded challenge before it pays: the
    requirement and the resource it hands to [buildPaymentHeader], or what it
    throws instead. *)
Definition selection (paymentRequired : JSON) : Result (Value * Value) :=
  match RunTime.Get (Some paymentRequired) Key.accepts with
  | Err e => Err e
  | Ok accepts =>
      match RunTime.Get accepts Key.length with
      | Err e => Err e
      | Ok length =>
          if negb (RunTime.ToBoolean length)
          then Err (NoAcceptedPaymentMethod paymentRequired)
          else
            match RunTime.Get0 accepts with
            | Err e => Err e
            | Ok requirement =>
                match RunTime.Get (Some paymentRequired) Key.resource with
                | Err e => Err e
                | Ok resource => Ok (requirement, resource)
                end
            end
      end
  end.

(** What [buildPaymentHeader] reads of its requirement before it asks
    anything of the outside world: the signing domain. *)
Definition read_domain (requirement : Value) : Result Domain.t :=
  match RunTime.Get requirement Key.network with
  | Err e => Err e
  | Ok network =>
      match RunTime.parseChainId network with
      | Err e => Err e
      | Ok chainId =>
          match RunTime.Get requirement Key.extra with
          | Err e => Err e
          | Ok extra =>
              match RunTime.Get extra Key.name with
              | Err e => Err e
              | Ok name =>
                  match RunTime.Get extra Key.version with
                  | Err e => Err e
                  | Ok version =>
                      match RunTime.Get requirement Key.asset with
                      | Err e => Err e
                      | Ok asset =>
                          Ok {| Domain.name := name;
                                Domain.version := version;
                                Domain.chainId := chainId;
                                Domain.verifyingContract := asset |}
                      end
                  end
              end
          end
      end
  end.

(** What it reads after the random bytes and the clock: the payee, the
    amount, and the amount as [BigInt] converts it. *)
Definition read_payment (requirement : Value) : Result (Value * Value * Z) :=
  match RunTime.Get requirement Key.payTo with
  | Err e => Err e
  | Ok payTo =>
      match RunTime.Get requirement Key.amount with
      | Err e => Err e
      | Ok amount =>
          match RunTime.BigInt amount with
          | Err e => Err e
          | Ok value => Ok (payTo, amount, value)
          end
      end
  end.

(** The request it then hands to the signing capability. *)
Definition signing_request (config : X402Config) (d : Domain.t)
    (payTo : Value) (value validBefore : Z) (nonce : jsstring) : SignArgs :=
  {| domain := d;
     types := EIP3009_TYPES;
     primaryType := js "TransferWithAuthorization";
     message :=
       {| Message.from := address (x402_account config);
          Message.to := payTo;
          Message.value := value;
          Message.validAfter := 0%Z;
          Message.validBefore := validBefore;
          Message.nonce := nonce |} |}.

(** The JSON values of the typed requirement and resource. *)
Definition requirement_value (r : PaymentRequirement) : Value :=
  Some (PaymentRequirement_json r).

Definition resource_value (r : ResourceInfo) : Value :=
  Some (ResourceInfo_json r).

End Spec.

Import Spec.

(* ================================================================== *)
(** * The fixtures of [__tests__/x402.test.ts] and [__tests__/client.test.ts] *)
(* ================================================================== *)

Module Fixtures.

Definition MOCK_REQUIREMENT : PaymentRequirement :=
  {| scheme := js "exact";
     network := js "eip155:42220";
     amount := js "1000";
     asset := js "0xcebA9300f2b948710d2653dD7B07f33A8B32118C";
     payTo := js "0xPayTo";
     maxTimeoutSeconds := Int 30;
     extra := {| assetTransferMethod := js "eip3009";
                 name := js "USD Coin";
                 version := js "2" |} |}.

Definition MOCK_RESOURCE : ResourceInfo :=
  {| url := js "https://denscope.vercel.app/api/v1/agent/42220/5/score";
     description := js "Trust score query for ERC-8004 agent";
     mimeType := js "application/json" |}.

Definition MOCK_PAYMENT_REQUIRED_BODY : PaymentRequiredBody :=
  {| x402Version := Int 2;
     accepts := [MOCK_REQUIREMENT];
     resource := MOCK_RESOURCE;
     error := js "missing payment header" |}.

Definition mockAccount : Account :=
  {| address := js "0x1234567890abcdef1234567890abcdef12345678" |}.

Definition x402_config : X402Config :=
  {| x402_account := mockAccount; x402_baseUrl := None |}.

Definition account_config : DenScopeConfig :=
  {| apiKey := None; account := Some mockAccount; baseUrl := None |}.

Definition apiKey_config : DenScopeConfig :=
  {| apiKey := Some (js "ds_test123"); account := None; baseUrl := None |}.


(** [btoa(JSON.stringify(body))] *)
Definition encode_challenge (body : PaymentRequiredBody) : jsstring :=
  match btoa (JSON_stringify (PaymentRequiredBody_json body)) with
  | Some h => h
  | None => []
  end.

Definition response_402 (hs : Headers) : Response :=
  {| status := 402; headers := hs;
     json := Ok (JObj [(js "error", JStr (js "payment required"))]);
     text := Ok (js "payment required") |}.

Definition scoreBody : JSON :=
  JObj [(js "score", JObj [(js "value", JNum (Int 80));
                           (js "confidence", JStr (js "high"))]);
        (js "formula", JStr (js "https://..."))].

Definition response_200 : Response :=
  {| status := 200; headers := []; json := Ok scoreBody;
     text := Ok (js "") |}.

(** A world whose transport answers the first call with [first] and every
    later call with [later]; the signer resolves with [0xsig]; the random
    source counts; the clock stands still. *)
Definition world (first later : Response) : Env :=
  {| transport := fun t _ _ =>
       match fetches t with [] => Ok first | _ => Ok later end;
     signTypedData := fun _ _ => Ok (js "0xsig");
     entropy := fun n =>
       match Byte.of_N (N.of_nat n mod 256) with
       | Some b => b
       | None => Byte.x00
       end;
     Date_now := fun _ => 1700000000123%Z |}.

Definition challenge_response (body : PaymentRequiredBody) : Response :=
  response_402 [(js "payment-required", encode_challenge body)].

(** The server asks for payment, then serves the score. *)
Definition paying_world : Env :=
  world (challenge_response MOCK_PAYMENT_REQUIRED_BODY) response_200.

(** The server answers 402 without a challenge header. *)
Definition bare_402_world : Env :=
  world (response_402 []) response_200.


(** The challenge lists nothing. *)
Definition empty_challenge : PaymentRequiredBody :=
  {| x402Version := Int 2; accepts := []; resource := MOCK_RESOURCE;
     error := js "missing payment header" |}.

Definition empty_world : Env :=
  world (challenge_response empty_challenge) response_200.



Definition score_path : jsstring := js "/agent/42220/5/score".

(** A requirement whose amount is written in hexadecimal. *)
Definition hex_amount_requirement : PaymentRequirement :=
  {| scheme := js "exact";
     network := js "eip155:42220";
     amount := js "0x10";
     asset := js "0xcebA9300f2b948710d2653dD7B07f33A8B32118C";
     payTo := js "0xPayTo";
     maxTimeoutSeconds := Int 30;
     extra := {| assetTransferMethod := js "eip3009";
                 name := js "USD Coin";
                 version := js "2" |} |}.

(** A 402 response whose challenge header is present and empty. *)
Definition empty_header_response : Response :=
  response_402 [(js "payment-required", [])].

(** What a call of [buildPaymentHeader] on the fixtures returns, and the
    history it leaves. *)
Definition mock_header : jsstring :=
  match fst (run paying_world
               (buildPaymentHeader x402_config MOCK_REQUIREMENT MOCK_RESOURCE)
               []) with
  | Returns h => h
  | _ => []
  end.

Definition mock_trace : Trace :=
  snd (run paying_world
         (buildPaymentHeader x402_config MOCK_REQUIREMENT MOCK_RESOURCE) []).

End Fixtures.

Import Fixtures.

(* ================================================================== *)
(** * Platform: [URLSearchParams] *)
(* ================================================================== *)

Module URL.

(** The conversion of a string to scalar values that every [URLSearchParams]
    operation applies to its arguments: a surrogate pair is one code point, a
    surrogate on its own becomes U+FFFD. *)
Fixpoint code_points (s : jsstring) : list N :=
  match s with
  | [] => []
  | c :: r =>
      if is_high_surrogate c then
        match r with
        | d :: r' =>
            if is_low_surrogate d
            then (65536 + (c - 55296) * 1024 + (d - 56320)) :: code_points r'
            else 65533 :: code_points r
        | [] => [65533]
        end
      else if is_low_surrogate c then 65533 :: code_points r
      else c :: code_points r
  end.

(** The UTF-8 bytes of a code point. *)
Definition utf8_bytes (cp : N) : list N :=
  if cp <? 128 then [cp]
  else if cp <? 2048 then [192 + cp / 64; 128 + cp mod 64]
  else if cp <? 65536 then
    [224 + cp / 4096; 128 + (cp / 64) mod 64; 128 + cp mod 64]
  else [240 + (cp / 262144) mod 8; 128 + (cp / 4096) mod 64;
        128 + (cp / 64) mod 64; 128 + cp mod 64].

Definition utf8_encode (s : jsstring) : list N :=
  flat_map utf8_bytes (code_points s).

(** The bytes the [application/x-www-form-urlencoded] serializer leaves as
    they are: ASCII letters and digits, and [*], [-], [.] and [_]. *)
Definition is_form_safe (b : N) : bool :=
  ((48 <=? b) && (b <=? 57)) || ((65 <=? b) && (b <=? 90))
  || ((97 <=? b) && (b <=? 122))
  || (b =? 42) || (b =? 45) || (b =? 46) || (b =? 95).

Definition upper_hex_digit (d : N) : N :=
  if d <? 10 then 48 + d else 55 + d.

(** [%XX], upper case. *)
Definition percent_encode_byte (b : N) : jsstring :=
  [37; upper_hex_digit (b / 16); upper_hex_digit (b mod 16)].

(** A space becomes [+]; every other byte outside the safe set is
    percent-encoded. *)
Definition form_encode_byte (b : N) : jsstring :=
  if b =? 32 then [43]
  else if is_form_safe b then [b]
  else percent_encode_byte b.

Definition form_encode (s : jsstring) : jsstring :=
  flat_map form_encode_byte (utf8_encode s).

(** [new URLSearchParams()] is the empty list. *)
Definition URLSearchParams := list (jsstring * jsstring).

(** [params.set(name, value)]: the first pair of that name takes the value
    and the others of that name go; without such a pair, one is appended.
    The list keeps the strings as they were given; their conversion to scalar
    values is made where they are written out ([utf8_encode]). *)
Fixpoint URLSearchParams_set (params : URLSearchParams)
    (name value : jsstring) : URLSearchParams :=
  match params with
  | [] => [(name, value)]
  | (n, v) :: r =>
      if str_eqb n name
      then (n, value) :: filter (fun nv => negb (str_eqb (fst nv) name)) r
      else (n, v) :: URLSearchParams_set r name value
  end.

(** [params.toString()]. *)
Definition URLSearchParams_toString (params : URLSearchParams) : jsstring :=
  join (js "&")
       (map (fun nv => form_encode (fst nv) ++ js "=" ++ form_encode (snd nv))
            params).

(** The other direction, as the receiver of the request reads a query:
    percent-decoding, and the [application/x-www-form-urlencoded] parser. *)
Fixpoint percent_decode (s : jsstring) : list N :=
  match s with
  | [] => []
  | c :: r =>
      if c =? 37 then
        match r with
        | h :: l :: r' =>
            match digit_val h, digit_val l with
            | Some a, Some b => (a * 16 + b) :: percent_decode r'
            | _, _ => c :: percent_decode r
            end
        | _ => c :: percent_decode r
        end
      else c :: percent_decode r
  end.

Definition plus_to_space (c : N) : N := if c =? 43 then 32 else c.

Definition form_decode (s : jsstring) : list N :=
  percent_decode (map plus_to_space s).

Definition form_parse_pair (seq : jsstring) : list N * list N :=
  let (name, rest) := span (fun c => negb (c =? 61)) seq in
  (form_decode name, form_decode (tl rest)).

Definition form_parse (query : jsstring) : list (list N * list N) :=
  map form_parse_pair
      (filter (fun seq => match seq with [] => false | _ => true end)
              (split 38 query)).

End URL.

Import URL.

(* ================================================================== *)
(** * [src/client.ts]: the endpoint methods *)
(* ================================================================== *)

(** The public methods of [DenScope].  The identifiers and the numeric
    options are integers; [String] prints an integer in full when it is a
    safe integer (see [safe_integer] below), and the statements about these
    methods are made for such numbers. *)
Module Endpoints.

(** ['open' | 'resolved' | 'all'] *)
Inductive SignalStatus : Type :=
| status_open
| status_resolved
| status_all.

Definition SignalStatus_string (s : SignalStatus) : jsstring :=
  match s with
  | status_open => js "open"
  | status_resolved => js "resolved"
  | status_all => js "all"
  end.

Module SignalsOptions.
Record t : Type := { status : option SignalStatus }.
End SignalsOptions.

Module EventsOptions.
Record t : Type := {
  limit : option Z;
  offset : option Z;
  kind : option jsstring
}.
End EventsOptions.

Module SearchOptions.
Record t : Type := {
  q : option jsstring;
  chainId : option Z;
  limit : option Z
}.
End SearchOptions.

(** [options?.k] *)
Definition optional {A B : Type} (options : option A) (k : A -> option B)
  : option B :=
  match options with
  | Some o => k o
  | None => None
  end.

(** A string in a condition: absent and empty count as false. *)
Definition truthy (s : option jsstring) : option jsstring :=
  match s with
  | Some (c :: r) => Some (c :: r)
  | _ => None
  end.

(** [`${qs ? `?${qs}` : ''}`] *)
Definition query_suffix (qs : jsstring) : jsstring :=
  match qs with
  | [] => []
  | _ => js "?" ++ qs
  end.

(** [`/agent/${chainId}/${agentId}`] *)
Definition agent_path (chainId agentId : Z) : jsstring :=
  js "/agent/" ++ String_of_Z chainId ++ js "/" ++ String_of_Z agentId.

(** Get agent profile. *)
Definition getAgent (config : DenScopeConfig) (chainId agentId : Z)
  : Prog JSON :=
  request config (agent_path chainId agentId).

(** The path [getSignals] requests. *)
Definition getSignals_path (chainId agentId : Z)
    (options : option SignalsOptions.t) : jsstring :=
  let params : URLSearchParams := [] in
  let params :=
    match optional options SignalsOptions.status with
    | Some s => URLSearchParams_set params (js "status") (SignalStatus_string s)
    | None => params
    end in
  let qs := URLSearchParams_toString params in
  agent_path chainId agentId ++ js "/signals" ++ query_suffix qs.

(** Get agent signals/incidents (supports x402). *)
Definition getSignals (config : DenScopeConfig) (chainId agentId : Z)
    (options : option SignalsOptions.t) : Prog JSON :=
  request config (getSignals_path chainId agentId options).

(** The parameters [getEvents] sets, and the path it requests. *)
Definition getEvents_params (options : option EventsOptions.t)
  : URLSearchParams :=
  let params : URLSearchParams := [] in
  let params :=
    match optional options EventsOptions.limit with
    | Some n => URLSearchParams_set params (js "limit") (String_of_Z n)
    | None => params
    end in
  let params :=
    match optional options EventsOptions.offset with
    | Some n => URLSearchParams_set params (js "offset") (String_of_Z n)
    | None => params
    end in
  match truthy (optional options EventsOptions.kind) with
  | Some k => URLSearchParams_set params (js "kind") k
  | None => params
  end.

Definition getEvents_path (chainId agentId : Z)
    (options : option EventsOptions.t) : jsstring :=
  let qs := URLSearchParams_toString (getEvents_params options) in
  agent_path chainId agentId ++ js "/events" ++ query_suffix qs.

(** Get agent events. *)
Definition getEvents (config : DenScopeConfig) (chainId agentId : Z)
    (options : option EventsOptions.t) : Prog JSON :=
  request config (getEvents_path chainId agentId options).

(** The parameters [search] sets, and the path it requests. *)
Definition search_params (options : option SearchOptions.t)
  : URLSearchParams :=
  let params : URLSearchParams := [] in
  let params :=
    match truthy (optional options SearchOptions.q) with
    | Some s => URLSearchParams_set params (js "q") s
    | None => params
    end in
  let params :=
    match optional options SearchOptions.chainId with
    | Some n => URLSearchParams_set params (js "chainId") (String_of_Z n)
    | None => params
    end in
  match optional options SearchOptions.limit with
  | Some n => URLSearchParams_set params (js "limit") (String_of_Z n)
  | None => params
  end.

Definition search_path (options : option SearchOptions.t) : jsstring :=
  let qs := URLSearchParams_toString (search_params options) in
  js "/search" ++ query_suffix qs.

(** [search]: search agents. *)
Definition search (config : DenScopeConfig)
    (options : option SearchOptions.t) : Prog JSON :=
  request config (search_path options).

End Endpoints.

Import Endpoints.

(* ================================================================== *)
(** * Vocabulary of the further properties *)
(* ================================================================== *)

Module Properties.

(** Strings [btoa] accepts: every code unit is at most U+00FF. *)
Definition latin1 (s : jsstring) : bool := forallb (fun c => c <=? 255) s.

Definition strings_of_requirement (r : PaymentRequirement) : list jsstring :=
  [scheme r; network r; amount r; asset r; payTo r;
   assetTransferMethod (extra r); name (extra r); version (extra r)].

Definition strings_of_resource (r : ResourceInfo) : list jsstring :=
  [url r; description r; mimeType r].

(** A code unit above U+00FF that is no surrogate: [JSON.stringify] prints it
    as it is. *)
Definition beyond_latin1 (c : N) : bool :=
  (255 <? c) && negb (is_high_surrogate c) && negb (is_low_surrogate c).

(** Some string inside the value holds the code unit [c]. *)
Fixpoint mentions (c : N) (v : JSON) : bool :=
  match v with
  | JStr s => existsb (N.eqb c) s
  | JArr l => existsb (mentions c) l
  | JObj o => existsb (fun kv => mentions c (snd kv)) o
  | _ => false
  end.

(** Every string and key inside the value is Latin-1. *)
Fixpoint json_latin1 (v : JSON) : bool :=
  match v with
  | JStr s => latin1 s
  | JArr l => forallb json_latin1 l
  | JObj o => forallb (fun kv => latin1 (fst kv) && json_latin1 (snd kv)) o
  | _ => true
  end.

(** [Number.isSafeInteger]: the integers a number holds exactly and [String]
    prints in full. *)
Definition safe_integer (z : Z) : bool :=
  (Z.abs z <=? 9007199254740991)%Z.

Definition safe_option (n : option Z) : bool :=
  match n with
  | Some z => safe_integer z
  | None => true
  end.






(** The parameter [name], when a value is given for it. *)
Definition given (name : string) (value : option jsstring) : URLSearchParams :=
  match value with
  | Some v => [(js name, v)]
  | None => []
  end.

(** What the receiver reads of a parameter. *)
Definition received (nv : jsstring * jsstring) : list N * list N :=
  (utf8_encode (fst nv), utf8_encode (snd nv)).

(** The transport calls of a program run from the empty history: there is
    one, and all go to [u]. *)
Definition calls (env : Env) (p : Prog JSON) : list (jsstring * Headers) :=
  fetches (snd (run env p [])).

Definition goes_to (env : Env) (p : Prog JSON) (u : jsstring) (hs : Headers)
  : Prop :=
  exists more,
    calls env p = (u, hs) :: more /\ Forall (fun x => fst x = u) more.

(** What [toString] writes for one parameter. *)
Definition pair_text (nv : jsstring * jsstring) : jsstring :=
  form_encode (fst nv) ++ js "=" ++ form_encode (snd nv).

(** The characters a serialized query is made of, besides the separators
    [&] and [=] that [toString] itself puts in. *)
Definition is_query_char (c : N) : bool :=
  is_form_safe c || (c =? 43) || (c =? 37).

(** The characters the integer literals that [BigInt] reads are made of:
    white space around the literal, a sign, the digits of the radices 2, 8,
    10 and 16, and the radix marks [x] and [o] ([b] is a digit too). *)
Definition is_literal_char (c : N) : bool :=
  is_whitespace c
  || match digit_val c with Some _ => true | None => false end
  || (c =? ch "-") || (c =? ch "+")
  || (c =? ch "x") || (c =? ch "X") || (c =? ch "o") || (c =? ch "O").

(** The headers of a response that [get('payment-required')] finds: those
    whose name is that, whatever the case of its letters. *)
Definition challenge_headers (response : Response) : Headers :=
  filter (fun nv => str_eqb (map ascii_lower (fst nv))
                            (js "payment-required"))
         (headers response).

Definition ascii (s : jsstring) : bool := forallb (fun c => c <? 128) s.

(** The class an error of a response belongs to, by the status. *)
Definition class_of_status (st : Z) : ErrorClass :=
  if ((st =? 401) || (st =? 403))%Z then AuthenticationErrorClass
  else if (st =? 402)%Z then PaymentRequiredErrorClass
  else DenScopeErrorClass.

(** What [handleResponse] makes the body of the error. *)
Definition error_body (response : Response) : option JSON :=
  match json response, text response with
  | Ok v, _ => Some v
  | Err _, Ok s => Some (JStr s)
  | Err _, Err _ => None
  end.


End Properties.

Import Properties.

(* ================================================================== *)
(** * Further cases of [__tests__/client.test.ts] *)
(* ================================================================== *)

Module Scenarios.

Definition slash_config : DenScopeConfig :=
  {| apiKey := Some (js "ds_test123"); account := None;
     baseUrl := Some (js "https://custom.api.com/") |}.

Definition response_of_status (st : Z) : Response :=
  {| status := st; headers := [];
     json := Ok (JObj [(js "error", JStr (js "Unauthorized"))]);
     text := Ok (js "Unauthorized") |}.

(** The server answers every call with [r]. *)
Definition constant_world (r : Response) : Env := world r r.

(** The network is down. *)
Definition offline_world : Env :=
  {| transport := fun _ _ _ => Err (Rejected (JStr (js "fetch failed")));
     signTypedData := fun _ _ => Ok (js "0xsig");
     entropy := fun _ => Byte.x00;
     Date_now := fun _ => 1700000000123%Z |}.

(** The server asks for payment, and the holder of the key declines to
    sign. *)
Definition declining_world : Env :=
  {| transport := transport paying_world;
     signTypedData := fun _ _ => Err (Rejected (JStr (js "User rejected")));
     entropy := entropy paying_world;
     Date_now := Date_now paying_world |}.

(** The network goes down after the challenge. *)
Definition dropping_world : Env :=
  {| transport := fun t _ _ =>
       match fetches t with
       | [] => Ok (challenge_response MOCK_PAYMENT_REQUIRED_BODY)
       | _ => Err (Rejected (JStr (js "fetch failed")))
       end;
     signTypedData := signTypedData paying_world;
     entropy := entropy paying_world;
     Date_now := Date_now paying_world |}.

(** A requirement whose amount is no integer literal. *)
Definition decimal_amount_requirement : PaymentRequirement :=
  {| scheme := js "exact";
     network := js "eip155:42220";
     amount := js "0.01";
     asset := js "0xcebA9300f2b948710d2653dD7B07f33A8B32118C";
     payTo := js "0xPayTo";
     maxTimeoutSeconds := Int 30;
     extra := {| assetTransferMethod := js "eip3009";
                 name := js "USD Coin";
                 version := js "2" |} |}.

(** A resource whose description holds the euro sign, U+20AC. *)
Definition euro_resource : ResourceInfo :=
  {| url := js "https://denscope.vercel.app/api/v1/agent/42220/5/score";
     description := js "Trust score, 0.01 " ++ [8364];
     mimeType := js "application/json" |}.

(** A second requirement, on another chain and to another payee. *)
Definition other_requirement : PaymentRequirement :=
  {| scheme := js "exact";
     network := js "eip155:1";
     amount := js "5";
     asset := js "0xOtherAsset";
     payTo := js "0xOtherPayTo";
     maxTimeoutSeconds := Int 60;
     extra := {| assetTransferMethod := js "eip3009";
                 name := js "Other";
                 version := js "1" |} |}.

Definition two_offers_challenge : PaymentRequiredBody :=
  {| x402Version := Int 2;
     accepts := [MOCK_REQUIREMENT; other_requirement];
     resource := MOCK_RESOURCE;
     error := js "missing payment header" |}.

Definition two_offers_world : Env :=
  world (challenge_response two_offers_challenge) response_200.

(** A requirement whose network names no chain. *)
Definition unnamed_chain_requirement : PaymentRequirement :=
  {| scheme := js "exact";
     network := js "eip155:mainnet";
     amount := js "1000";
     asset := js "0xcebA9300f2b948710d2653dD7B07f33A8B32118C";
     payTo := js "0xPayTo";
     maxTimeoutSeconds := Int 30;
     extra := {| assetTransferMethod := js "eip3009";
                 name := js "USD Coin";
                 version := js "2" |} |}.

(** [btoa(JSON.stringify(v))] of any value, and the 402 response that
    carries it as its challenge. *)
Definition encode_value (v : JSON) : jsstring :=
  match btoa (JSON_stringify v) with
  | Some h => h
  | None => []
  end.

Definition value_response (v : JSON) : Response :=
  response_402 [(js "payment-required", encode_value v)].

(** A challenge that is nothing but an empty list of offers. *)
Definition bare_empty_challenge : JSON := JObj [(js "accepts", JArr [])].

Definition bare_empty_world : Env :=
  world (value_response bare_empty_challenge) response_200.





(** A challenge whose first offer names no network. *)
Definition unnamed_network_challenge : JSON :=
  JObj [(js "accepts", JArr [JObj [(js "amount", JStr (js "1000"))]])].

Definition unnamed_network_world : Env :=
  world (value_response unnamed_network_challenge) response_200.

Definition events_options : EventsOptions.t :=
  {| EventsOptions.limit := Some 10%Z;
     EventsOptions.offset := Some 20%Z;
     EventsOptions.kind := Some (js "feedback") |}.

Definition search_options : SearchOptions.t :=
  {| SearchOptions.q := Some (js "0xabc");
     SearchOptions.chainId := Some 42220%Z;
     SearchOptions.limit := Some 5%Z |}.

(** A search term that tries to add a parameter of its own. *)
Definition crafted_search : SearchOptions.t :=
  {| SearchOptions.q := Some (js "a b&limit=1000#");
     SearchOptions.chainId := None;
     SearchOptions.limit := Some 5%Z |}.

End Scenarios.

Import Scenarios.

(* ================================================================== *)
(** * The model on the cases of the test suite *)
(* ================================================================== *)

Section PlatformExamples.

Example split_network :
  split (ch ":") (js "eip155:42220") = [js "eip155"; js "42220"]
  /\ split (ch ":") (js "eip155") = [js "eip155"]
  /\ split (ch ":") (js "a::b") = [js "a"; []; js "b"]
  /\ split (ch ":") [] = [[]].
Proof. repeat split; reflexivity. Qed.

Example parseInt_cases :
  parseInt10 (js "42220") = Int 42220
  /\ parseInt10 (js " -12abc") = Int (-12)
  /\ parseInt10 (js "0x10") = Int 0
  /\ parseInt10 (js "abc") = NaN
  /\ parseInt10 [] = NaN.
Proof. repeat split; reflexivity. Qed.

Example BigInt_cases :
  StringToBigInt (js "1000") = Some 1000%Z
  /\ StringToBigInt (js "0x10") = Some 16%Z
  /\ StringToBigInt (js " 12 ") = Some 12%Z
  /\ StringToBigInt (js "-7") = Some (-7)%Z
  /\ StringToBigInt [] = Some 0%Z
  /\ StringToBigInt (js "1.5") = None
  /\ StringToBigInt (js "-0x10") = None.
Proof. repeat split; reflexivity. Qed.

Example toString_cases :
  N_toString 16 255 = js "ff"
  /\ N_toString 16 10 = js "a"
  /\ padStart 2 (js "0") (N_toString 16 10) = js "0a"
  /\ N_toString 10 0 = js "0"
  /\ String_of_Z 1700003600 = js "1700003600"
  /\ String_of_Z (-42) = js "-42".
Proof. repeat split; reflexivity. Qed.

Example base64_cases :
  btoa (js "Man") = Some (js "TWFu")
  /\ btoa (js "Ma") = Some (js "TWE=")
  /\ btoa (js "M") = Some (js "TQ==")
  /\ btoa [8364] = None
  /\ atob (js "TWFu") = Some (js "Man")
  /\ atob (js "TWE=") = Some (js "Ma")
  /\ atob (js "TQ") = Some (js "M")
  /\ atob (js " T W E = ") = Some (js "Ma")
  /\ atob (js "TWE==") = None
  /\ atob (js "!!!invalid!!!") = None.
Proof. repeat split; reflexivity. Qed.

Example JSON_cases :
  JSON_parse (js " [1, 2.50, -3e2, 1e-2, true, null] ")
  = Some (JArr [JNum (Int 1); JNum (Frac 25 1); JNum (Int (-300));
                JNum (Frac 1 2); JBool true; JNull])
  /\ JSON_parse (js "[1,]") = None
  /\ JSON_parse (js "01") = None
  /\ JSON_parse [] = None
  /\ JSON_stringify (JArr [JStr [10; 34; 233]; JNum NaN])
     = js "[" ++ [34; 92; 110; 92; 34; 233; 34] ++ js ",null]"
  /\ JSON_parse (JSON_stringify
                   (JObj [(js "b", JNum (Int 1)); (js "7", JNull);
                          (js "b", JBool false)]))
     = Some (JObj [(js "7", JNull); (js "b", JBool false)]).
Proof. repeat split; vm_compute; reflexivity. Qed.

End PlatformExamples.

Section TestSuite.

(** [x402.test.ts]: decodes base64 PAYMENT-REQUIRED header. *)
Example decodes_header :
  decodePaymentRequired (challenge_response MOCK_PAYMENT_REQUIRED_BODY)
  = Ok (PaymentRequiredBody_json MOCK_PAYMENT_REQUIRED_BODY).
Proof. vm_compute. reflexivity. Qed.

(** [x402.test.ts]: throws if PAYMENT-REQUIRED header is missing. *)
Example throws_if_missing :
  decodePaymentRequired (response_402 []) = Err MissingChallenge.
Proof. reflexivity. Qed.

(** [x402.test.ts]: throws if header is not valid base64 JSON. *)
Example throws_if_not_base64 :
  decodePaymentRequired
    (response_402 [(js "payment-required", js "!!!invalid!!!")])
  = Err MalformedChallenge.
Proof. vm_compute. reflexivity. Qed.

(** [x402.test.ts]: the X-PAYMENT string decodes to the envelope, with the
    resource and the requirement of the 402 response, strings in the wire
    format, and a nonce of 32 bytes. *)
Example builds_header :
  match atob mock_header with
  | Some text => JSON_parse text
  | None => None
  end
  = Some (envelope x402_config MOCK_REQUIREMENT MOCK_RESOURCE (js "0xsig")
            1700003600
            (js "0x000102030405060708090a0b0c0d0e0f101112131415161718191a1b1c1d1e1f")).
Proof. vm_compute. reflexivity. Qed.

(** [x402.test.ts]: extracts EIP-712 domain from 402 response, signs with
    the EIP-3009 types. *)
Example signs_with_domain :
  map (fun a => (domain a, primaryType a, types a)) (signings mock_trace)
  = [({| Domain.name := str (js "USD Coin");
         Domain.version := str (js "2");
         Domain.chainId := Int 42220;
         Domain.verifyingContract :=
           str (js "0xcebA9300f2b948710d2653dD7B07f33A8B32118C") |},
      js "TransferWithAuthorization", EIP3009_TYPES)].
Proof. vm_compute. reflexivity. Qed.

(** [x402.test.ts]: throws for unsupported network format. *)
Example throws_for_solana :
  parseChainId (js "solana:mainnet")
  = Err (UnsupportedNetwork (js "solana:mainnet")).
Proof. reflexivity. Qed.

(** [client.test.ts]: sends Authorization header and returns the body. *)
Example api_key_request :
  let result :=
    run (world response_200 response_200) (getScore apiKey_config 42220 5) []
  in
  fst result = Returns scoreBody
  /\ fetches (snd result)
     = [(js "https://denscope.vercel.app/api/v1/agent/42220/5/score",
         [(js "Authorization", js "Bearer ds_test123")])].
Proof. split; vm_compute; reflexivity. Qed.

(** [client.test.ts]: respects custom baseUrl. *)
Example custom_baseUrl :
  request_url {| apiKey := Some (js "ds_test123"); account := None;
                 baseUrl := Some (js "https://custom.example.com/") |}
    (js "/search")
  = js "https://custom.example.com/api/v1/search".
Proof. reflexivity. Qed.

(** [client.test.ts]: throws PaymentRequiredError on 402 without x402
    account. *)
Example api_key_402 :
  let result :=
    run bare_402_world (request apiKey_config score_path) [] in
  fst result
  = Throws (Thrown (new_PaymentRequiredError (js "Payment required")
                      (Some (JObj [(js "error",
                                    JStr (js "payment required"))]))))
  /\ length (fetches (snd result)) = 1%nat.
Proof. split; vm_compute; reflexivity. Qed.

(** [client.test.ts]: retries with X-PAYMENT header on 402. *)
Example retries_with_payment :
  let result := run paying_world (getScore account_config 42220 5) [] in
  fst result = Returns scoreBody
  /\ map snd (fetches (snd result)) = [[]; [(js "X-PAYMENT", mock_header)]]
  /\ length (signings (snd result)) = 1%nat.
Proof. repeat split; vm_compute; reflexivity. Qed.

End TestSuite.

(* ================================================================== *)
(** * Facts about the platform functions *)
(* ================================================================== *)

Section StringFacts.

Lemma str_eqb_eq (a b : jsstring) : str_eqb a b = true <-> a = b.
Proof.
  revert b; induction a as [|x a IH]; intros [|y b]; simpl;
    try (split; congruence).
  rewrite andb_true_iff, N.eqb_eq, IH.
  split; [intros [-> ->]; reflexivity | intros H; inversion H; auto].
Qed.

Lemma str_eqb_refl (a : jsstring) : str_eqb a a = true.
Proof. apply str_eqb_eq; reflexivity. Qed.

Lemma str_eqb_neq (a b : jsstring) : str_eqb a b = false <-> a <> b.
Proof.
  rewrite <- str_eqb_eq. destruct (str_eqb a b); split; congruence.
Qed.

Lemma split_not_nil (sep : N) (s : jsstring) : split sep s <> [].
Proof.
  destruct s as [|c r]; simpl; [discriminate|].
  destruct (c =? sep); [discriminate|].
  destruct (split sep r); discriminate.
Qed.

(** Joining the parts with the separator gives the string back. *)
Lemma split_join (sep : N) (s : jsstring) : join [sep] (split sep s) = s.
Proof.
  induction s as [|c r IH]; simpl; [reflexivity|].
  destruct (N.eqb_spec c sep) as [->|Hne].
  - destruct (split sep r) as [|p ps] eqn:E.
    + exfalso; eapply split_not_nil; eauto.
    + change (join [sep] ([] :: p :: ps)) with (sep :: join [sep] (p :: ps)).
      rewrite IH; reflexivity.
  - destruct (split sep r) as [|p ps] eqn:E.
    + exfalso; eapply split_not_nil; eauto.
    + rewrite <- IH. destruct ps; reflexivity.
Qed.

(** No part contains the separator. *)
Lemma split_parts (sep : N) (s : jsstring) :
  Forall (fun p => ~ In sep p) (split sep s).
Proof.
  induction s as [|c r IH]; simpl.
  - constructor; [intros []|constructor].
  - destruct (N.eqb_spec c sep) as [->|Hne].
    + constructor; [intros []|exact IH].
    + destruct (split sep r) as [|p ps]; [repeat constructor; intros [H|[]]; congruence|].
      inversion IH; subst. constructor; [|assumption].
      intros [H|H]; [congruence|auto].
Qed.

Lemma split_free (sep : N) (s : jsstring) :
  ~ In sep s -> split sep s = [s].
Proof.
  induction s as [|c r IH]; simpl; intros H; [reflexivity|].
  destruct (N.eqb_spec c sep) as [->|Hne]; [exfalso; auto|].
  rewrite IH by auto. reflexivity.
Qed.

Lemma split_app (sep : N) (a b : jsstring) :
  ~ In sep a -> split sep (a ++ sep :: b) = a :: split sep b.
Proof.
  induction a as [|c r IH]; simpl; intros H.
  - rewrite N.eqb_refl. reflexivity.
  - destruct (N.eqb_spec c sep) as [->|Hne]; [exfalso; auto|].
    rewrite IH by auto. reflexivity.
Qed.

(** [split] gives exactly two parts on the strings with one separator. *)
Lemma split_two (sep : N) (s a b : jsstring) :
  split sep s = [a; b] <->
  s = a ++ sep :: b /\ ~ In sep a /\ ~ In sep b.
Proof.
  split.
  - intros E. pose proof (split_join sep s) as J.
    pose proof (split_parts sep s) as P. rewrite E in J, P.
    inversion P as [|? ? Pa P']. inversion P' as [|? ? Pb ?].
    simpl in J. rewrite <- J. auto.
  - intros (-> & Ha & Hb). rewrite split_app, split_free by assumption.
    reflexivity.
Qed.

End StringFacts.

(* ================================================================== *)
(** * [parseChainId] *)
(* ================================================================== *)

Section ParseChainId.

Lemma parseChainId_supported (suffix : jsstring) :
  ~ In (ch ":") suffix ->
  parseChainId (js "eip155:" ++ suffix) = Ok (parseInt10 suffix).
Proof.
  intros H. unfold parseChainId.
  change (js "eip155:" ++ suffix) with (js "eip155" ++ ch ":" :: suffix).
  rewrite split_app, split_free by (assumption || (vm_compute; intuition discriminate)).
  reflexivity.
Qed.

Lemma parseChainId_cases (network : jsstring) :
  (supported_network network /\
   exists suffix, network = js "eip155:" ++ suffix /\
                  parseChainId network = Ok (parseInt10 suffix))
  \/ (~ supported_network network /\
      parseChainId network = Err (UnsupportedNetwork network)).
Proof.
  unfold parseChainId.
  destruct (split (ch ":") network) as [|a [|b [|c l]]] eqn:E; simpl.
  - exfalso; eapply split_not_nil; eauto.
  - right; split; [|reflexivity].
    intros (s & -> & Hs).
    change (js "eip155:" ++ s) with (js "eip155" ++ ch ":" :: s) in E.
    rewrite split_app, split_free in E
      by (assumption || (vm_compute; intuition discriminate)).
    discriminate.
  - apply split_two in E. destruct E as (-> & Ha & Hb).
    destruct (str_eqb a (js "eip155")) eqn:Ea; simpl.
    + apply str_eqb_eq in Ea; subst a. left. split.
      * exists b; split; [reflexivity|assumption].
      * exists b; split; reflexivity.
    + right; split; [|reflexivity].
      intros (s & Es & Hs). apply str_eqb_neq in Ea. apply Ea.
      change (js "eip155:" ++ s) with (js "eip155" ++ ch ":" :: s) in Es.
      apply (f_equal (split (ch ":"))) in Es.
      rewrite !split_app in Es
        by (assumption || (vm_compute; intuition discriminate)).
      congruence.
  - right; split; [|reflexivity].
    intros (s & -> & Hs).
    change (js "eip155:" ++ s) with (js "eip155" ++ ch ":" :: s) in E.
    rewrite split_app, split_free in E
      by (assumption || (vm_compute; intuition discriminate)).
    discriminate.
Qed.

End ParseChainId.

(* ================================================================== *)
(** * Decimal and hexadecimal digits *)
(* ================================================================== *)

Section Digits.

Lemma digit_val_char (d : N) : d < 16 -> digit_val (digit_char d) = Some d.
Proof.
  intros H. unfold digit_val, digit_char.
  destruct (N.ltb_spec d 10).
  - replace ((48 <=? 48 + d) && (48 + d <=? 57)) with true
      by (symmetry; apply andb_true_iff; split; apply N.leb_le; lia).
    f_equal; lia.
  - replace ((48 <=? 87 + d) && (87 + d <=? 57)) with false
      by (symmetry; apply andb_false_iff; right; apply N.leb_gt; lia).
    replace ((97 <=? 87 + d) && (87 + d <=? 102)) with true
      by (symmetry; apply andb_true_iff; split; apply N.leb_le; lia).
    f_equal; lia.
Qed.

Lemma digits_of_acc (fuel : nat) (radix n : N) (acc : jsstring) :
  digits_of fuel radix n acc = digits_of fuel radix n [] ++ acc.
Proof.
  revert n acc. induction fuel as [|f IH]; intros n acc; simpl.
  - reflexivity.
  - destruct (n <? radix); [reflexivity|].
    rewrite IH. rewrite (IH _ [_]). rewrite <- app_assoc. reflexivity.
Qed.

(** The digits of [n], least significant last. *)
Lemma digits_of_small (fuel : nat) (radix n : N) :
  n < radix -> n < 2 ^ (N.of_nat fuel + 1) ->
  2 <= radix ->
  digits_of fuel radix n [] = [digit_char n].
Proof.
  intros H Hb Hr. destruct fuel; simpl.
  - rewrite N.mod_small by assumption. reflexivity.
  - destruct (N.ltb_spec n radix); [|lia].
    rewrite N.mod_small by assumption. reflexivity.
Qed.

Lemma digits_of_step (f : nat) (radix n : N) :
  radix <= n ->
  digits_of (S f) radix n []
  = digits_of f radix (n / radix) [] ++ [digit_char (n mod radix)].
Proof.
  intros H. simpl. destruct (N.ltb_spec n radix); [lia|].
  apply digits_of_acc.
Qed.

Lemma digits_value_app (radix : N) (a : jsstring) (c : N) :
  digits_value radix (a ++ [c])
  = digits_value radix a * radix
    + match digit_val c with Some d => d | None => 0 end.
Proof. unfold digits_value. rewrite fold_left_app. reflexivity. Qed.

Lemma pow2_half (f : nat) (radix n : N) :
  2 <= radix -> n < 2 ^ (N.of_nat (S f) + 1) ->
  n / radix < 2 ^ (N.of_nat f + 1).
Proof.
  intros Hr Hn.
  replace (N.of_nat (S f) + 1) with (N.succ (N.of_nat f + 1)) in Hn by lia.
  rewrite N.pow_succ_r' in Hn.
  apply N.Div0.div_lt_upper_bound.
  nia.
Qed.

Lemma single_digit_spec (radix n : N) :
  n < radix -> radix <= 16 ->
  digits_value radix [digit_char n] = n
  /\ forallb (is_radix_digit radix) [digit_char n] = true
  /\ (digit_char n = ch "0" -> n = 0).
Proof.
  intros H Hr. assert (Hd : n < 16) by lia.
  pose proof (digit_val_char Hd) as Hv.
  split; [|split].
  - unfold digits_value; simpl. rewrite Hv. lia.
  - simpl. unfold is_radix_digit. rewrite Hv.
    rewrite andb_true_r. apply N.ltb_lt; assumption.
  - intros E. rewrite E in Hv. vm_compute in Hv. congruence.
Qed.

(** What [digits_of] computes, given fuel for the size of [n]. *)
Lemma digits_of_spec (radix : N) :
  2 <= radix -> radix <= 16 ->
  forall (fuel : nat) (n : N),
    n < 2 ^ (N.of_nat fuel + 1) ->
    let ds := digits_of fuel radix n [] in
    digits_value radix ds = n
    /\ forallb (is_radix_digit radix) ds = true
    /\ ds <> []
    /\ (forall c r, ds = c :: r -> c = ch "0" -> n = 0 /\ r = []).
Proof.
  intros Hr Hr'. induction fuel as [|f IH]; intros n Hn.
  - assert (Hlt : n < radix) by (simpl in Hn; lia).
    rewrite digits_of_small by assumption. cbv zeta.
    destruct (single_digit_spec Hlt Hr') as (Hv & Ha & Hz).
    split; [exact Hv|]. split; [exact Ha|]. split; [discriminate|].
    intros c r E Hc. inversion E; subst. split; [auto|reflexivity].
  - destruct (N.lt_ge_cases n radix) as [Hlt|Hge].
    + rewrite digits_of_small by (assumption || lia). cbv zeta.
      destruct (single_digit_spec Hlt Hr') as (Hv & Ha & Hz).
      split; [exact Hv|]. split; [exact Ha|]. split; [discriminate|].
      intros c r E Hc. inversion E; subst. split; [auto|reflexivity].
    + rewrite digits_of_step by assumption. cbv zeta.
      destruct (IH (n / radix) (pow2_half Hr Hn)) as (Hv & Ha & Hne & Hz).
      assert (Hm : n mod radix < radix) by (apply N.mod_lt; lia).
      assert (Hd : n mod radix < 16) by lia.
      split; [|split; [|split]].
      * rewrite digits_value_app, Hv, digit_val_char by assumption.
        rewrite (N.div_mod n radix) at 3 by lia. lia.
      * rewrite forallb_app, Ha. simpl. unfold is_radix_digit.
        rewrite digit_val_char by assumption.
        rewrite andb_true_r. apply N.ltb_lt; assumption.
      * intros E. apply app_eq_nil in E. destruct E; discriminate.
      * intros c r E Hc. exfalso.
        destruct (digits_of f radix (n / radix) []) as [|c' r'] eqn:E';
          [congruence|].
        simpl in E. inversion E; subst c'.
        destruct (Hz c r' eq_refl Hc) as [Hq _].
        assert (0 < n / radix) by (apply N.div_str_pos; lia). lia.
Qed.

Lemma log2_fuel (n : N) : n < 2 ^ (N.of_nat (N.to_nat (N.log2 n)) + 1).
Proof.
  rewrite N2Nat.id. destruct n as [|p]; [reflexivity|].
  replace (N.log2 (N.pos p) + 1) with (N.succ (N.log2 (N.pos p))) by lia.
  apply N.log2_spec. lia.
Qed.

Lemma N_toString_spec (radix n : N) :
  2 <= radix -> radix <= 16 ->
  digits_value radix (N_toString radix n) = n
  /\ forallb (is_radix_digit radix) (N_toString radix n) = true
  /\ N_toString radix n <> []
  /\ (forall c r, N_toString radix n = c :: r -> c = ch "0" ->
                  n = 0 /\ r = []).
Proof.
  intros Hr Hr'. apply (digits_of_spec Hr Hr'). apply log2_fuel.
Qed.

Lemma radix10_digit (c : N) : is_radix_digit 10 c = is_digit c.
Proof.
  unfold is_radix_digit, is_digit, digit_val.
  destruct ((48 <=? c) && (c <=? 57)) eqn:E1.
  - apply andb_true_iff in E1. destruct E1 as [H1 H2].
    apply N.leb_le in H1, H2. apply N.ltb_lt. lia.
  - destruct ((97 <=? c) && (c <=? 102)) eqn:E2.
    + apply andb_true_iff in E2. destruct E2 as [H1 H2].
      apply N.leb_le in H1, H2. apply N.ltb_ge. lia.
    + destruct ((65 <=? c) && (c <=? 70)) eqn:E3; [|reflexivity].
      apply andb_true_iff in E3. destruct E3 as [H1 H2].
      apply N.leb_le in H1, H2. apply N.ltb_ge. lia.
Qed.

Lemma forallb_radix10 (s : jsstring) :
  forallb (is_radix_digit 10) s = forallb is_digit s.
Proof.
  induction s as [|c r IH]; simpl; [reflexivity|].
  rewrite radix10_digit, IH. reflexivity.
Qed.

(** The decimal digits of a natural number. *)
Lemma decimal_digits (n : N) :
  forallb is_digit (N_toString 10 n) = true
  /\ N_toString 10 n <> []
  /\ digits_value 10 (N_toString 10 n) = n.
Proof.
  destruct (@N_toString_spec 10 n) as (Hv & Ha & Hne & _); try lia.
  rewrite forallb_radix10 in Ha. auto.
Qed.

Lemma span_all (p : N -> bool) (a rest : jsstring) :
  forallb p a = true ->
  match rest with [] => True | c :: _ => p c = false end ->
  span p (a ++ rest) = (a, rest).
Proof.
  induction a as [|c r IH]; simpl; intros Ha Hr.
  - destruct rest as [|c r]; [reflexivity|]. simpl. rewrite Hr. reflexivity.
  - apply andb_true_iff in Ha. destruct Ha as [Hc Ha].
    rewrite Hc, IH by assumption. reflexivity.
Qed.

Lemma is_digit_not_whitespace (c : N) :
  is_digit c = true -> is_whitespace c = false.
Proof.
  unfold is_digit, is_whitespace. intros H.
  apply andb_true_iff in H. destruct H as [H1 H2].
  apply N.leb_le in H1, H2.
  repeat (apply orb_false_iff; split);
    try (apply N.eqb_neq; lia).
  apply andb_false_iff. left. apply N.leb_gt. lia.
Qed.

Lemma trimStart_head (c : N) (r : jsstring) :
  is_whitespace c = false -> trimStart (c :: r) = c :: r.
Proof. intros H. simpl. rewrite H. reflexivity. Qed.

(** A string that neither starts nor ends with white space is its own
    trimmed form. *)
Lemma trim_id (s : jsstring) :
  match s with [] => True | c :: _ => is_whitespace c = false end ->
  match rev s with [] => True | c :: _ => is_whitespace c = false end ->
  trim s = s.
Proof.
  intros Hh Hl. unfold trim, trimEnd.
  assert (E : trimStart s = s) by (destruct s; [reflexivity|apply trimStart_head; assumption]).
  rewrite E.
  assert (E' : trimStart (rev s) = rev s)
    by (destruct (rev s); [reflexivity|apply trimStart_head; assumption]).
  rewrite E'. apply rev_involutive.
Qed.

Lemma digits_trim (s : jsstring) :
  forallb is_digit s = true -> trim s = s.
Proof.
  intros H. apply trim_id.
  - destruct s as [|c r]; [exact I|]. simpl in H.
    apply andb_true_iff in H. apply is_digit_not_whitespace. tauto.
  - destruct (rev s) as [|c r] eqn:E; [exact I|].
    apply is_digit_not_whitespace.
    rewrite forallb_forall in H. apply H. apply in_rev. rewrite E. left; reflexivity.
Qed.

Lemma is_digit_cases (c : N) :
  is_digit c = true ->
  (c =? ch "-") = false /\ (c =? ch "+") = false
  /\ (c =? ch "x") = false /\ (c =? ch "X") = false
  /\ (c =? ch "o") = false /\ (c =? ch "O") = false
  /\ (c =? ch "b") = false /\ (c =? ch "B") = false.
Proof.
  unfold is_digit. intros H. apply andb_true_iff in H. destruct H as [H1 H2].
  apply N.leb_le in H1, H2.
  repeat split; apply N.eqb_neq; vm_compute ch; lia.
Qed.

(** [BigInt] reads a digit string as the number it denotes. *)
Lemma StringToBigInt_digits (s : jsstring) :
  s <> [] -> forallb is_digit s = true ->
  StringToBigInt s = Some (Z.of_N (digits_value 10 s)).
Proof.
  intros Hne Hd. unfold StringToBigInt. rewrite (digits_trim _ Hd).
  destruct s as [|c0 r0]; [congruence|].
  assert (Hall : all_radix_digits 10 (c0 :: r0) = true)
    by (unfold all_radix_digits; rewrite forallb_radix10; exact Hd).
  pose proof Hd as Hd'. simpl in Hd'. apply andb_true_iff in Hd'.
  destruct Hd' as [Hc0 Hr0].
  destruct (is_digit_cases _ Hc0) as (E1 & E2 & _).
  rewrite E1, E2.
  destruct (c0 =? ch "0"); [|rewrite Hall; reflexivity].
  destruct r0 as [|c1 ds]; [rewrite Hall; reflexivity|].
  simpl in Hr0. apply andb_true_iff in Hr0. destruct Hr0 as [Hc1 _].
  destruct (is_digit_cases _ Hc1) as (_ & _ & E3 & E4 & E5 & E6 & E7 & E8).
  rewrite E3, E4, E5, E6, E7, E8. cbn [orb]. rewrite Hall. reflexivity.
Qed.

Lemma StringToBigInt_String (z : Z) : StringToBigInt (String_of_Z z) = Some z.
Proof.
  destruct z as [|p|p]; simpl String_of_Z.
  - reflexivity.
  - destruct (decimal_digits (N.pos p)) as (Hd & Hne & Hv).
    rewrite StringToBigInt_digits, Hv by assumption. reflexivity.
  - destruct (decimal_digits (N.pos p)) as (Hd & Hne & Hv).
    unfold StringToBigInt.
    rewrite trim_id.
    + rewrite N.eqb_refl. unfold all_radix_digits.
      destruct (N_toString 10 (N.pos p)) as [|c r] eqn:E; [congruence|].
      rewrite forallb_radix10, Hd, Hv. reflexivity.
    + reflexivity.
    + simpl. destruct (rev (N_toString 10 (N.pos p))) as [|c r] eqn:E.
      * reflexivity.
      * simpl. apply is_digit_not_whitespace.
        rewrite forallb_forall in Hd. apply Hd. apply in_rev. rewrite E.
        left; reflexivity.
Qed.

Lemma String_of_Z_decimal (z : Z) : is_decimal_string (String_of_Z z) = true.
Proof.
  destruct z as [|p|p]; simpl String_of_Z.
  - reflexivity.
  - destruct (decimal_digits (N.pos p)) as (Hd & Hne & Hv).
    unfold is_decimal_string, is_digits.
    destruct (N_toString 10 (N.pos p)) as [|c r] eqn:E; [congruence|].
    pose proof Hd as Hd'. simpl in Hd'. apply andb_true_iff in Hd'.
    destruct (is_digit_cases c (proj1 Hd')) as (E1 & _). rewrite E1. exact Hd.
  - destruct (decimal_digits (N.pos p)) as (Hd & Hne & Hv).
    unfold is_decimal_string, is_digits. rewrite N.eqb_refl.
    destruct (N_toString 10 (N.pos p)) as [|c r] eqn:E; [congruence|].
    exact Hd.
Qed.

(** [parseInt] reads a digit string as the number it denotes. *)
Lemma parseInt10_digits (s : jsstring) :
  s <> [] -> forallb is_digit s = true ->
  parseInt10 s = Int (Z.of_N (digits_value 10 s)).
Proof.
  intros Hne Hd. unfold parseInt10.
  destruct s as [|c r]; [congruence|].
  pose proof Hd as Hd'. simpl in Hd'. apply andb_true_iff in Hd'.
  destruct Hd' as [Hc Hr].
  rewrite trimStart_head by (apply is_digit_not_whitespace; assumption).
  destruct (is_digit_cases _ Hc) as (E1 & E2 & _). rewrite E1, E2.
  rewrite <- (app_nil_r (c :: r)) at 1.
  rewrite span_all by (assumption || exact I).
  reflexivity.
Qed.

End Digits.

(* ================================================================== *)
(** * Chain identifiers that are no numbers *)
(* ================================================================== *)

Section ChainIds.

Lemma parseInt10_leading (ds rest : jsstring) :
  ds <> [] -> forallb is_digit ds = true ->
  match rest with [] => True | c :: _ => is_digit c = false end ->
  parseInt10 (ds ++ rest) = Int (Z.of_N (digits_value 10 ds)).
Proof.
  intros Hne Hd Hr. unfold parseInt10.
  destruct ds as [|c r]; [congruence|].
  pose proof Hd as Hd'. simpl in Hd'. apply andb_true_iff in Hd'.
  destruct Hd' as [Hc _].
  change ((c :: r) ++ rest) with (c :: r ++ rest).
  rewrite trimStart_head by (apply is_digit_not_whitespace; assumption).
  destruct (is_digit_cases _ Hc) as (E1 & E2 & _). rewrite E1, E2.
  change (c :: r ++ rest) with ((c :: r) ++ rest).
  rewrite span_all by assumption.
  reflexivity.
Qed.

Lemma parseInt10_no_number (s : jsstring) :
  match s with
  | [] => True
  | c :: _ => is_digit c = false /\ is_whitespace c = false
              /\ c <> ch "-" /\ c <> ch "+"
  end ->
  parseInt10 s = NaN.
Proof.
  unfold parseInt10. destruct s as [|c r]; [reflexivity|].
  intros (Hd & Hw & Hm & Hp).
  rewrite trimStart_head by exact Hw.
  destruct (N.eqb_spec c (ch "-")); [contradiction|].
  destruct (N.eqb_spec c (ch "+")); [contradiction|].
  cbn [span]. rewrite Hd. reflexivity.
Qed.

End ChainIds.

(* ================================================================== *)
(** * Histories *)
(* ================================================================== *)

Section Histories.

Lemma signings_app (a b : Trace) : signings (a ++ b) = signings a ++ signings b.
Proof.
  induction a as [|o a IH]; simpl; [reflexivity|].
  destruct o; simpl; rewrite IH; reflexivity.
Qed.

Lemma fetches_app (a b : Trace) : fetches (a ++ b) = fetches a ++ fetches b.
Proof.
  induction a as [|o a IH]; simpl; [reflexivity|].
  destruct o; simpl; rewrite IH; reflexivity.
Qed.

Lemma draws_app (a b : Trace) : draws (a ++ b) = draws a ++ draws b.
Proof.
  induction a as [|o a IH]; simpl; [reflexivity|].
  destruct o; simpl; rewrite IH; reflexivity.
Qed.

Lemma drawn_app (a b : Trace) : drawn (a ++ b) = (drawn a + drawn b)%nat.
Proof.
  induction a as [|o a IH]; simpl; [reflexivity|].
  destruct o; simpl; rewrite IH; lia.
Qed.

Lemma next_random_length (env : Env) (t : Trace) :
  length (next_random env t) = 32%nat.
Proof. unfold next_random. rewrite length_map, length_seq. reflexivity. Qed.

Lemma build_history_signings (env : Env) (t : Trace) :
  signings (build_history env t) = signings t.
Proof.
  unfold build_history. rewrite !signings_app. simpl. rewrite !app_nil_r.
  reflexivity.
Qed.

Lemma build_history_fetches (env : Env) (t : Trace) :
  fetches (build_history env t) = fetches t.
Proof.
  unfold build_history. rewrite !fetches_app. simpl. rewrite !app_nil_r.
  reflexivity.
Qed.

Lemma build_history_draws (env : Env) (t : Trace) :
  draws (build_history env t) = draws t ++ [next_random env t].
Proof.
  unfold build_history. rewrite !draws_app. simpl. rewrite !app_nil_r.
  reflexivity.
Qed.

Lemma build_history_drawn (env : Env) (t : Trace) :
  drawn (build_history env t) = (drawn t + 32)%nat.
Proof.
  unfold build_history. rewrite !drawn_app. cbn [drawn].
  rewrite next_random_length. lia.
Qed.

End Histories.

(* ================================================================== *)
(** * Runs of [buildPaymentHeader] *)
(* ================================================================== *)

Section BuildRuns.

Variable env : Env.
Variable config : X402Config.
Variable requirement : PaymentRequirement.
Variable resource : ResourceInfo.

(** The run of [buildPaymentHeader], step by step. *)
Lemma run_buildPaymentHeader (t : Trace) :
  run env (buildPaymentHeader config requirement resource) t =
  match parseChainId (network requirement) with
  | Err e => (Throws e, t)
  | Ok chainId =>
      match BigInt (amount requirement) with
      | Err e => (Throws e, build_history env t)
      | Ok value =>
          let args :=
            sign_request config requirement chainId value
              (build_validBefore env t) (build_nonce env t) in
          let answer := signTypedData env (build_history env t) args in
          let t' := build_history env t ++ [ObsSign args answer] in
          match answer with
          | Err e => (Throws e, t')
          | Ok signature =>
              match btoa (JSON_stringify
                            (envelope config requirement resource signature
                               (build_validBefore env t) (build_nonce env t)))
              with
              | Some header => (Returns header, t')
              | None => (Throws InvalidCharacterError, t')
              end
          end
      end
  end.
Proof.
  unfold buildPaymentHeader, randomNonce.
  destruct (parseChainId (network requirement)) as [chainId|e]; [|reflexivity].
  cbn [run bind lift await].
  destruct (BigInt (amount requirement)) as [value|e]; [|reflexivity].
  cbn [run bind lift await].
  fold (next_random env t). fold (build_clock env t).
  fold (build_now env t).
  change (build_now env t + SIGNATURE_VALIDITY_SECONDS)%Z
    with (build_validBefore env t).
  fold (nonce_of_bytes (next_random env t)). fold (build_nonce env t).
  fold (build_history env t).
  fold (sign_request config requirement chainId value
          (build_validBefore env t) (build_nonce env t)).
  destruct (signTypedData env (build_history env t) _) as [signature|e];
    [|reflexivity].
  cbn [run bind lift await].
  destruct (btoa _); reflexivity.
Qed.

(** A call that returns a header: what it drew, read, signed and emitted. *)
Lemma buildPaymentHeader_returns (t t' : Trace) (header : jsstring) :
  run env (buildPaymentHeader config requirement resource) t
  = (Returns header, t') ->
  exists (chainId : number) (value : Z) (signature : jsstring),
    let args := sign_request config requirement chainId value
                  (build_validBefore env t) (build_nonce env t) in
    parseChainId (network requirement) = Ok chainId
    /\ BigInt (amount requirement) = Ok value
    /\ signTypedData env (build_history env t) args = Ok signature
    /\ t' = build_history env t ++ [ObsSign args (Ok signature)]
    /\ btoa (JSON_stringify
               (envelope config requirement resource signature
                  (build_validBefore env t) (build_nonce env t)))
       = Some header.
Proof.
  rewrite run_buildPaymentHeader.
  destruct (parseChainId (network requirement)) as [chainId|e]; [|discriminate].
  destruct (BigInt (amount requirement)) as [value|e]; [|discriminate].
  cbv zeta.
  destruct (signTypedData env (build_history env t) _) as [signature|e] eqn:Es;
    [|discriminate].
  destruct (btoa _) as [h|] eqn:Eb; [|discriminate].
  intros H. inversion H; subst.
  exists chainId, value, signature. cbv zeta. auto.
Qed.

(** The signing requests of a call: none before the network and the amount
    are read, one after. *)
Lemma buildPaymentHeader_signings (t : Trace) :
  signings (snd (run env (buildPaymentHeader config requirement resource) t))
  = signings t ++
    match parseChainId (network requirement), BigInt (amount requirement) with
    | Ok chainId, Ok value =>
        [sign_request config requirement chainId value
           (build_validBefore env t) (build_nonce env t)]
    | _, _ => []
    end.
Proof.
  rewrite run_buildPaymentHeader.
  destruct (parseChainId (network requirement)) as [chainId|e];
    [|simpl; rewrite app_nil_r; reflexivity].
  destruct (BigInt (amount requirement)) as [value|e];
    [|simpl; rewrite build_history_signings, app_nil_r; reflexivity].
  cbv zeta.
  destruct (signTypedData env (build_history env t) _) as [signature|e];
    [destruct (btoa _)|]; simpl;
    rewrite signings_app, build_history_signings; reflexivity.
Qed.

(** The random draws of a call: none when the network is refused, one of 32
    bytes otherwise. *)
Lemma buildPaymentHeader_draws (t : Trace) :
  draws (snd (run env (buildPaymentHeader config requirement resource) t))
  = draws t ++
    match parseChainId (network requirement) with
    | Ok _ => [next_random env t]
    | Err _ => []
    end.
Proof.
  rewrite run_buildPaymentHeader.
  destruct (parseChainId (network requirement)) as [chainId|e];
    [|simpl; rewrite app_nil_r; reflexivity].
  destruct (BigInt (amount requirement)) as [value|e];
    [|simpl; apply build_history_draws].
  cbv zeta.
  destruct (signTypedData env (build_history env t) _) as [signature|e];
    [destruct (btoa _)|]; simpl;
    rewrite draws_app, build_history_draws; simpl; apply app_nil_r.
Qed.

End BuildRuns.

(* ================================================================== *)
(** * Runs of programs *)
(* ================================================================== *)

Section RequestRuns.

Lemma run_bind (A B : Type) (env : Env) (p : Prog A) (f : A -> Prog B)
    (t : Trace) :
  run env (bind p f) t =
  match run env p t with
  | (Returns a, t') => run env (f a) t'
  | (Throws e, t') => (Throws e, t')
  | (GoesWrong, t') => (GoesWrong, t')
  end.
Proof.
  revert t. induction p as [a|e| |u h k IH|a k IH|n k IH|k IH]; intros t;
    simpl; auto.
Qed.

Lemma run_await (A : Type) (env : Env) (r : Result A) (t : Trace) :
  run env (await r) t = (outcome_of r, t).
Proof. destruct r; reflexivity. Qed.

End RequestRuns.

(* ================================================================== *)
(** * The claims *)
(* ================================================================== *)

Lemma app_not_self (A : Type) (a b : list A) : b <> [] -> a ++ b <> a.
Proof.
  intros Hb E. apply Hb.
  apply (f_equal (@length A)) in E. rewrite length_app in E.
  destruct b; [reflexivity|simpl in E; lia].
Qed.

Lemma build_history_grows (env : Env) (t : Trace) (l : Trace) :
  build_history env t ++ l <> t.
Proof.
  unfold build_history. rewrite <- !app_assoc. apply app_not_self.
  discriminate.
Qed.

(** C1.  Whenever the network string of the requirement parses,
    [buildPaymentHeader] asks for at most one signature, and the signing
    domain of that request is [{ name: requirement.extra.name, version:
    requirement.extra.version, chainId: the parsed chain id,
    verifyingContract: requirement.asset }], whatever the configuration, the
    history and the outside world are; the request is made as soon as the
    amount converts with [BigInt]. *)
Theorem signing_domain_from_requirement
    (env : Env) (config : X402Config) (requirement : PaymentRequirement)
    (resource : ResourceInfo) (t : Trace) (chainId : number) :
  parseChainId (network requirement) = Ok chainId ->
  exists new : list SignArgs,
    signings (snd (run env (buildPaymentHeader config requirement resource) t))
    = signings t ++ new
    /\ (forall args, In args new ->
          domain args =
          {| Domain.name := name (extra requirement);
             Domain.version := version (extra requirement);
             Domain.chainId := chainId;
             Domain.verifyingContract := asset requirement |})
    /\ (forall value, BigInt (amount requirement) = Ok value ->
          length new = 1%nat).
Proof.
  intros Hp. rewrite buildPaymentHeader_signings, Hp.
  destruct (BigInt (amount requirement)) as [value|e].
  - eexists; split; [reflexivity|]. split.
    + intros args [<-|[]]. reflexivity.
    + reflexivity.
  - exists []; split; [reflexivity|]. split.
    + intros args [].
    + discriminate.
Qed.

Lemma signing_domain_from_requirement_witness :
  parseChainId (network MOCK_REQUIREMENT) = Ok (Int 42220)
  /\ exists new : list SignArgs,
       signings mock_trace = [] ++ new
       /\ (forall args, In args new ->
             domain args =
             {| Domain.name := js "USD Coin";
                Domain.version := js "2";
                Domain.chainId := Int 42220;
                Domain.verifyingContract :=
                  js "0xcebA9300f2b948710d2653dD7B07f33A8B32118C" |})
       /\ (forall value, BigInt (js "1000") = Ok value -> length new = 1%nat).
Proof.
  split; [reflexivity|].
  apply (@signing_domain_from_requirement paying_world x402_config
           MOCK_REQUIREMENT MOCK_RESOURCE [] (Int 42220)).
  reflexivity.
Defined.

(** C6.  A call of [buildPaymentHeader] that returns a header, made when the
    clock reads [ms] milliseconds, that is at unix time [now = floor (ms /
    1000)], signs a message with [validAfter = 0] and [validBefore = now +
    3600]; [validBefore] is later than the construction time and no more than
    3600 seconds after it; the envelope carries ["0"] and the decimal string
    of the same [validBefore]. *)
Theorem validity_window
    (env : Env) (config : X402Config) (requirement : PaymentRequirement)
    (resource : ResourceInfo) (t t' : Trace) (header : jsstring) :
  run env (buildPaymentHeader config requirement resource) t
  = (Returns header, t') ->
  let ms := build_clock env t in
  let now := (ms / 1000)%Z in
  let validBefore := (now + 3600)%Z in
  exists (args : SignArgs) (payload : JSON),
    signings t' = signings t ++ [args]
    /\ btoa (JSON_stringify payload) = Some header
    /\ Message.validAfter (message args) = 0%Z
    /\ Message.validBefore (message args) = validBefore
    /\ field3 "payload" "authorization" "validAfter" payload
       = Some (JStr (js "0"))
    /\ field3 "payload" "authorization" "validBefore" payload
       = Some (JStr (String_of_Z validBefore))
    /\ is_decimal_string (String_of_Z validBefore) = true
    /\ StringToBigInt (String_of_Z validBefore) = Some validBefore
    /\ (now < validBefore)%Z
    /\ (validBefore - now = SIGNATURE_VALIDITY_SECONDS)%Z
    /\ (ms < 1000 * validBefore <= ms + 1000 * SIGNATURE_VALIDITY_SECONDS)%Z.
Proof.
  intros H. apply buildPaymentHeader_returns in H.
  destruct H as (chainId & value & signature & Hp & Hv & Hs & Ht & Hb).
  cbv zeta.
  eexists; eexists. split.
  { rewrite Ht, signings_app, build_history_signings. reflexivity. }
  split; [exact Hb|].
  split; [reflexivity|]. split; [reflexivity|].
  split; [reflexivity|]. split; [reflexivity|].
  split; [apply String_of_Z_decimal|].
  split; [apply StringToBigInt_String|].
  unfold SIGNATURE_VALIDITY_SECONDS.
  pose proof (Z.mod_pos_bound (build_clock env t) 1000 eq_refl).
  pose proof (Z.div_mod (build_clock env t) 1000 ltac:(lia)).
  lia.
Qed.

Lemma validity_window_witness :
  run paying_world
    (buildPaymentHeader x402_config MOCK_REQUIREMENT MOCK_RESOURCE) []
  = (Returns mock_header, mock_trace)
  /\ exists args : SignArgs,
       signings mock_trace = [args]
       /\ Message.validAfter (message args) = 0%Z
       /\ Message.validBefore (message args) = 1700003600%Z.
Proof.
  assert (H : run paying_world
                (buildPaymentHeader x402_config MOCK_REQUIREMENT MOCK_RESOURCE)
                []
              = (Returns mock_header, mock_trace))
    by (vm_compute; reflexivity).
  split; [exact H|].
  destruct (validity_window _ _ _ _ _ H)
    as (args & payload & Hs & _ & Ha & Hb & _).
  exists args. split; [exact Hs|]. split; [exact Ha|exact Hb].
Defined.

Lemma solana_not_supported : ~ supported_network (js "solana:mainnet").
Proof.
  intros H. destruct (parseChainId_cases (js "solana:mainnet"))
    as [(_ & s & _ & E)|(Hn & _)]; [|auto].
  vm_compute in E. discriminate.
Qed.

(** C7, as stated, at the network string ["eip155:mainnet"]: it is accepted,
    it has no numeric suffix, and the chain id is no number. *)
Lemma chain_id_need_not_be_a_number :
  supported_network (js "eip155:mainnet")
  /\ parseChainId (js "eip155:mainnet") = Ok NaN
  /\ ~ (forall net, supported_network net ->
          exists z : Z, parseChainId net = Ok (Int z)).
Proof.
  assert (Hs : supported_network (js "eip155:mainnet")).
  { exists (js "mainnet"). split; [reflexivity|].
    vm_compute. intuition discriminate. }
  assert (Hp : parseChainId (js "eip155:mainnet") = Ok NaN) by reflexivity.
  split; [exact Hs|]. split; [exact Hp|].
  intros H. destruct (H _ Hs) as [z Hz]. rewrite Hp in Hz. discriminate Hz.
Qed.

(** C7, amended.  [buildPaymentHeader] stops at its first step with
    [UnsupportedNetwork] exactly when the network string is not of two
    colon-separated parts with namespace [eip155] ([parseChainId] has no other
    failure); ["solana:mainnet"] is refused.  Every other string is accepted,
    and the chain id it gives is the chain id of the domain that is signed as
    soon as the amount is read.  That chain id is what [parseInt] reads from
    the part after the colon, which need not be a number: leading digits that
    denote a safe integer give that integer, whatever follows them, and a
    part that is empty or starts with something else than a digit, a sign or
    white space gives [NaN]. *)
Theorem unsupported_network_iff
    (env : Env) (config : X402Config) (requirement : PaymentRequirement)
    (resource : ResourceInfo) (t : Trace) :
  let net := network requirement in
  let result := run env (buildPaymentHeader config requirement resource) t in
  (result = (Throws (UnsupportedNetwork net), t) <-> ~ supported_network net)
  /\ (parseChainId net = Err (UnsupportedNetwork net)
      <-> ~ supported_network net)
  /\ (forall e, parseChainId net = Err e -> e = UnsupportedNetwork net)
  /\ ~ supported_network (js "solana:mainnet")
  /\ parseChainId (js "solana:mainnet")
     = Err (UnsupportedNetwork (js "solana:mainnet"))
  /\ (forall suffix,
        net = js "eip155:" ++ suffix -> ~ In (ch ":") suffix ->
        exists chainId : number,
          parseChainId net = Ok chainId
          /\ (forall value,
                BigInt (amount requirement) = Ok value ->
                exists args,
                  signings (snd result) = signings t ++ [args]
                  /\ Domain.chainId (domain args) = chainId)
          /\ (forall digits rest,
                suffix = digits ++ rest -> digits <> [] ->
                forallb is_digit digits = true ->
                safe_integer (Z.of_N (digits_value 10 digits)) = true ->
                match rest with [] => True | c :: _ => is_digit c = false end ->
                chainId = Int (Z.of_N (digits_value 10 digits)))
          /\ (match suffix with
              | [] => True
              | c :: _ => is_digit c = false /\ is_whitespace c = false
                          /\ c <> ch "-" /\ c <> ch "+"
              end ->
              chainId = NaN)).
Proof.
  cbv zeta.
  assert (Hiff : parseChainId (network requirement)
                 = Err (UnsupportedNetwork (network requirement))
                 <-> ~ supported_network (network requirement)).
  { destruct (parseChainId_cases (network requirement))
      as [(Hs & s & _ & E)|(Hn & E)]; rewrite E; split; intros H;
      try discriminate; try reflexivity; tauto. }
  split; [|split; [exact Hiff|split;
    [|split; [exact solana_not_supported|split; [reflexivity|]]]]].
  - rewrite run_buildPaymentHeader. rewrite <- Hiff.
    destruct (parseChainId (network requirement)) as [chainId|e].
    + split; [|discriminate]. intros H. exfalso.
      destruct (BigInt (amount requirement)) as [value|e'].
      * cbv zeta in H.
        destruct (signTypedData env (build_history env t) _);
          [destruct (btoa _)|]; apply (f_equal snd) in H; simpl in H;
          revert H; apply build_history_grows.
      * apply (f_equal snd) in H; simpl in H. revert H.
        rewrite <- (app_nil_r (build_history env t)).
        apply build_history_grows.
    + split; intros H; inversion H; reflexivity.
  - intros e E.
    destruct (parseChainId_cases (network requirement))
      as [(Hs & s & _ & E')|(Hn & E')]; congruence.
  - intros suffix En Hs.
    assert (Hp : parseChainId (network requirement) = Ok (parseInt10 suffix))
      by (rewrite En; apply parseChainId_supported; assumption).
    exists (parseInt10 suffix).
    split; [exact Hp|]. split; [|split].
    + intros value Hv. rewrite buildPaymentHeader_signings, Hp, Hv.
      eexists. split; reflexivity.
    + intros digits rest -> Hne Hd _ Hr.
      apply parseInt10_leading; assumption.
    + apply parseInt10_no_number.
Qed.

Lemma unsupported_network_iff_witness :
  run paying_world
    (buildPaymentHeader x402_config MOCK_REQUIREMENT MOCK_RESOURCE) []
  <> (Throws (UnsupportedNetwork (js "eip155:42220")), [])
  /\ parseChainId (js "eip155:42220") = Ok (Int 42220)
  /\ exists args,
       signings mock_trace = [args]
       /\ Domain.chainId (domain args) = Int 42220.
Proof.
  pose proof (@unsupported_network_iff paying_world x402_config
                MOCK_REQUIREMENT MOCK_RESOURCE []) as H.
  cbv zeta in H. destruct H as (_ & _ & _ & _ & _ & H).
  destruct (H (js "42220") eq_refl) as (chainId & Hp & Hsig & Hd & _).
  { vm_compute. intuition discriminate. }
  assert (Hc : chainId = Int 42220).
  { apply (Hd (js "42220") [] eq_refl); try reflexivity. discriminate. }
  subst chainId.
  split; [vm_compute; discriminate|].
  split; [exact Hp|].
  destruct (Hsig 1000%Z eq_refl) as (args & Hs & Hc).
  exists args. split; [exact Hs|exact Hc].
Defined.

Lemma buildPaymentHeader_fetches
    (env : Env) (config : X402Config) (requirement : PaymentRequirement)
    (resource : ResourceInfo) (t : Trace) :
  fetches (snd (run env (buildPaymentHeader config requirement resource) t))
  = fetches t.
Proof.
  rewrite run_buildPaymentHeader.
  destruct (parseChainId (network requirement)); [|reflexivity].
  destruct (BigInt (amount requirement));
    [|simpl; apply build_history_fetches].
  cbv zeta.
  destruct (signTypedData env (build_history env t) _);
    [destruct (btoa _)|]; simpl;
    rewrite fetches_app, build_history_fetches; simpl; apply app_nil_r.
Qed.



(** What [decodePaymentRequired] can throw. *)
Lemma decodePaymentRequired_errors (response : Response) (e : Exn) :
  decodePaymentRequired response = Err e ->
  e = MissingChallenge \/ e = MalformedChallenge.
Proof.
  unfold decodePaymentRequired.
  destruct (Headers_get (headers response) (js "payment-required"))
    as [[|c header]|].
  - intros H; inversion H; left; reflexivity.
  - destruct (atob (c :: header)) as [json|].
    + destruct (JSON_parse json); intros H; inversion H; right; reflexivity.
    + intros H; inversion H; right; reflexivity.
  - intros H; inversion H; left; reflexivity.
Qed.

(** C9, as stated, at a response without the challenge header and at one
    whose header is not base64: the two errors differ in their message
    only. *)
Lemma missing_and_malformed_differ_in_message_only :
  exists e1 e2 : DenScopeError,
    decodePaymentRequired (response_402 []) = Err (Thrown e1)
    /\ decodePaymentRequired
         (response_402 [(js "payment-required", js "!!!invalid!!!")])
       = Err (Thrown e2)
    /\ Thrown e1 = MissingChallenge
    /\ Thrown e2 = MalformedChallenge
    /\ err_message e1 <> err_message e2
    /\ structured e1 = structured e2.
Proof.
  eexists; eexists.
  split; [vm_compute; reflexivity|].
  split; [vm_compute; reflexivity|].
  split; [reflexivity|]. split; [reflexivity|].
  split; [vm_compute; discriminate|reflexivity].
Qed.

(* ================================================================== *)
(** * The nonce *)
(* ================================================================== *)

Section Nonce.

(** A byte prints as two lower-case hexadecimal digits that read back as the
    byte. *)
Lemma byte_hex (b : Byte.byte) :
  exists h l : N,
    padStart 2 (js "0") (N_toString 16 (Byte.to_N b)) = [h; l]
    /\ hex_pair_value h l = Some b
    /\ is_lower_hex h = true /\ is_lower_hex l = true.
Proof.
  destruct b;
    (eexists; eexists;
     split; [vm_compute; reflexivity
            |split; [reflexivity|split; reflexivity]]).
Qed.

Lemma bytes_of_hex_of_bytes (bs : list Byte.byte) :
  bytes_of_hex (hex_of_bytes bs) = Some bs.
Proof.
  induction bs as [|b bs IH]; [reflexivity|].
  unfold hex_of_bytes in *. cbn [map concat].
  destruct (byte_hex b) as (h & l & -> & Hv & _).
  cbn [app bytes_of_hex]. rewrite Hv, IH. reflexivity.
Qed.

Lemma hex_of_bytes_shape (bs : list Byte.byte) :
  length (hex_of_bytes bs) = (2 * length bs)%nat
  /\ forallb is_lower_hex (hex_of_bytes bs) = true.
Proof.
  induction bs as [|b bs [IHl IHf]]; [split; reflexivity|].
  unfold hex_of_bytes in *. cbn [map concat].
  destruct (byte_hex b) as (h & l & -> & _ & Hh & Hl).
  cbn [app length forallb]. rewrite IHl, Hh, Hl, IHf.
  split; [lia|reflexivity].
Qed.

Lemma nonce_of_bytes_inj (b1 b2 : list Byte.byte) :
  nonce_of_bytes b1 = nonce_of_bytes b2 <-> b1 = b2.
Proof.
  split; [|intros ->; reflexivity].
  unfold nonce_of_bytes. intros H. apply app_inv_head in H.
  apply (f_equal bytes_of_hex) in H.
  rewrite !bytes_of_hex_of_bytes in H. congruence.
Qed.

Lemma nonce_of_bytes_shape (bs : list Byte.byte) :
  length bs = 32%nat -> is_nonce_string (nonce_of_bytes bs) = true.
Proof.
  intros H. destruct (hex_of_bytes_shape bs) as [Hl Hf].
  unfold nonce_of_bytes, is_nonce_string. cbn [js app map list_ascii_of_string].
  rewrite Hl, H, Hf. reflexivity.
Qed.

End Nonce.

(** C3.  The nonce is the hexadecimal form of the 32 bytes the call draws
    from the random source, and that form is injective: two calls, whatever
    their inputs, produce the same nonce only if they drew the same 32 bytes.
    Every call whose network string is accepted draws once, and every call
    that returns a header has drawn 32 bytes that no earlier call has read
    (the next 32 of the stream), signed them as the nonce and emitted them in
    the envelope. *)
Theorem nonces_are_fresh :
  (forall b1 b2 : list Byte.byte,
      nonce_of_bytes b1 = nonce_of_bytes b2 <-> b1 = b2)
  /\ (forall (env : Env) (config : X402Config)
             (requirement : PaymentRequirement) (resource : ResourceInfo)
             (t t' : Trace) (header : jsstring),
        run env (buildPaymentHeader config requirement resource) t
        = (Returns header, t') ->
        exists (args : SignArgs) (payload : JSON),
          signings t' = signings t ++ [args]
          /\ btoa (JSON_stringify payload) = Some header
          /\ draws t' = draws t ++ [next_random env t]
          /\ length (next_random env t) = 32%nat
          /\ next_random env t = map (entropy env) (seq (drawn t) 32)
          /\ next_random env t'
             = map (entropy env) (seq (drawn t + 32) 32)
          /\ Message.nonce (message args)
             = nonce_of_bytes (next_random env t)
          /\ field3 "payload" "authorization" "nonce" payload
             = Some (JStr (nonce_of_bytes (next_random env t))))
  /\ (forall (env : Env) (config : X402Config)
             (requirement : PaymentRequirement) (resource : ResourceInfo)
             (t : Trace) (chainId : number),
        parseChainId (network requirement) = Ok chainId ->
        draws (snd (run env (buildPaymentHeader config requirement resource)
                      t))
        = draws t ++ [map (entropy env) (seq (drawn t) 32)])
  /\ (forall (env1 env2 : Env) (t1 t2 : Trace),
        next_random env1 t1 <> next_random env2 t2 ->
        build_nonce env1 t1 <> build_nonce env2 t2).
Proof.
  split; [exact nonce_of_bytes_inj|]. split; [|split].
  - intros env config requirement resource t t' header H.
    apply buildPaymentHeader_returns in H.
    destruct H as (chainId & value & signature & _ & _ & _ & Ht & Hb).
    eexists; eexists.
    split; [rewrite Ht, signings_app, build_history_signings; reflexivity|].
    split; [exact Hb|].
    split; [rewrite Ht, draws_app, build_history_draws; simpl;
            rewrite app_nil_r; reflexivity|].
    split; [apply next_random_length|].
    split; [reflexivity|].
    split; [unfold next_random at 1;
            rewrite Ht, drawn_app, build_history_drawn; simpl;
            rewrite Nat.add_0_r; reflexivity|].
    split; reflexivity.
  - intros env config requirement resource t chainId Hp.
    rewrite buildPaymentHeader_draws, Hp. reflexivity.
  - intros env1 env2 t1 t2 Hne E. apply Hne.
    apply nonce_of_bytes_inj. exact E.
Qed.

Lemma nonces_are_fresh_witness :
  run paying_world
    (buildPaymentHeader x402_config MOCK_REQUIREMENT MOCK_RESOURCE) []
  = (Returns mock_header, mock_trace)
  /\ next_random paying_world [] <> next_random paying_world mock_trace
  /\ build_nonce paying_world [] <> build_nonce paying_world mock_trace.
Proof.
  split; [vm_compute; reflexivity|].
  assert (Hne : next_random paying_world []
                <> next_random paying_world mock_trace)
    by (vm_compute; discriminate).
  split; [exact Hne|].
  destruct nonces_are_fresh as (_ & _ & _ & H).
  exact (H paying_world paying_world [] mock_trace Hne).
Defined.

(* ================================================================== *)
(** * [atob] undoes [btoa] *)
(* ================================================================== *)

Section Base64.

(** A property of all numbers below a bound, by checking each. *)
Lemma in_range_from (i start : N) (count : nat) :
  start <= i -> i < start + N.of_nat count -> In i (range_from start count).
Proof.
  revert start. induction count as [|k IH]; intros start H1 H2; [lia|].
  simpl. destruct (N.eq_dec start i) as [E|E]; [left; exact E|right].
  apply IH; lia.
Qed.

Lemma check_below (p : N -> bool) (n : N) :
  forallb p (range_from 0 (N.to_nat n)) = true ->
  forall i : N, i < n -> p i = true.
Proof.
  intros H i Hi. rewrite forallb_forall in H. apply H.
  apply in_range_from; lia.
Qed.

Lemma b64_val_char (i : N) : i < 64 -> b64_val (b64_char i) = Some i.
Proof.
  intros H.
  pose (p := fun i => match b64_val (b64_char i) with
                       | Some j => j =? i
                       | None => false
                       end).
  assert (E : p i = true)
    by (apply (@check_below p 64); [vm_compute; reflexivity|exact H]).
  unfold p in E. destruct (b64_val (b64_char i)); [|discriminate].
  apply N.eqb_eq in E. congruence.
Qed.

Lemma b64_char_plain (i : N) :
  i < 64 ->
  is_ascii_whitespace (b64_char i) = false /\ (b64_char i =? ch "=") = false.
Proof.
  intros H.
  pose (p := fun i => negb (is_ascii_whitespace (b64_char i))
                      && negb (b64_char i =? ch "=")).
  assert (E : p i = true)
    by (apply (@check_below p 64); [vm_compute; reflexivity|exact H]).
  unfold p in E. apply andb_true_iff in E. destruct E as [E1 E2].
  apply negb_true_iff in E1, E2. auto.
Qed.

Lemma pack_div (hi lo k : N) : lo < k -> (hi * k + lo) / k = hi.
Proof.
  intros H. rewrite N.div_add_l by lia. rewrite N.div_small by assumption.
  lia.
Qed.

Lemma pack_mod (hi lo k : N) : lo < k -> (hi * k + lo) mod k = lo.
Proof.
  intros H. rewrite N.add_comm, N.Div0.mod_add. apply N.mod_small; assumption.
Qed.

Lemma list_ind3 (A : Type) (P : list A -> Prop) :
  P [] -> (forall a, P [a]) -> (forall a b, P [a; b]) ->
  (forall a b c r, P r -> P (a :: b :: c :: r)) ->
  forall l, P l.
Proof.
  intros H0 H1 H2 H3.
  assert (H : forall l, P l /\ (forall a, P (a :: l))
                        /\ (forall a b, P (a :: b :: l))).
  { induction l as [|x l (IH0 & IH1 & IH2)]; [auto|].
    split; [apply IH1|]. split; [intros a; apply IH2|].
    intros a b. apply H3, IH0. }
  intros l. apply H.
Qed.

Lemma mod4_step (n : nat) : (S (S (S (S n))) mod 4 = n mod 4)%nat.
Proof.
  change (S (S (S (S n)))) with (4 + n)%nat.
  rewrite Nat.Div0.add_mod. change (4 mod 4)%nat with 0%nat.
  rewrite Nat.add_0_l. apply Nat.Div0.mod_mod.
Qed.

Lemma byte_parts (a : N) :
  a <= 255 ->
  a / 4 < 64 /\ a mod 4 < 4 /\ a / 16 < 16 /\ a mod 16 < 16
  /\ a / 64 < 4 /\ a mod 64 < 64
  /\ a = a / 4 * 4 + a mod 4 /\ a = a / 16 * 16 + a mod 16
  /\ a = a / 64 * 64 + a mod 64.
Proof.
  intros H.
  pose proof (N.div_mod a 4 ltac:(lia)).
  pose proof (N.div_mod a 16 ltac:(lia)).
  pose proof (N.div_mod a 64 ltac:(lia)).
  pose proof (N.mod_lt a 4 ltac:(lia)).
  pose proof (N.mod_lt a 16 ltac:(lia)).
  pose proof (N.mod_lt a 64 ltac:(lia)).
  repeat split; try lia; apply N.Div0.div_lt_upper_bound; lia.
Qed.

(** The output of the encoder: the characters of 6-bit values that decode to
    the input, then padding. *)
Lemma b64_encode_shape (s : jsstring) :
  Forall (fun c => c <= 255) s ->
  exists (vals : list N) (pad : jsstring),
    b64_encode s = map b64_char vals ++ pad
    /\ Forall (fun v => v < 64) vals
    /\ b64_decode vals = s
    /\ ((pad = [] /\ length vals mod 4 = 0)
        \/ (pad = [ch "="] /\ length vals mod 4 = 3)
        \/ (pad = [ch "="; ch "="] /\ length vals mod 4 = 2))%nat.
Proof.
  induction s as [|a|a b|a b c r IH] using list_ind3; intros Hs.
  - exists [], []. repeat split; auto.
  - inversion Hs as [|? ? Ha _]; subst.
    destruct (byte_parts Ha) as (A1 & A2 & _ & _ & _ & _ & A7 & _).
    exists [a / 4; a mod 4 * 16], [ch "="; ch "="].
    split; [reflexivity|]. split; [repeat constructor; lia|].
    split; [|right; right; split; reflexivity].
    simpl. f_equal. rewrite (N.div_mul (a mod 4) 16) by lia. lia.
  - inversion Hs as [|? ? Ha Hs']; subst.
    inversion Hs' as [|? ? Hb _]; subst.
    destruct (byte_parts Ha) as (A1 & A2 & _ & _ & _ & _ & A7 & _).
    destruct (byte_parts Hb) as (_ & _ & B3 & B4 & _ & _ & _ & B8 & _).
    exists [a / 4; a mod 4 * 16 + b / 16; b mod 16 * 4], [ch "="].
    split; [reflexivity|]. split; [repeat constructor; lia|].
    split; [|right; left; split; reflexivity].
    simpl. rewrite pack_div, pack_mod by assumption.
    rewrite (N.div_mul (b mod 16) 4) by lia. f_equal; [lia|f_equal; lia].
  - inversion Hs as [|? ? Ha Hs']; subst.
    inversion Hs' as [|? ? Hb Hs'']; subst.
    inversion Hs'' as [|? ? Hc Hr]; subst.
    destruct (IH Hr) as (vals & pad & He & Hv & Hd & Hp).
    destruct (byte_parts Ha) as (A1 & A2 & _ & _ & _ & _ & A7 & _).
    destruct (byte_parts Hb) as (_ & _ & B3 & B4 & _ & _ & _ & B8 & _).
    destruct (byte_parts Hc) as (_ & _ & _ & _ & C5 & C6 & _ & _ & C9).
    exists (a / 4 :: a mod 4 * 16 + b / 16 :: b mod 16 * 4 + c / 64
            :: c mod 64 :: vals), pad.
    split; [cbn [b64_encode map app]; rewrite He; reflexivity|].
    split; [repeat constructor; try lia; exact Hv|].
    split.
    + cbn [b64_decode]. rewrite Hd.
      rewrite !pack_div, !pack_mod by assumption.
      f_equal; [lia|f_equal; [lia|f_equal; lia]].
    + cbn [length]. rewrite mod4_step. exact Hp.
Qed.

Lemma map_option_map (A B : Type) (f : A -> option B) (g : B -> A)
    (l : list B) :
  (forall x, In x l -> f (g x) = Some x) ->
  map_option f (map g l) = Some l.
Proof.
  induction l as [|x l IH]; intros H; [reflexivity|].
  simpl. rewrite H by (left; reflexivity).
  rewrite IH by (intros y Hy; apply H; right; exact Hy). reflexivity.
Qed.

Lemma filter_all (A : Type) (p : A -> bool) (l : list A) :
  (forall x, In x l -> p x = true) -> filter p l = l.
Proof.
  induction l as [|x l IH]; intros H; [reflexivity|].
  simpl. rewrite H by (left; reflexivity).
  rewrite IH by (intros y Hy; apply H; right; exact Hy). reflexivity.
Qed.

Lemma length_mod4_app (A : Type) (l pad : list A) (k : nat) :
  (length l mod 4 = k -> (k + length pad) mod 4 = 0 ->
   length (l ++ pad) mod 4 = 0)%nat.
Proof.
  intros Hl Hk. rewrite length_app, Nat.Div0.add_mod, Hl.
  rewrite Nat.Div0.add_mod_idemp_r. exact Hk.
Qed.

(** [atob (btoa s) = s]. *)
Theorem atob_btoa (s h : jsstring) : btoa s = Some h -> atob h = Some s.
Proof.
  unfold btoa. destruct (forallb (fun c => c <=? 255) s) eqn:Ef; [|discriminate].
  intros H; inversion H; subst h; clear H.
  assert (Hs : Forall (fun c => c <= 255) s).
  { apply Forall_forall. intros c Hc. rewrite forallb_forall in Ef.
    apply N.leb_le. apply Ef. exact Hc. }
  destruct (b64_encode_shape Hs) as (vals & pad & He & Hv & Hd & Hp).
  rewrite Forall_forall in Hv.
  assert (Hplain : forall c, In c (map b64_char vals) ->
                     is_ascii_whitespace c = false /\ (c =? ch "=") = false).
  { intros c Hc. apply in_map_iff in Hc. destruct Hc as (v & <- & Hin).
    apply b64_char_plain. apply Hv. exact Hin. }
  unfold atob. rewrite He.
  rewrite filter_all.
  2:{ intros c Hc. apply in_app_or in Hc. destruct Hc as [Hc|Hc].
      - apply negb_true_iff. apply Hplain. exact Hc.
      - destruct Hp as [[-> _]|[[-> _]|[-> _]]]; simpl in Hc;
          repeat (destruct Hc as [<-|Hc]; [reflexivity|]); destruct Hc. }
  assert (Hmv : map_option b64_val (map b64_char vals) = Some vals)
    by (apply map_option_map; intros v Hin; apply b64_val_char, Hv, Hin).
  assert (Hlen : length (map b64_char vals) = length vals)
    by apply length_map.
  destruct Hp as [[-> Hm]|[[-> Hm]|[-> Hm]]].
  - rewrite app_nil_r, Hlen, Hm. cbn [Nat.eqb].
    assert (Hstrip :
      match rev (map b64_char vals) with
      | e1 :: e2 :: r =>
          if e1 =? ch "=" then
            if e2 =? ch "=" then rev r else rev (e2 :: r)
          else map b64_char vals
      | [e1] => if e1 =? ch "=" then [] else map b64_char vals
      | [] => map b64_char vals
      end = map b64_char vals).
    { destruct (rev (map b64_char vals)) as [|e1 l] eqn:Er; [reflexivity|].
      assert (H1 : (e1 =? ch "=") = false).
      { apply Hplain. apply in_rev. rewrite Er. left; reflexivity. }
      rewrite H1. destruct l; reflexivity. }
    rewrite Hstrip, Hlen, Hm, Hmv, Hd. reflexivity.
  - rewrite (@length_mod4_app _ _ _ 3%nat) by (rewrite ?Hlen; auto).
    cbn [Nat.eqb]. rewrite rev_app_distr. cbn [rev app].
    destruct (rev (map b64_char vals)) as [|e2 r] eqn:Er.
    + apply (f_equal (@length N)) in Er. rewrite length_rev, Hlen in Er.
      rewrite Er in Hm. discriminate.
    + assert (H2 : (e2 =? ch "=") = false).
      { apply Hplain. apply in_rev. rewrite Er. left; reflexivity. }
      rewrite N.eqb_refl, H2.
      change (rev r ++ [e2]) with (rev (e2 :: r)).
      rewrite <- Er, rev_involutive, Hlen, Hm, Hmv, Hd.
      reflexivity.
  - rewrite (@length_mod4_app _ _ _ 2%nat) by (rewrite ?Hlen; auto).
    cbn [Nat.eqb]. rewrite rev_app_distr. cbn [rev app].
    rewrite !N.eqb_refl, rev_involutive, Hlen, Hm, Hmv, Hd. reflexivity.
Qed.

End Base64.

(* ================================================================== *)
(** * [JSON.parse] undoes [JSON.stringify] *)
(* ================================================================== *)

Section JsonInduction.

Variable P : JSON -> Prop.
Hypothesis P_null : P JNull.
Hypothesis P_bool : forall b, P (JBool b).
Hypothesis P_num : forall x, P (JNum x).
Hypothesis P_str : forall s, P (JStr s).
Hypothesis P_arr : forall l, Forall P l -> P (JArr l).
Hypothesis P_obj : forall o, Forall (fun kv => P (snd kv)) o -> P (JObj o).

Lemma JSON_ind_nested : forall v : JSON, P v.
Proof.
  fix IH 1. intros [ |b|x|s|l|o].
  - exact P_null.
  - apply P_bool.
  - apply P_num.
  - apply P_str.
  - apply P_arr. induction l as [|x r IHr]; constructor;
      [apply IH|exact IHr].
  - apply P_obj. induction o as [|kv r IHr]; constructor;
      [apply IH|exact IHr].
Qed.

End JsonInduction.

Section JsonStrings.

Lemma hex4_roundtrip (c : N) :
  c < 65536 ->
  exists h1 h2 h3 h4 : N,
    padStart 4 (js "0") (N_toString 16 c) = [h1; h2; h3; h4]
    /\ hex4_value h1 h2 h3 h4 = Some c.
Proof.
  intros H.
  pose (p := fun c =>
               match padStart 4 (js "0") (N_toString 16 c) with
               | [h1; h2; h3; h4] =>
                   match hex4_value h1 h2 h3 h4 with
                   | Some v => v =? c
                   | None => false
                   end
               | _ => false
               end).
  assert (E : p c = true)
    by (apply (@check_below p 65536); [vm_compute; reflexivity|exact H]).
  unfold p in E.
  destruct (padStart 4 (js "0") (N_toString 16 c))
    as [|h1 [|h2 [|h3 [|h4 [|? ?]]]]]; try discriminate.
  destruct (hex4_value h1 h2 h3 h4) as [v|] eqn:Ev; [|discriminate].
  apply N.eqb_eq in E. subst v. exists h1, h2, h3, h4. auto.
Qed.

Lemma parse_chars_escape (c : N) (x : jsstring) :
  c < 65536 ->
  parse_chars (unicode_escape c ++ x)
  = match parse_chars x with
    | Some (cs, rest) => Some (c :: cs, rest)
    | None => None
    end.
Proof.
  intros H. unfold unicode_escape.
  destruct (hex4_roundtrip H) as (h1 & h2 & h3 & h4 & -> & Hv).
  cbn [js list_ascii_of_string map app]. cbn [parse_chars].
  change (N_of_ascii "\" =? 34) with false.
  change (N_of_ascii "\" =? 92) with true.
  change (N_of_ascii "u" =? 34) with false.
  change (N_of_ascii "u" =? 92) with false.
  change (N_of_ascii "u" =? 47) with false.
  change (N_of_ascii "u" =? ch "b") with false.
  change (N_of_ascii "u" =? ch "f") with false.
  change (N_of_ascii "u" =? ch "n") with false.
  change (N_of_ascii "u" =? ch "r") with false.
  change (N_of_ascii "u" =? ch "t") with false.
  change (N_of_ascii "u" =? ch "u") with true.
  cbv iota. rewrite Hv. reflexivity.
Qed.

Lemma parse_chars_raw (c : N) (x : jsstring) :
  c <> 34 -> c <> 92 -> 32 <= c ->
  parse_chars (c :: x)
  = match parse_chars x with
    | Some (cs, rest) => Some (c :: cs, rest)
    | None => None
    end.
Proof.
  intros H1 H2 H3. cbn [parse_chars].
  rewrite (proj2 (N.eqb_neq c 34) H1), (proj2 (N.eqb_neq c 92) H2).
  rewrite (proj2 (N.ltb_ge c 32) H3). reflexivity.
Qed.

Lemma surrogate_range (c : N) :
  is_high_surrogate c = true \/ is_low_surrogate c = true ->
  c < 65536 /\ c <> 34 /\ c <> 92 /\ 32 <= c.
Proof.
  unfold is_high_surrogate, is_low_surrogate.
  intros [H|H]; apply andb_true_iff in H; destruct H as [H1 H2];
    apply N.leb_le in H1, H2; lia.
Qed.

(** A quoted string reads back as the string. *)
Lemma parse_chars_quote (n : nat) :
  forall (s rest : jsstring),
    (length s <= n)%nat ->
    parse_chars (quote_chars s ++ 34 :: rest) = Some (s, rest).
Proof.
  induction n as [|n IHn]; intros s rest Hl.
  - destruct s; [reflexivity|simpl in Hl; lia].
  - destruct s as [|c r]; [reflexivity|]. simpl in Hl.
    assert (IHr : forall rest,
               parse_chars (quote_chars r ++ 34 :: rest) = Some (r, rest))
      by (intros; apply IHn; lia).
    cbn [quote_chars].
    destruct (N.eqb_spec c 8) as [->|H8]; [cbn; rewrite IHr; reflexivity|].
    destruct (N.eqb_spec c 9) as [->|H9]; [cbn; rewrite IHr; reflexivity|].
    destruct (N.eqb_spec c 10) as [->|H10]; [cbn; rewrite IHr; reflexivity|].
    destruct (N.eqb_spec c 12) as [->|H12]; [cbn; rewrite IHr; reflexivity|].
    destruct (N.eqb_spec c 13) as [->|H13]; [cbn; rewrite IHr; reflexivity|].
    destruct (N.eqb_spec c 34) as [->|H34]; [cbn; rewrite IHr; reflexivity|].
    destruct (N.eqb_spec c 92) as [->|H92]; [cbn; rewrite IHr; reflexivity|].
    destruct (N.ltb_spec c 32) as [Hlt|Hge].
    { rewrite <- app_assoc, parse_chars_escape, IHr by lia. reflexivity. }
    destruct (is_high_surrogate c) eqn:Hh.
    { destruct (surrogate_range c (or_introl Hh)) as (Hc & _).
      destruct r as [|d r'].
      - rewrite parse_chars_escape by assumption. reflexivity.
      - destruct (is_low_surrogate d) eqn:Hd.
        + destruct (surrogate_range d (or_intror Hd)) as (_ & D1 & D2 & D3).
          cbn [app].
          rewrite parse_chars_raw by assumption.
          rewrite parse_chars_raw by assumption.
          rewrite IHn by (simpl in Hl; lia). reflexivity.
        + rewrite <- app_assoc, parse_chars_escape, IHr by assumption.
          reflexivity. }
    destruct (is_low_surrogate c) eqn:Hlow.
    { destruct (surrogate_range c (or_intror Hlow)) as (Hc & _).
      rewrite <- app_assoc, parse_chars_escape, IHr by assumption.
      reflexivity. }
    cbn [app]. rewrite parse_chars_raw, IHr by assumption. reflexivity.
Qed.

Lemma parse_quoted (s rest : jsstring) :
  parse_chars (quote_chars s ++ 34 :: rest) = Some (s, rest).
Proof. apply (@parse_chars_quote (length s)). apply Nat.le_refl. Qed.

End JsonStrings.

Section JsonNumbers.

Lemma value_number_follow (rest : jsstring) :
  value_follow rest -> number_follow rest.
Proof.
  destruct rest as [|c r]; [auto|]. simpl.
  intros [ -> | [ -> | -> ] ]; repeat split; try reflexivity; discriminate.
Qed.

Lemma parse_unsigned_digits (negative : bool) (n : N) (rest : jsstring) :
  number_follow rest ->
  parse_unsigned negative (N_toString 10 n ++ rest)
  = Some (Int (if negative then - Z.of_N n else Z.of_N n)%Z, rest).
Proof.
  intros Hf.
  destruct (@N_toString_spec 10 n) as (Hv & Ha & Hne & Hz); try lia.
  rewrite forallb_radix10 in Ha.
  unfold parse_unsigned.
  rewrite span_all
    by first [exact Ha|destruct rest; [exact I|apply Hf]].
  destruct (N_toString 10 n) as [|d0 more] eqn:E; [congruence|].
  assert (Hlead : (d0 =? ch "0")
                  && negb match more with [] => true | _ :: _ => false end
                  = false).
  { destruct (N.eqb_spec d0 (ch "0")) as [E0|E0]; [|reflexivity].
    destruct (Hz d0 more eq_refl E0) as [_ ->]. reflexivity. }
  rewrite Hlead.
  assert (Hres : decimal_number negative (digits_value 10 ((d0 :: more) ++ []))
                   (0 - Z.of_nat (@length N []))
                 = Int (if negative then - Z.of_N n else Z.of_N n)%Z).
  { rewrite app_nil_r, Hv. unfold decimal_number.
    change (0 - Z.of_nat (@length N []))%Z with 0%Z. cbv iota.
    change (10 ^ 0)%Z with 1%Z. rewrite Z.mul_1_r. reflexivity. }
  destruct rest as [|c r].
  - rewrite Hres. reflexivity.
  - destruct Hf as (_ & F1 & F2 & F3).
    rewrite (proj2 (N.eqb_neq c (ch ".")) F1).
    rewrite (proj2 (N.eqb_neq c (ch "e")) F2).
    rewrite (proj2 (N.eqb_neq c (ch "E")) F3).
    cbn [orb]. rewrite Hres. reflexivity.
Qed.

Lemma parse_number_String (z : Z) (rest : jsstring) :
  number_follow rest ->
  parse_number (String_of_Z z ++ rest) = Some (Int z, rest).
Proof.
  intros Hf. destruct z as [|p|p].
  - apply (@parse_unsigned_digits false 0 rest Hf).
  - simpl String_of_Z. unfold parse_number.
    pose proof (@parse_unsigned_digits false (N.pos p) rest Hf) as H.
    destruct (decimal_digits (N.pos p)) as (Hd & Hne & _).
    destruct (N_toString 10 (N.pos p)) as [|c r]; [congruence|].
    cbn [app] in *. simpl in Hd. apply andb_true_iff in Hd.
    destruct (is_digit_cases c (proj1 Hd)) as (E1 & _). rewrite E1.
    exact H.
  - simpl String_of_Z. unfold parse_number. cbn [app].
    change (ch "-" =? ch "-") with true. cbv iota.
    apply (@parse_unsigned_digits true (N.pos p) rest Hf).
Qed.

Lemma String_of_Z_head (z : Z) :
  exists (c : N) (r : jsstring),
    String_of_Z z = c :: r /\ (c = ch "-" \/ is_digit c = true).
Proof.
  destruct z as [|p|p].
  - exists (ch "0"), []. split; [reflexivity|right; reflexivity].
  - simpl String_of_Z.
    destruct (decimal_digits (N.pos p)) as (Hd & Hne & _).
    destruct (N_toString 10 (N.pos p)) as [|c r]; [congruence|].
    exists c, r. split; [reflexivity|]. right. simpl in Hd.
    apply andb_true_iff in Hd. tauto.
  - simpl String_of_Z. eexists; eexists. split; [reflexivity|left; reflexivity].
Qed.

End JsonNumbers.

Section JsonValues.

Lemma skip_ws_head (c : N) (r : jsstring) :
  is_json_whitespace c = false -> skip_ws (c :: r) = c :: r.
Proof. intros H. simpl. rewrite H. reflexivity. Qed.

(** The text of a value starts with a character that is no white space and
    closes nothing. *)
Lemma stringify_head (v : JSON) :
  exists (c : N) (r : jsstring),
    JSON_stringify v = c :: r
    /\ is_json_whitespace c = false
    /\ (c =? ch "]") = false /\ (c =? ch "}") = false.
Proof.
  assert (Hz : forall z, exists c r,
             String_of_Z z = c :: r /\ is_json_whitespace c = false
             /\ (c =? ch "]") = false /\ (c =? ch "}") = false).
  { intros z. destruct (String_of_Z_head z) as (c & r & E & [->|Hd]).
    - exists (ch "-"), r. auto.
    - exists c, r. split; [exact E|].
      unfold is_digit in Hd. apply andb_true_iff in Hd.
      destruct Hd as [H1 H2]. apply N.leb_le in H1, H2.
      unfold is_json_whitespace.
      repeat split;
        repeat (apply orb_false_iff; split); apply N.eqb_neq;
        vm_compute ch; lia. }
  destruct v as [ |[|]|[ |z|m e]|s|l|o]; simpl JSON_stringify;
    try (eexists; eexists; split; [reflexivity|auto]).
  - apply Hz.
  - destruct (Hz m) as (c & r & -> & H). exists c. eexists.
    split; [reflexivity|exact H].
Qed.

Lemma digit_or_minus_dispatch (c : N) :
  c = ch "-" \/ is_digit c = true ->
  is_json_whitespace c = false
  /\ (c =? ch "{") = false /\ (c =? ch "[") = false /\ (c =? 34) = false
  /\ (c =? ch "t") = false /\ (c =? ch "f") = false /\ (c =? ch "n") = false.
Proof.
  intros [->|Hd]; [repeat split|].
  unfold is_digit in Hd. apply andb_true_iff in Hd.
  destruct Hd as [H1 H2]. apply N.leb_le in H1, H2.
  unfold is_json_whitespace.
  repeat split;
    repeat (apply orb_false_iff; split); apply N.eqb_neq; vm_compute ch; lia.
Qed.

Lemma parse_value_number (f : nat) (z : Z) (rest : jsstring) :
  value_follow rest ->
  parse_value (S f) (String_of_Z z ++ rest) = Some (JNum (Int z), rest).
Proof.
  intros Hf.
  pose proof (@parse_number_String z rest (@value_number_follow rest Hf))
    as Hn.
  destruct (String_of_Z_head z) as (c & r & E & Hc).
  rewrite E in *. cbn [app] in *.
  destruct (digit_or_minus_dispatch Hc) as (W & D1 & D2 & D3 & D4 & D5 & D6).
  cbn [parse_value]. rewrite skip_ws_head by exact W.
  rewrite D1, D2, D3, D4, D5, D6, Hn. reflexivity.
Qed.

Lemma parse_value_string (f : nat) (s rest : jsstring) :
  parse_value (S f) (QuoteJSONString s ++ rest) = Some (JStr s, rest).
Proof.
  unfold QuoteJSONString. cbn [app parse_value skip_ws].
  change (is_json_whitespace 34) with false. cbv iota.
  change (34 =? ch "{") with false. change (34 =? ch "[") with false.
  change (34 =? 34) with true. cbv iota.
  rewrite <- app_assoc. cbn [app]. rewrite parse_quoted. reflexivity.
Qed.

Lemma join_cons2 (sep x y : jsstring) (l : list jsstring) :
  join sep (x :: y :: l) = x ++ sep ++ join sep (y :: l).
Proof. reflexivity. Qed.

Lemma parse_elements_join (l : list JSON) :
  l <> [] -> Forall reads_back l ->
  forall (fuel : nat) (rest : jsstring),
    (fold_right (fun x n => S (json_size x + n)) O l <= fuel)%nat ->
    parse_elements fuel
      (join (js ",") (map JSON_stringify l) ++ ch "]" :: rest)
    = Some (l, rest).
Proof.
  induction l as [|x l' IH]; [congruence|]. intros _ Hall fuel rest Hfuel.
  inversion Hall as [|? ? Hx Hl']; subst.
  destruct fuel as [|f]; [simpl in Hfuel; lia|].
  cbn [fold_right] in Hfuel.
  destruct l' as [|y l''].
  - cbn [map join parse_elements].
    rewrite (Hx f (ch "]" :: rest))
      by (try (simpl in Hfuel; lia); right; left; reflexivity).
    reflexivity.
  - cbn [map]. rewrite join_cons2, <- !app_assoc.
    cbn [parse_elements].
    rewrite (Hx f) by (try lia; left; reflexivity).
    cbn [js list_ascii_of_string map app skip_ws].
    change (is_json_whitespace (N_of_ascii ",")) with false. cbv iota.
    change (N_of_ascii "," =? ch ",") with true. cbv iota.
    change (N_of_ascii "," :: nil) with (js ",").
    change (JSON_stringify y :: map JSON_stringify l'')
      with (map JSON_stringify (y :: l'')).
    rewrite IH by (try discriminate; try assumption; lia).
    reflexivity.
Qed.

Lemma parse_members_join (o : list (jsstring * JSON)) :
  o <> [] -> Forall (fun kv => reads_back (snd kv)) o ->
  forall (fuel : nat) (rest : jsstring),
    (fold_right (fun kv n => S (json_size (snd kv) + n)) O o <= fuel)%nat ->
    parse_members fuel (join (js ",") (map member o) ++ ch "}" :: rest)
    = Some (o, rest).
Proof.
  induction o as [|[k v] o' IH]; [congruence|]. intros _ Hall fuel rest Hfuel.
  inversion Hall as [|? ? Hx Hl']; subst. cbn [snd] in Hx.
  destruct fuel as [|f]; [simpl in Hfuel; lia|].
  cbn [fold_right snd] in Hfuel.
  assert (Hstep : forall tail,
    value_follow tail ->
    parse_members (S f) (member (k, v) ++ tail)
    = match skip_ws tail with
      | c3 :: r4 =>
          if c3 =? ch "," then
            match parse_members f r4 with
            | Some (ms, rest) => Some ((k, v) :: ms, rest)
            | None => None
            end
          else if c3 =? ch "}" then Some ([(k, v)], r4)
          else None
      | [] => None
      end).
  { intros tail Ht. unfold member, QuoteJSONString. cbn [fst snd].
    rewrite <- !app_assoc. cbn [app parse_members skip_ws].
    change (is_json_whitespace 34) with false. cbv iota.
    change (34 =? 34) with true. cbv iota.
    rewrite <- app_assoc. cbn [app].
    rewrite parse_quoted. cbn [js list_ascii_of_string map app skip_ws].
    change (is_json_whitespace (N_of_ascii ":")) with false. cbv iota.
    change (N_of_ascii ":" =? ch ":") with true. cbv iota.
    rewrite (Hx f) by (try lia; exact Ht). reflexivity. }
  destruct o' as [|kv' o''].
  - cbn [map join]. rewrite Hstep by (right; right; reflexivity).
    reflexivity.
  - cbn [map]. rewrite join_cons2, <- !app_assoc.
    rewrite Hstep by (left; reflexivity).
    cbn [js list_ascii_of_string map app skip_ws].
    change (is_json_whitespace (N_of_ascii ",")) with false. cbv iota.
    change (N_of_ascii "," =? ch ",") with true. cbv iota.
    change (N_of_ascii "," :: nil) with (js ",").
    change (member kv' :: map member o'') with (map member (kv' :: o'')).
    rewrite IH by (try discriminate; try assumption; lia).
    reflexivity.
Qed.

Lemma str_eqb_sym (a b : jsstring) : str_eqb a b = str_eqb b a.
Proof.
  destruct (str_eqb a b) eqn:E.
  - apply str_eqb_eq in E. subst. symmetry. apply str_eqb_refl.
  - symmetry. apply str_eqb_neq. apply str_eqb_neq in E. congruence.
Qed.

Lemma has_key_existsb (k : jsstring) (o : list (jsstring * JSON)) :
  has_key k o = existsb (str_eqb k) (map fst o).
Proof.
  induction o as [|[k' v] o IH]; [reflexivity|]. simpl. rewrite IH.
  reflexivity.
Qed.

Lemma distinct_app_fresh (a b : list jsstring) (k : jsstring) :
  distinct (a ++ k :: b) = true -> existsb (str_eqb k) a = false.
Proof.
  induction a as [|x a IH]; [reflexivity|]. simpl. intros H.
  apply andb_true_iff in H. destruct H as [Hx Ha].
  apply negb_true_iff in Hx. rewrite existsb_app in Hx.
  apply orb_false_iff in Hx. destruct Hx as [_ Hx]. simpl in Hx.
  apply orb_false_iff in Hx. destruct Hx as [Hx _].
  rewrite str_eqb_sym, Hx. simpl. apply IH. exact Ha.
Qed.

(** Defining distinct ordinary keys one after the other keeps their
    order. *)
Lemma define_props_plain (ms acc : list (jsstring * JSON)) :
  forallb (fun kv => negb (is_array_index (fst kv))) ms = true ->
  distinct (map fst acc ++ map fst ms) = true ->
  fold_left define_prop ms acc = acc ++ ms.
Proof.
  revert acc. induction ms as [|[k v] ms IH]; intros acc Hi Hd.
  - simpl. symmetry. apply app_nil_r.
  - cbn [map fst] in Hd. cbn [forallb fst] in Hi.
    apply andb_true_iff in Hi. destruct Hi as [Hk Hi].
    apply negb_true_iff in Hk.
    cbn [fold_left]. unfold define_prop at 2.
    rewrite has_key_existsb, (distinct_app_fresh _ _ _ Hd), Hk.
    rewrite IH.
    + rewrite <- app_assoc. reflexivity.
    + exact Hi.
    + rewrite map_app, <- app_assoc. exact Hd.
Qed.

Lemma json_plain_obj (o : list (jsstring * JSON)) :
  json_plain (JObj o) = true ->
  forallb (fun kv => negb (is_array_index (fst kv))) o = true
  /\ Forall (fun kv => json_plain (snd kv) = true) o
  /\ distinct (map fst o) = true.
Proof.
  cbn [json_plain]. intros H. apply andb_true_iff in H.
  destruct H as [H Hd]. split; [|split; [|exact Hd]].
  - rewrite forallb_forall in *. intros kv Hin.
    specialize (H kv Hin). apply andb_true_iff in H. tauto.
  - apply Forall_forall. intros kv Hin. rewrite forallb_forall in H.
    specialize (H kv Hin). apply andb_true_iff in H. tauto.
Qed.

Lemma Forall_impl2 (A : Type) (P Q : A -> Prop) (l : list A) :
  Forall (fun x => P x -> Q x) l -> Forall P l -> Forall Q l.
Proof.
  induction 1 as [|x l H _ IH]; intros HP; [constructor|].
  inversion HP; subst. constructor; auto.
Qed.

(** [parse_value] reads the text of a plain value back. *)
Lemma parse_value_stringify (v : JSON) :
  json_plain v = true -> reads_back v.
Proof.
  induction v as [ |b|x|s|l IH|o IH] using JSON_ind_nested;
    intros Hp fuel rest Hfuel Hrest;
    (destruct fuel as [|f]; [simpl in Hfuel; lia|]).
  - reflexivity.
  - destruct b; reflexivity.
  - destruct x as [ |z|m e]; try discriminate.
    apply parse_value_number. exact Hrest.
  - apply parse_value_string.
  - cbn [json_plain] in Hp.
    assert (Hall : Forall reads_back l).
    { eapply Forall_impl2; [exact IH|]. apply Forall_forall.
      rewrite forallb_forall in Hp. exact Hp. }
    cbn [json_size] in Hfuel. apply le_S_n in Hfuel.
    cbn [JSON_stringify].
    change (js "[") with (ch "[" :: nil). change (js "]") with (ch "]" :: nil).
    rewrite <- !app_assoc. cbn [app parse_value skip_ws].
    change (is_json_whitespace (ch "[")) with false. cbv iota.
    change (ch "[" =? ch "{") with false.
    change (ch "[" =? ch "[") with true. cbv iota.
    destruct l as [|x l'].
    + reflexivity.
    + pose proof (@parse_elements_join (x :: l') ltac:(discriminate)
                    Hall f rest Hfuel) as He.
      destruct (stringify_head x) as (c & r & Ex & W & C1 & _).
      assert (Ej : exists r', join (js ",") (map JSON_stringify (x :: l'))
                              = c :: r').
      { destruct l' as [|y l'']; cbn [map].
        - exists r. exact Ex.
        - rewrite join_cons2, Ex. eexists. reflexivity. }
      destruct Ej as [r' Ej].
      rewrite Ej in *. cbn [app] in *.
      rewrite skip_ws_head by exact W. rewrite C1, He. reflexivity.
  - destruct (json_plain_obj _ Hp) as (Hidx & Hpl & Hdist).
    assert (Hall : Forall (fun kv => reads_back (snd kv)) o)
      by (eapply Forall_impl2; [exact IH|exact Hpl]).
    cbn [json_size] in Hfuel. apply le_S_n in Hfuel.
    cbn [JSON_stringify].
    change (js "{") with (ch "{" :: nil). change (js "}") with (ch "}" :: nil).
    rewrite <- !app_assoc. cbn [app parse_value skip_ws].
    change (is_json_whitespace (ch "{")) with false. cbv iota.
    change (ch "{" =? ch "{") with true. cbv iota.
    destruct o as [|kv o'].
    + reflexivity.
    + pose proof (@parse_members_join (kv :: o') ltac:(discriminate)
                    Hall f rest Hfuel) as He.
      assert (Ej : exists r', join (js ",") (map member (kv :: o'))
                              = 34 :: r').
      { destruct o' as [|kv' o'']; cbn [map].
        - eexists. reflexivity.
        - rewrite join_cons2. eexists. reflexivity. }
      destruct Ej as [r' Ej].
      change (map (fun kv0 => QuoteJSONString (fst kv0) ++ js ":"
                              ++ JSON_stringify (snd kv0)) (kv :: o'))
        with (map member (kv :: o')).
      rewrite Ej in *. cbn [app] in *.
      rewrite skip_ws_head by reflexivity.
      change (34 =? ch "}") with false. cbv iota.
      rewrite He. rewrite define_props_plain by assumption.
      reflexivity.
Qed.

Lemma join_length_bound (A : Type) (size : A -> nat) (txt : A -> jsstring)
    (l : list A) :
  Forall (fun x => (size x <= length (txt x))%nat) l ->
  (fold_right (fun x n => S (size x + n)) O l
   <= S (length (join (js ",") (map txt l))))%nat.
Proof.
  induction l as [|x l' IH]; intros Hall; [simpl; lia|].
  inversion Hall as [|? ? Hx Hl']; subst. specialize (IH Hl').
  destruct l' as [|y l''].
  - simpl. lia.
  - cbn [map] in *. rewrite join_cons2, !length_app.
    cbn [fold_right] in *. simpl length at 2. lia.
Qed.

Lemma String_of_Z_nonempty (z : Z) : (1 <= length (String_of_Z z))%nat.
Proof.
  destruct (String_of_Z_head z) as (c & r & -> & _). simpl. lia.
Qed.

(** The parser has fuel for every text the printer emits. *)
Lemma json_size_length (v : JSON) :
  (json_size v <= length (JSON_stringify v))%nat.
Proof.
  induction v as [ |b|x|s|l IH|o IH] using JSON_ind_nested.
  - simpl. lia.
  - destruct b; simpl; lia.
  - destruct x as [ |z|m e]; cbn [json_size JSON_stringify String_of_number].
    + simpl. lia.
    + apply String_of_Z_nonempty.
    + rewrite length_app. pose proof (String_of_Z_nonempty m). lia.
  - cbn [json_size JSON_stringify]. unfold QuoteJSONString.
    cbn [length]. lia.
  - cbn [json_size JSON_stringify]. rewrite !length_app.
    pose proof (join_length_bound json_size JSON_stringify IH).
    simpl length. lia.
  - cbn [json_size JSON_stringify]. rewrite !length_app.
    assert (Hm : Forall (fun kv => (json_size (snd kv)
                                    <= length (member kv))%nat) o).
    { eapply Forall_impl; [|exact IH]. intros kv H. cbv beta in H.
      unfold member. rewrite !length_app. lia. }
    pose proof (join_length_bound (fun kv => json_size (snd kv)) member Hm)
      as Hj.
    cbv beta in Hj.
    change (map (fun kv => QuoteJSONString (fst kv) ++ js ":"
                           ++ JSON_stringify (snd kv)) o)
      with (map member o).
    change (length (js "{")) with 1%nat. change (length (js "}")) with 1%nat.
    lia.
Qed.

(** [JSON.parse (JSON.stringify v) = v] for a plain value [v]. *)
Theorem JSON_parse_stringify (v : JSON) :
  json_plain v = true -> JSON_parse (JSON_stringify v) = Some v.
Proof.
  intros Hp. unfold JSON_parse.
  pose proof (@parse_value_stringify v Hp
                (2 * length (JSON_stringify v) + 2)%nat []
                ltac:(pose proof (json_size_length v); lia) I) as H.
  rewrite app_nil_r in H. rewrite H. reflexivity.
Qed.

End JsonValues.

(* ================================================================== *)
(** * The wire types as JSON *)
(* ================================================================== *)

Section WireTypes.

Lemma asExtra_json (e : Extra) : asExtra (Extra_json e) = Some e.
Proof. destruct e; reflexivity. Qed.

Lemma asPaymentRequirement_json (r : PaymentRequirement) :
  asPaymentRequirement (PaymentRequirement_json r) = Some r.
Proof. destruct r as [? ? ? ? ? ? []]; reflexivity. Qed.

Lemma asResourceInfo_json (r : ResourceInfo) :
  asResourceInfo (ResourceInfo_json r) = Some r.
Proof. destruct r; reflexivity. Qed.

Lemma asPaymentRequiredBody_json (b : PaymentRequiredBody) :
  asPaymentRequiredBody (PaymentRequiredBody_json b) = Some b.
Proof.
  destruct b as [w l res e].
  unfold asPaymentRequiredBody, PaymentRequiredBody_json.
  cbn [x402Version accepts resource error].
  change (get_number "x402Version" _) with (Some w).
  change (lookup (js "accepts") _)
    with (Some (JArr (map PaymentRequirement_json l))).
  change (lookup (js "resource") _) with (Some (ResourceInfo_json res)).
  change (get_string "error" _) with (Some e).
  cbv iota. rewrite map_option_map
    by (intros; apply asPaymentRequirement_json).
  rewrite asResourceInfo_json. reflexivity.
Qed.

Lemma PaymentRequirement_plain (r : PaymentRequirement) :
  integral_requirement r = true ->
  json_plain (PaymentRequirement_json r) = true.
Proof.
  unfold integral_requirement, PaymentRequirement_json.
  destruct (maxTimeoutSeconds r); try discriminate. reflexivity.
Qed.

Lemma PaymentRequiredBody_plain (b : PaymentRequiredBody) :
  integral_challenge b = true ->
  json_plain (PaymentRequiredBody_json b) = true.
Proof.
  unfold integral_challenge, PaymentRequiredBody_json. intros H.
  apply andb_true_iff in H. destruct H as [Hw Hl].
  destruct (x402Version b); try discriminate.
  assert (Ha : forallb json_plain (map PaymentRequirement_json (accepts b))
               = true).
  { apply forallb_forall. intros v Hin. apply in_map_iff in Hin.
    destruct Hin as (r & <- & Hr). apply PaymentRequirement_plain.
    rewrite forallb_forall in Hl. apply Hl. exact Hr. }
  cbn [json_plain forallb fst snd map]. rewrite Ha. reflexivity.
Qed.

Lemma envelope_plain (config : X402Config) (r : PaymentRequirement)
    (res : ResourceInfo) (signature : jsstring) (validBefore : Z)
    (nonce : jsstring) :
  integral_requirement r = true ->
  json_plain (envelope config r res signature validBefore nonce) = true.
Proof.
  intros H. unfold envelope.
  pose proof (PaymentRequirement_plain r H) as Hr.
  cbn [json_plain forallb fst snd map]. rewrite Hr. reflexivity.
Qed.

Lemma b64_encode_nonempty (s : jsstring) : s <> [] -> b64_encode s <> [].
Proof.
  destruct s as [|a [|b [|c r]]]; [congruence| | |]; discriminate.
Qed.

Lemma btoa_nonempty (s h : jsstring) : s <> [] -> btoa s = Some h -> h <> [].
Proof.
  intros Hs. unfold btoa. destruct (forallb _ s); [|discriminate].
  intros H; inversion H. apply b64_encode_nonempty. exact Hs.
Qed.

Lemma stringify_nonempty (v : JSON) : JSON_stringify v <> [].
Proof.
  destruct (stringify_head v) as (c & r & -> & _). discriminate.
Qed.

End WireTypes.

(** C4, as stated, at a requirement whose amount is ["0x10"]: the call
    returns a header, the signed value is 16, and the [value] of the wire
    authorization is ["0x10"], which is no decimal string. *)
Lemma wire_value_need_not_be_decimal :
  exists (header : jsstring) (t' : Trace) (args : SignArgs) (payload : JSON),
    run paying_world
      (buildPaymentHeader x402_config hex_amount_requirement MOCK_RESOURCE) []
    = (Returns header, t')
    /\ signings t' = [args]
    /\ Message.value (message args) = 16%Z
    /\ btoa (JSON_stringify payload) = Some header
    /\ field3 "payload" "authorization" "value" payload
       = Some (JStr (js "0x10"))
    /\ is_decimal_string (js "0x10") = false.
Proof.
  assert (E : exists header t',
             run paying_world
               (buildPaymentHeader x402_config hex_amount_requirement
                  MOCK_RESOURCE) []
             = (Returns header, t'))
    by (vm_compute; eexists; eexists; reflexivity).
  destruct E as (header & t' & E).
  pose proof (buildPaymentHeader_returns _ _ _ _ _ E)
    as (chainId & value & signature & Hp & Hv & Hs & Ht & Hb).
  exists header, t'. eexists; eexists.
  split; [exact E|].
  split; [rewrite Ht, signings_app, build_history_signings; reflexivity|].
  split; [|split; [exact Hb|split; reflexivity]].
  vm_compute in Hv. inversion Hv. reflexivity.
Qed.

(** C4, amended.  A call of [buildPaymentHeader] that returns a header
    returns the base64 encoding of the JSON text of an envelope ([atob] gives
    the text back, and [JSON.parse] the envelope when the requirement's
    [maxTimeoutSeconds] is an integer) with: [x402Version]; the resource and,
    as [accepted], the requirement, both as given; the signature; and an
    authorization whose [value] is the requirement's [amount] string as given
    (the string [BigInt] converted for the signed message, a decimal string
    whenever [amount] is one), whose [validAfter] is ["0"] and whose
    [validBefore] is the decimal string of the signed number, and whose
    [nonce] is [0x] and 64 lower-case hexadecimal digits. *)
Theorem payment_header_envelope
    (env : Env) (config : X402Config) (requirement : PaymentRequirement)
    (resource : ResourceInfo) (t t' : Trace) (header : jsstring) :
  run env (buildPaymentHeader config requirement resource) t
  = (Returns header, t') ->
  exists (args : SignArgs) (signature : jsstring) (payload : JSON),
    signings t' = signings t ++ [args]
    /\ signTypedData env (build_history env t) args = Ok signature
    /\ btoa (JSON_stringify payload) = Some header
    /\ atob header = Some (JSON_stringify payload)
    /\ (integral_requirement requirement = true ->
        JSON_parse (JSON_stringify payload) = Some payload)
    /\ field "x402Version" payload = Some (JNum (Int 2))
    /\ field "resource" payload = Some (ResourceInfo_json resource)
    /\ asResourceInfo (ResourceInfo_json resource) = Some resource
    /\ field "accepted" payload = Some (PaymentRequirement_json requirement)
    /\ asPaymentRequirement (PaymentRequirement_json requirement)
       = Some requirement
    /\ field2 "payload" "signature" payload = Some (JStr signature)
    /\ field3 "payload" "authorization" "from" payload
       = Some (JStr (address (x402_account config)))
    /\ field3 "payload" "authorization" "to" payload
       = Some (JStr (payTo requirement))
    /\ field3 "payload" "authorization" "value" payload
       = Some (JStr (amount requirement))
    /\ StringToBigInt (amount requirement)
       = Some (Message.value (message args))
    /\ field3 "payload" "authorization" "validAfter" payload
       = Some (JStr (js "0"))
    /\ Message.validAfter (message args) = 0%Z
    /\ field3 "payload" "authorization" "validBefore" payload
       = Some (JStr (String_of_Z (Message.validBefore (message args))))
    /\ is_decimal_string (String_of_Z (Message.validBefore (message args)))
       = true
    /\ field3 "payload" "authorization" "nonce" payload
       = Some (JStr (Message.nonce (message args)))
    /\ is_nonce_string (Message.nonce (message args)) = true.
Proof.
  intros H. apply buildPaymentHeader_returns in H.
  destruct H as (chainId & value & signature & Hp & Hv & Hs & Ht & Hb).
  cbv zeta in *.
  exists (sign_request config requirement chainId value
            (build_validBefore env t) (build_nonce env t)), signature.
  eexists.
  split; [rewrite Ht, signings_app, build_history_signings; reflexivity|].
  split; [exact Hs|]. split; [exact Hb|].
  split; [apply atob_btoa; exact Hb|].
  split; [intros Hi; apply JSON_parse_stringify, envelope_plain; exact Hi|].
  split; [reflexivity|]. split; [reflexivity|].
  split; [apply asResourceInfo_json|]. split; [reflexivity|].
  split; [apply asPaymentRequirement_json|].
  split; [reflexivity|]. split; [reflexivity|]. split; [reflexivity|].
  split; [reflexivity|].
  split.
  { unfold BigInt in Hv. cbn [sign_request message Message.value].
    destruct (StringToBigInt (amount requirement)); inversion Hv.
    reflexivity. }
  split; [reflexivity|]. split; [reflexivity|]. split; [reflexivity|].
  split; [apply String_of_Z_decimal|]. split; [reflexivity|].
  apply nonce_of_bytes_shape, next_random_length.
Qed.

Lemma payment_header_envelope_witness :
  run paying_world
    (buildPaymentHeader x402_config MOCK_REQUIREMENT MOCK_RESOURCE) []
  = (Returns mock_header, mock_trace)
  /\ exists payload : JSON,
       atob mock_header = Some (JSON_stringify payload)
       /\ JSON_parse (JSON_stringify payload) = Some payload
       /\ field "accepted" payload
          = Some (PaymentRequirement_json MOCK_REQUIREMENT)
       /\ field3 "payload" "authorization" "value" payload
          = Some (JStr (js "1000")).
Proof.
  assert (H : run paying_world
                (buildPaymentHeader x402_config MOCK_REQUIREMENT MOCK_RESOURCE)
                []
              = (Returns mock_header, mock_trace))
    by (vm_compute; reflexivity).
  split; [exact H|].
  destruct (payment_header_envelope _ _ _ _ _ H)
    as (args & signature & payload & _ & _ & _ & Ha & Hj & _ & _ & _ & Hq & _
        & _ & _ & _ & Hv & _).
  exists payload. split; [exact Ha|]. split; [exact (Hj eq_refl)|].
  split; [exact Hq|exact Hv].
Defined.

(** C5, as stated, at a response whose challenge header is present and
    empty: the empty string is valid base64 of a text that is no JSON, and the
    decoder reports the header missing, not malformed. *)
Lemma empty_header_is_reported_missing :
  Headers_get (headers empty_header_response) (js "payment-required")
  = Some []
  /\ atob [] = Some []
  /\ JSON_parse [] = None
  /\ decodePaymentRequired empty_header_response = Err MissingChallenge
  /\ decodePaymentRequired empty_header_response <> Err MalformedChallenge.
Proof.
  repeat split; try reflexivity. vm_compute. discriminate.
Qed.

(** C5, amended.  [decodePaymentRequired] fails with [MissingChallenge] when
    the [payment-required] header is absent or empty; with
    [MalformedChallenge] when its value is not empty and is not base64 or
    decodes to a text that is no JSON; and returns the parsed value, whatever
    it is, in every other case.  The base64 encoding of the JSON text of a
    challenge whose numbers are integers decodes to that challenge. *)
Theorem decode_payment_required (response : Response) :
  let h := Headers_get (headers response) (js "payment-required") in
  (h = None \/ h = Some [] ->
   decodePaymentRequired response = Err MissingChallenge)
  /\ (forall header,
        h = Some header -> header <> [] ->
        atob header = None
        \/ (exists text, atob header = Some text /\ JSON_parse text = None) ->
        decodePaymentRequired response = Err MalformedChallenge)
  /\ (forall header text v,
        h = Some header -> header <> [] ->
        atob header = Some text -> JSON_parse text = Some v ->
        decodePaymentRequired response = Ok v)
  /\ (forall challenge header,
        integral_challenge challenge = true ->
        btoa (JSON_stringify (PaymentRequiredBody_json challenge))
        = Some header ->
        h = Some header ->
        decodePaymentRequired response
        = Ok (PaymentRequiredBody_json challenge)
        /\ asPaymentRequiredBody (PaymentRequiredBody_json challenge)
           = Some challenge).
Proof.
  cbv zeta. unfold decodePaymentRequired.
  assert (Hok : forall header text v,
    Headers_get (headers response) (js "payment-required") = Some header ->
    header <> [] -> atob header = Some text -> JSON_parse text = Some v ->
    match Headers_get (headers response) (js "payment-required") with
    | None | Some [] =>
        Err (Thrown (new_PaymentRequiredError
                       (js "402 response missing PAYMENT-REQUIRED header")
                       None))
    | Some header =>
        match atob header with
        | Some json =>
            match JSON_parse json with
            | Some v => Ok v
            | None =>
                Err (Thrown (new_PaymentRequiredError
                               (js "Failed to decode PAYMENT-REQUIRED header")
                               None))
            end
        | None =>
            Err (Thrown (new_PaymentRequiredError
                           (js "Failed to decode PAYMENT-REQUIRED header")
                           None))
        end
    end = Ok v).
  { intros header text v Hh Hne Ha Hj. rewrite Hh.
    destruct header as [|c r]; [congruence|]. rewrite Ha, Hj. reflexivity. }
  split; [|split; [|split]].
  - intros [->| ->]; reflexivity.
  - intros header Hh Hne Hbad. rewrite Hh.
    destruct header as [|c r]; [congruence|].
    destruct Hbad as [->|(text & -> & ->)]; reflexivity.
  - exact Hok.
  - intros challenge header Hi Hb Hh.
    split; [|apply asPaymentRequiredBody_json].
    apply (Hok header (JSON_stringify (PaymentRequiredBody_json challenge))).
    + exact Hh.
    + eapply btoa_nonempty; [apply stringify_nonempty|exact Hb].
    + apply atob_btoa. exact Hb.
    + apply JSON_parse_stringify, PaymentRequiredBody_plain. exact Hi.
Qed.

Lemma decode_payment_required_witness :
  integral_challenge empty_challenge = true
  /\ btoa (JSON_stringify (PaymentRequiredBody_json empty_challenge))
     = Some (encode_challenge empty_challenge)
  /\ Headers_get (headers (challenge_response empty_challenge))
       (js "payment-required")
     = Some (encode_challenge empty_challenge)
  /\ decodePaymentRequired (challenge_response empty_challenge)
     = Ok (PaymentRequiredBody_json empty_challenge)
  /\ asPaymentRequiredBody (PaymentRequiredBody_json empty_challenge)
     = Some empty_challenge.
Proof.
  assert (Hb : btoa (JSON_stringify (PaymentRequiredBody_json empty_challenge))
               = Some (encode_challenge empty_challenge))
    by (vm_compute; reflexivity).
  assert (Hh : Headers_get (headers (challenge_response empty_challenge))
                 (js "payment-required")
               = Some (encode_challenge empty_challenge))
    by reflexivity.
  split; [reflexivity|]. split; [exact Hb|]. split; [exact Hh|].
  pose proof (decode_payment_required (challenge_response empty_challenge))
    as H.
  cbv zeta in H. destruct H as (_ & _ & _ & H).
  exact (H empty_challenge (encode_challenge empty_challenge) eq_refl Hb Hh).
Defined.

(* ================================================================== *)
(** * Reading the decoded challenge *)
(* ================================================================== *)

Section RunTimeReads.

Lemma get_string_lookup (k : string) (o : list (jsstring * JSON))
    (s : jsstring) :
  get_string k o = Some s -> lookup (js k) o = Some (JStr s).
Proof.
  unfold get_string.
  destruct (lookup (js k) o) as [[ | | |w| | ]|]; intros H; inversion H.
  reflexivity.
Qed.

(** On a value of the declared type the builder reads the declared
    fields. *)
Lemma typed_reads (x : JSON) (r : PaymentRequirement) :
  asPaymentRequirement x = Some r ->
  read_domain (Some x)
  = match parseChainId (network r) with
    | Ok chainId =>
        Ok {| Domain.name := str (name (extra r));
              Domain.version := str (version (extra r));
              Domain.chainId := chainId;
              Domain.verifyingContract := str (asset r) |}
    | Err e => Err e
    end
  /\ read_payment (Some x)
     = match BigInt (amount r) with
       | Ok value => Ok (str (payTo r), str (amount r), value)
       | Err e => Err e
       end.
Proof.
  intros H. destruct x as [ | | | | |o]; try discriminate H.
  cbn [asPaymentRequirement] in H.
  destruct (get_string "scheme" o) as [s|] eqn:E1; [|discriminate H].
  destruct (get_string "network" o) as [n|] eqn:E2; [|discriminate H].
  destruct (get_string "amount" o) as [a|] eqn:E3; [|discriminate H].
  destruct (get_string "asset" o) as [b|] eqn:E4; [|discriminate H].
  destruct (get_string "payTo" o) as [p|] eqn:E5; [|discriminate H].
  destruct (get_number "maxTimeoutSeconds" o) as [m|] eqn:E6;
    [|discriminate H].
  destruct (lookup (js "extra") o) as [x|] eqn:E7; [|discriminate H].
  destruct (asExtra x) as [e|] eqn:E8; [|discriminate H].
  inversion H; subst r; clear H. cbn [network extra amount asset payTo].
  apply get_string_lookup in E2, E3, E4, E5.
  destruct x as [ | | | | |eo]; try discriminate E8.
  cbn [asExtra] in E8.
  destruct (get_string "assetTransferMethod" eo) as [m1|] eqn:F1;
    [|discriminate E8].
  destruct (get_string "name" eo) as [m2|] eqn:F2; [|discriminate E8].
  destruct (get_string "version" eo) as [m3|] eqn:F3; [|discriminate E8].
  inversion E8; subst e; clear E8. cbn [name version].
  apply get_string_lookup in F2, F3.
  split.
  - unfold read_domain, RunTime.Get.
    change (RunTime.Key_string Key.network) with (js "network").
    change (RunTime.Key_string Key.extra) with (js "extra").
    change (RunTime.Key_string Key.name) with (js "name").
    change (RunTime.Key_string Key.version) with (js "version").
    change (RunTime.Key_string Key.asset) with (js "asset").
    rewrite E2. cbn [RunTime.parseChainId].
    destruct (parseChainId n); [|reflexivity].
    rewrite E7, F2, F3, E4. reflexivity.
  - unfold read_payment, RunTime.Get.
    change (RunTime.Key_string Key.payTo) with (js "payTo").
    change (RunTime.Key_string Key.amount) with (js "amount").
    rewrite E5, E3. cbn [RunTime.BigInt].
    destruct (BigInt a); reflexivity.
Qed.

Lemma map_option_cons (A B : Type) (f : A -> option B) (l : list A)
    (y : B) (ys : list B) :
  map_option f l = Some (y :: ys) ->
  exists x r, l = x :: r /\ f x = Some y.
Proof.
  destruct l as [|x r]; [discriminate|]. simpl.
  destruct (f x) as [y'|] eqn:E; [|discriminate].
  destruct (map_option f r); [|discriminate].
  intros H. inversion H; subst. exists x, r. split; [reflexivity|exact E].
Qed.

(** On a challenge of the declared type the dispatcher selects the first
    of the declared requirements, and the declared resource. *)
Lemma typed_selection (v : JSON) (challenge : PaymentRequiredBody) :
  asPaymentRequiredBody v = Some challenge ->
  match accepts challenge with
  | [] => selection v = Err (NoAcceptedPaymentMethod v)
  | requirement :: _ =>
      exists x res : JSON,
        selection v = Ok (Some x, Some res)
        /\ asPaymentRequirement x = Some requirement
        /\ asResourceInfo res = Some (resource challenge)
  end.
Proof.
  intros H. destruct v as [ | | | | |o]; try discriminate H.
  cbn [asPaymentRequiredBody] in H.
  destruct (get_number "x402Version" o) as [w|]; [|discriminate H].
  destruct (lookup (js "accepts") o) as [[ | | | |l| ]|] eqn:Ea;
    try discriminate H.
  destruct (lookup (js "resource") o) as [res|] eqn:Er; [|discriminate H].
  destruct (get_string "error" o) as [e|]; [|discriminate H].
  destruct (map_option asPaymentRequirement l) as [reqs|] eqn:El;
    [|discriminate H].
  destruct (asResourceInfo res) as [ri|] eqn:Ei; [|discriminate H].
  inversion H; subst challenge; clear H. cbn [accepts resource].
  unfold selection, RunTime.Get.
  change (RunTime.Key_string Key.accepts) with (js "accepts").
  change (RunTime.Key_string Key.resource) with (js "resource").
  rewrite Ea, Er.
  destruct reqs as [|requirement others].
  - destruct l as [|x r]; [reflexivity|]. simpl in El.
    destruct (asPaymentRequirement x); [|discriminate El].
    destruct (map_option asPaymentRequirement r); discriminate El.
  - destruct (map_option_cons _ _ El) as (x & r & -> & Hx).
    exists x, res. split; [reflexivity|]. split; assumption.
Qed.


(** An empty array of offers is refused. *)
Lemma selection_empty (v : JSON) :
  RunTime.Get (Some v) Key.accepts = Ok (Some (JArr [])) ->
  selection v = Err (NoAcceptedPaymentMethod v).
Proof. intros H. unfold selection. rewrite H. reflexivity. Qed.

End RunTimeReads.

(* ================================================================== *)
(** * Runs of the builder on what it is handed *)
(* ================================================================== *)

Section RunTimeRuns.

Variable env : Env.
Variable config : X402Config.
Variable requirement resource : Value.

(** The run of [RunTime.buildPaymentHeader], step by step. *)
Lemma run_RunTime_buildPaymentHeader (t : Trace) :
  run env (RunTime.buildPaymentHeader config requirement resource) t =
  match read_domain requirement with
  | Err e => (Throws e, t)
  | Ok d =>
      match read_payment requirement with
      | Err e => (Throws e, build_history env t)
      | Ok (payTo, amount, value) =>
          let args :=
            signing_request config d payTo value (build_validBefore env t)
              (build_nonce env t) in
          let answer := signTypedData env (build_history env t) args in
          let t' := build_history env t ++ [ObsSign args answer] in
          match answer with
          | Err e => (Throws e, t')
          | Ok signature =>
              match btoa (JSON_stringify
                            (RunTime.envelope config requirement resource
                               payTo amount signature
                               (build_validBefore env t) (build_nonce env t)))
              with
              | Some header => (Returns header, t')
              | None => (Throws InvalidCharacterError, t')
              end
          end
      end
  end.
Proof.
  unfold RunTime.buildPaymentHeader, read_domain, read_payment, randomNonce.
  destruct (RunTime.Get requirement Key.network) as [network|e];
    [|reflexivity].
  cbn [run bind lift await].
  destruct (RunTime.parseChainId network) as [chainId|e]; [|reflexivity].
  cbn [run bind lift await].
  destruct (RunTime.Get requirement Key.extra) as [extra|e]; [|reflexivity].
  cbn [run bind lift await].
  destruct (RunTime.Get extra Key.name) as [name|e]; [|reflexivity].
  cbn [run bind lift await].
  destruct (RunTime.Get extra Key.version) as [version|e]; [|reflexivity].
  cbn [run bind lift await].
  destruct (RunTime.Get requirement Key.asset) as [asset|e]; [|reflexivity].
  cbn [run bind lift await].
  fold (next_random env t). fold (build_clock env t).
  fold (build_now env t).
  change (build_now env t + SIGNATURE_VALIDITY_SECONDS)%Z
    with (build_validBefore env t).
  fold (nonce_of_bytes (next_random env t)). fold (build_nonce env t).
  fold (build_history env t).
  destruct (RunTime.Get requirement Key.payTo) as [payTo|e]; [|reflexivity].
  cbn [run bind lift await].
  destruct (RunTime.Get requirement Key.amount) as [amount|e]; [|reflexivity].
  cbn [run bind lift await].
  destruct (RunTime.BigInt amount) as [value|e]; [|reflexivity].
  cbn [run bind lift await].
  match goal with
  | |- context [signTypedData env (build_history env t) ?a] =>
      change a with (signing_request config
                       {| Domain.name := name; Domain.version := version;
                          Domain.chainId := chainId;
                          Domain.verifyingContract := asset |}
                       payTo value (build_validBefore env t)
                       (build_nonce env t))
  end.
  cbv zeta.
  destruct (signTypedData env (build_history env t) _) as [signature|e];
    [|reflexivity].
  cbn [run bind lift await].
  destruct (btoa _); reflexivity.
Qed.

(** What a run adds to the history. *)
Lemma RunTime_history (t : Trace) :
  let t' := snd (run env (RunTime.buildPaymentHeader config requirement
                            resource) t) in
  t' = t
  \/ t' = build_history env t
  \/ exists args answer, t' = build_history env t ++ [ObsSign args answer].
Proof.
  cbv zeta. rewrite run_RunTime_buildPaymentHeader.
  destruct (read_domain requirement); [|left; reflexivity].
  destruct (read_payment requirement) as [[[payTo amount] value]|e];
    [|right; left; reflexivity].
  cbv zeta. right; right.
  destruct (signTypedData env (build_history env t) _) eqn:Es;
    [destruct (btoa _)|]; eexists; eexists; reflexivity.
Qed.

Lemma RunTime_fetches (t : Trace) :
  fetches (snd (run env (RunTime.buildPaymentHeader config requirement
                           resource) t))
  = fetches t.
Proof.
  destruct (RunTime_history t) as [E|[E|(args & answer & E)]];
    cbv zeta in E; rewrite E; [reflexivity|apply build_history_fetches|].
  rewrite fetches_app, build_history_fetches. simpl. apply app_nil_r.
Qed.

Lemma RunTime_no_fetch (t : Trace) (u : jsstring) (h : Headers)
    (a : Result Response) :
  In (ObsFetch u h a)
     (snd (run env (RunTime.buildPaymentHeader config requirement resource)
             t)) ->
  In (ObsFetch u h a) t.
Proof.
  destruct (RunTime_history t) as [E|[E|(args & answer & E)]];
    cbv zeta in E; rewrite E;
    unfold build_history; rewrite ?in_app_iff; simpl; intros H;
    repeat (destruct H as [H|H]; try discriminate H; try contradiction);
    exact H.
Qed.



End RunTimeRuns.

Section RunTimeTyped.

Variable env : Env.

(** The builder reads nothing of its configuration but the account. *)
Lemma RunTime_account (k1 k2 : X402Config) (requirement resource : Value)
    (t : Trace) :
  x402_account k1 = x402_account k2 ->
  run env (RunTime.buildPaymentHeader k1 requirement resource) t
  = run env (RunTime.buildPaymentHeader k2 requirement resource) t.
Proof.
  intros H. rewrite !run_RunTime_buildPaymentHeader.
  unfold signing_request, RunTime.envelope. rewrite H. reflexivity.
Qed.

(** On the JSON values of arguments of the declared types, the builder runs
    as the builder on these arguments. *)
Lemma RunTime_typed (config : X402Config) (requirement : PaymentRequirement)
    (resource : ResourceInfo) (t : Trace) :
  run env (RunTime.buildPaymentHeader config (requirement_value requirement)
             (resource_value resource)) t
  = run env (buildPaymentHeader config requirement resource) t.
Proof.
  rewrite run_RunTime_buildPaymentHeader, run_buildPaymentHeader.
  destruct (@typed_reads (PaymentRequirement_json requirement) requirement
              (asPaymentRequirement_json requirement)) as [Hd Hp].
  unfold requirement_value. rewrite Hd, Hp.
  destruct (parseChainId (network requirement)); [|reflexivity].
  destruct (BigInt (amount requirement)); reflexivity.
Qed.

End RunTimeTyped.

(* ================================================================== *)
(** * Runs of the dispatcher *)
(* ================================================================== *)

Section DispatcherRuns.

Variable env : Env.
Variable config : DenScopeConfig.
Variable path : jsstring.

(** The run of [request], step by step. *)
Lemma run_request :
  let url := request_url config path in
  let hs := request_headers config in
  let first := transport env [] url hs in
  let t1 : Trace := [ObsFetch url hs first] in
  run env (request config path) [] =
  match first with
  | Err e => (Throws e, t1)
  | Ok response =>
      match (status response =? 402)%Z, account config with
      | true, Some acct =>
          match decodePaymentRequired response with
          | Err e => (Throws e, t1)
          | Ok paymentRequired =>
              match selection paymentRequired with
              | Err e => (Throws e, t1)
              | Ok (requirement, resource) =>
                  match run env (RunTime.buildPaymentHeader
                                   (narrowed config acct) requirement
                                   resource) t1 with
                  | (Returns header, t2) =>
                      let h2 := [(js "X-PAYMENT", header)] in
                      let second := transport env t2 url h2 in
                      (match second with
                       | Ok retryResponse =>
                           outcome_of (handleResponse retryResponse)
                       | Err e => Throws e
                       end,
                       t2 ++ [ObsFetch url h2 second])
                  | (Throws e, t2) => (Throws e, t2)
                  | (GoesWrong, t2) => (GoesWrong, t2)
                  end
              end
          end
      | _, _ => (outcome_of (handleResponse response), t1)
      end
  end.
Proof.
  intros url hs first t1.
  unfold request. fold (request_url config path). fold (request_headers config).
  cbn [run app]. fold url hs first t1.
  destruct first as [response|e]; [|reflexivity].
  cbn [await lift bind].
  destruct (status response =? 402)%Z; [|apply run_await].
  destruct (account config) as [acct|]; [|apply run_await].
  destruct (decodePaymentRequired response) as [v|e]; [|reflexivity].
  cbn [lift bind]. unfold selection.
  destruct (RunTime.Get (Some v) Key.accepts) as [accepts|e]; [|reflexivity].
  cbn [lift bind].
  destruct (RunTime.Get accepts Key.length) as [len|e]; [|reflexivity].
  cbn [lift bind].
  destruct (negb (RunTime.ToBoolean len)); [reflexivity|].
  destruct (RunTime.Get0 accepts) as [requirement|e]; [|reflexivity].
  cbn [lift bind].
  destruct (RunTime.Get (Some v) Key.resource) as [resource|e]; [|reflexivity].
  cbn [lift bind].
  rewrite run_bind. fold (narrowed config acct).
  destruct (run env (RunTime.buildPaymentHeader (narrowed config acct)
                       requirement resource) t1) as [[header|e|] t2];
    [|reflexivity|reflexivity].
  cbn [run]. cbv zeta.
  destruct (transport env t2 url [(js "X-PAYMENT", header)]) as [r2|e];
    [|reflexivity].
  cbn [await lift bind]. rewrite run_await. reflexivity.
Qed.

(** The builder never leaves the history without an outcome. *)
Lemma RunTime_outcome (k : X402Config) (requirement resource : Value)
    (t : Trace) :
  fst (run env (RunTime.buildPaymentHeader k requirement resource) t)
  <> GoesWrong.
Proof.
  rewrite run_RunTime_buildPaymentHeader.
  destruct (read_domain requirement); [|discriminate].
  destruct (read_payment requirement) as [[[payTo amount] value]|e];
    [|discriminate].
  cbv zeta.
  destruct (signTypedData env (build_history env t) _);
    [destruct (btoa _)|]; discriminate.
Qed.

(** The transport calls of a run of the dispatcher. *)
Lemma request_fetches :
  let url := request_url config path in
  let hs := request_headers config in
  let t := snd (run env (request config path) []) in
  fetches t = [(url, hs)]
  \/ exists response acct paymentRequired requirement resource header t2,
       transport env [] url hs = Ok response
       /\ status response = 402%Z
       /\ account config = Some acct
       /\ decodePaymentRequired response = Ok paymentRequired
       /\ selection paymentRequired = Ok (requirement, resource)
       /\ run env (RunTime.buildPaymentHeader (narrowed config acct)
                     requirement resource)
            [ObsFetch url hs (transport env [] url hs)]
          = (Returns header, t2)
       /\ fetches t2 = [(url, hs)]
       /\ run env (request config path) []
          = (match transport env t2 url [(js "X-PAYMENT", header)] with
             | Ok r => outcome_of (handleResponse r)
             | Err e => Throws e
             end,
             t2 ++ [ObsFetch url [(js "X-PAYMENT", header)]
                      (transport env t2 url [(js "X-PAYMENT", header)])]).
Proof.
  cbv zeta. rewrite run_request.
  destruct (transport env [] (request_url config path) (request_headers config))
    as [response|e] eqn:Ef; [|left; reflexivity].
  destruct (Z.eqb_spec (status response) 402) as [Hs|Hs]; [|left; reflexivity].
  destruct (account config) as [acct|] eqn:Ea; [|left; reflexivity].
  destruct (decodePaymentRequired response) as [v|e] eqn:Ed;
    [|left; reflexivity].
  destruct (selection v) as [[requirement resource]|e] eqn:Ec;
    [|left; reflexivity].
  pose proof (RunTime_fetches env (narrowed config acct) requirement resource
                [ObsFetch (request_url config path) (request_headers config)
                   (Ok response)]) as Hf.
  destruct (run env (RunTime.buildPaymentHeader (narrowed config acct)
                       requirement resource) _) as [[header|e|] t2] eqn:Eb;
    simpl in Hf; [|left; exact Hf|left; exact Hf].
  right. exists response, acct, v, requirement, resource, header, t2.
  cbv zeta. repeat (split; [assumption || reflexivity|]). reflexivity.
Qed.

(** A request that reached the builder. *)
Lemma run_request_paying (response : Response) (acct : Account)
    (paymentRequired : JSON) (requirement resource : Value) :
  transport env [] (request_url config path) (request_headers config)
  = Ok response ->
  status response = 402%Z ->
  account config = Some acct ->
  decodePaymentRequired response = Ok paymentRequired ->
  selection paymentRequired = Ok (requirement, resource) ->
  let url := request_url config path in
  let t1 := [ObsFetch url (request_headers config) (Ok response)] in
  run env (request config path) [] =
  match run env (RunTime.buildPaymentHeader (narrowed config acct)
                   requirement resource) t1 with
  | (Returns header, t2) =>
      let h2 := [(js "X-PAYMENT", header)] in
      let second := transport env t2 url h2 in
      (match second with
       | Ok retryResponse => outcome_of (handleResponse retryResponse)
       | Err e => Throws e
       end,
       t2 ++ [ObsFetch url h2 second])
  | (Throws e, t2) => (Throws e, t2)
  | (GoesWrong, t2) => (GoesWrong, t2)
  end.
Proof.
  intros Hf Hs Ha Hd Hc. cbv zeta.
  rewrite run_request, Hf, Hs, Ha, Hd, Hc. reflexivity.
Qed.

(** A request that did not reach the builder. *)
Lemma run_request_refused (response : Response) (acct : Account)
    (paymentRequired : JSON) (e : Exn) :
  transport env [] (request_url config path) (request_headers config)
  = Ok response ->
  status response = 402%Z ->
  account config = Some acct ->
  decodePaymentRequired response = Ok paymentRequired ->
  selection paymentRequired = Err e ->
  run env (request config path) []
  = (Throws e,
     [ObsFetch (request_url config path) (request_headers config)
        (Ok response)]).
Proof.
  intros Hf Hs Ha Hd Hc.
  rewrite run_request, Hf, Hs, Ha, Hd, Hc. reflexivity.
Qed.

End DispatcherRuns.
(* ================================================================== *)
(** * The dispatcher and the challenge *)
(* ================================================================== *)

Section Challenges.

(** The property [accepts] of a decoded challenge. *)
Lemma field_accepts (v x : JSON) :
  field "accepts" v = Some x ->
  RunTime.Get (Some v) Key.accepts = Ok (Some x).
Proof.
  destruct v as [ | | | | |o]; try discriminate. simpl. intros ->.
  reflexivity.
Qed.

End Challenges.

(** C8.  With a signing capability configured, a 402 response whose decoded
    challenge has an empty array as [accepts] makes the dispatcher fail with
    [NoAcceptedPaymentMethod]: one transport call, no retry, no request to the
    signing capability.  Nothing else of the challenge is read. *)
Theorem empty_accepts_is_terminal
    (env : Env) (config : DenScopeConfig) (path : jsstring) (acct : Account)
    (response : Response) (paymentRequired : JSON) :
  account config = Some acct ->
  transport env [] (request_url config path) (request_headers config)
  = Ok response ->
  status response = 402%Z ->
  decodePaymentRequired response = Ok paymentRequired ->
  field "accepts" paymentRequired = Some (JArr []) ->
  let result := run env (request config path) [] in
  fst result = Throws (NoAcceptedPaymentMethod paymentRequired)
  /\ fetches (snd result) = [(request_url config path, request_headers config)]
  /\ signings (snd result) = []
  /\ retried (snd result) = false.
Proof.
  intros Ha Hf Hs Hd He. cbv zeta.
  pose proof (@selection_empty _ (@field_accepts _ _ He)) as Hc.
  rewrite (@run_request_refused env config path _ _ _ _ Hf Hs Ha Hd Hc).
  simpl. auto.
Qed.

Lemma empty_accepts_is_terminal_witness :
  account account_config = Some mockAccount
  /\ status (value_response bare_empty_challenge) = 402%Z
  /\ decodePaymentRequired (value_response bare_empty_challenge)
     = Ok bare_empty_challenge
  /\ field "accepts" bare_empty_challenge = Some (JArr [])
  /\ fst (run bare_empty_world (request account_config score_path) [])
     = Throws (NoAcceptedPaymentMethod bare_empty_challenge)
  /\ length (fetches (snd (run bare_empty_world
                             (request account_config score_path) [])))
     = 1%nat
  /\ signings (snd (run bare_empty_world
                      (request account_config score_path) []))
     = [].
Proof.
  assert (Hd : decodePaymentRequired (value_response bare_empty_challenge)
               = Ok bare_empty_challenge)
    by (vm_compute; reflexivity).
  destruct (@empty_accepts_is_terminal bare_empty_world account_config
              score_path mockAccount (value_response bare_empty_challenge)
              bare_empty_challenge eq_refl eq_refl eq_refl Hd eq_refl)
    as (Ho & Hf & Hs & _).
  split; [reflexivity|]. split; [reflexivity|]. split; [exact Hd|].
  split; [reflexivity|]. split; [exact Ho|].
  split; [rewrite Hf; reflexivity|exact Hs].
Defined.






(** C9, amended.  The four protocol-level failures reach the caller as
    instances of the one class [PaymentRequiredError], all with status 402;
    they are told apart by their message text (the unsupported network string
    is part of the message; only [NoAcceptedPaymentMethod] carries a body, the
    decoded challenge).  The dispatcher throws each of them to the caller
    after its single transport call: none is swallowed or retried. *)
Theorem protocol_failures_are_payment_required_errors
    (net : jsstring) (paymentRequired : JSON) :
  let kinds := [MissingChallenge; MalformedChallenge; UnsupportedNetwork net;
                NoAcceptedPaymentMethod paymentRequired] in
  (forall x, In x kinds ->
     exists e, x = Thrown e
               /\ instanceof e PaymentRequiredErrorClass = true
               /\ err_name e = js "PaymentRequiredError"
               /\ err_status e = 402%Z)
  /\ NoDup (map message_text kinds)
  /\ message_text (UnsupportedNetwork net)
     = js "Unsupported network format: " ++ net
  /\ (forall (env : Env) (config : DenScopeConfig) (path : jsstring)
             (response : Response) (acct : Account),
        let url := request_url config path in
        let hs := request_headers config in
        transport env [] url hs = Ok response ->
        status response = 402%Z ->
        account config = Some acct ->
        (forall e, decodePaymentRequired response = Err e ->
           (e = MissingChallenge \/ e = MalformedChallenge)
           /\ run env (request config path) []
              = (Throws e, [ObsFetch url hs (Ok response)]))
        /\ (forall v challenge,
              decodePaymentRequired response = Ok v ->
              asPaymentRequiredBody v = Some challenge ->
              (accepts challenge = [] ->
               run env (request config path) []
               = (Throws (NoAcceptedPaymentMethod v),
                  [ObsFetch url hs (Ok response)]))
              /\ (forall requirement others,
                    accepts challenge = requirement :: others ->
                    ~ supported_network (network requirement) ->
                    run env (request config path) []
                    = (Throws (UnsupportedNetwork (network requirement)),
                       [ObsFetch url hs (Ok response)])))).
Proof.
  cbv zeta. split; [|split; [|split; [reflexivity|]]].
  - intros x [<-|[<-|[<-|[<-|[]]]]]; eexists; split; try reflexivity;
      repeat split.
  - simpl. repeat constructor; simpl; intros H;
      repeat (destruct H as [H|H]; try discriminate H); exact H.
  - intros env config path response acct Hf Hs Ha. split.
    + intros e He. split; [eapply decodePaymentRequired_errors; eauto|].
      rewrite run_request, Hf, Hs, Ha, He. reflexivity.
    + intros v challenge Hd Hc. apply typed_selection in Hc. split.
      * intros Hq. rewrite Hq in Hc.
        apply (@run_request_refused env config path _ _ _ _ Hf Hs Ha Hd Hc).
      * intros requirement others Hq Hn. rewrite Hq in Hc.
        destruct Hc as (x & res & Hc & Hx & _).
        rewrite (@run_request_paying env config path _ _ _ _ _
                   Hf Hs Ha Hd Hc).
        rewrite run_RunTime_buildPaymentHeader.
        destruct (@typed_reads x requirement Hx) as [-> _].
        destruct (parseChainId_cases (network requirement))
          as [(Hsup & _)|(_ & E)]; [contradiction|].
        rewrite E. reflexivity.
Qed.

Lemma protocol_failures_are_payment_required_errors_witness :
  transport bare_402_world [] (request_url account_config score_path)
    (request_headers account_config)
  = Ok (response_402 [])
  /\ decodePaymentRequired (response_402 []) = Err MissingChallenge
  /\ run bare_402_world (request account_config score_path) []
     = (Throws MissingChallenge,
        [ObsFetch (request_url account_config score_path) []
           (Ok (response_402 []))]).
Proof.
  assert (Hd : decodePaymentRequired (response_402 []) = Err MissingChallenge)
    by reflexivity.
  split; [reflexivity|]. split; [exact Hd|].
  pose proof (protocol_failures_are_payment_required_errors [] JNull) as H.
  cbv zeta in H. destruct H as (_ & _ & _ & H).
  destruct (H bare_402_world account_config score_path (response_402 [])
              mockAccount eq_refl eq_refl eq_refl) as [H1 _].
  exact (proj2 (H1 MissingChallenge Hd)).
Defined.

(* ================================================================== *)
(** * The response handler *)
(* ================================================================== *)

Section HandleResponse.

Variable response : Response.

Lemma handleResponse_error :
  ok response = false ->
  handleResponse response =
  Err (Thrown
         (if ((status response =? 401) || (status response =? 403))%Z
          then new_AuthenticationError
                 (js "Authentication failed: " ++ String_of_Z (status response))
                 (Some (status response)) (error_body response)
          else if (status response =? 402)%Z
          then new_PaymentRequiredError (js "Payment required")
                 (error_body response)
          else new_DenScopeError
                 (js "API error: " ++ String_of_Z (status response))
                 (status response) (error_body response))).
Proof.
  intros H. unfold handleResponse, error_body. rewrite H.
  destruct (json response) as [v|e]; [|destruct (text response)];
    destruct ((status response =? 401) || (status response =? 403))%Z;
    try reflexivity; destruct (status response =? 402)%Z; reflexivity.
Qed.

End HandleResponse.

(** X1.  [handleResponse] returns only for a status from 200 to 299, and then
    what reading the body as JSON gives; a body that does not read as JSON
    makes it fail with the reader's error.  For every other status it throws
    an instance of [DenScopeError] whose [status] is the status of the
    response, also where the class fixes it (402); the class is
    [AuthenticationError] exactly for 401 and 403 and [PaymentRequiredError]
    exactly for 402; the body of the error is the JSON body, else the text,
    else nothing. *)
Theorem handleResponse_classification (response : Response) :
  let st := status response in
  (forall v, handleResponse response = Ok v
             <-> (200 <= st <= 299)%Z /\ json response = Ok v)
  /\ (forall x, (200 <= st <= 299)%Z -> json response = Err x ->
                handleResponse response = Err x)
  /\ (~ (200 <= st <= 299)%Z ->
      exists e : DenScopeError,
        handleResponse response = Err (Thrown e)
        /\ err_status e = st
        /\ err_body e = error_body response
        /\ err_class e = class_of_status st
        /\ instanceof e DenScopeErrorClass = true
        /\ (instanceof e AuthenticationErrorClass = true
            <-> st = 401%Z \/ st = 403%Z)
        /\ (instanceof e PaymentRequiredErrorClass = true <-> st = 402%Z)).
Proof.
  cbv zeta.
  assert (Hok : ok response = true <-> (200 <= status response <= 299)%Z).
  { unfold ok. rewrite andb_true_iff, !Z.leb_le. reflexivity. }
  split; [|split].
  - intros v. split.
    + intros H. destruct (ok response) eqn:Eo.
      * split; [apply Hok; reflexivity|].
        unfold handleResponse in H. rewrite Eo in H. exact H.
      * rewrite handleResponse_error in H by exact Eo. discriminate.
    + intros [H Hj]. apply Hok in H. unfold handleResponse. rewrite H.
      exact Hj.
  - intros x H Hj. apply Hok in H. unfold handleResponse. rewrite H. exact Hj.
  - intros Hn.
    assert (Eo : ok response = false).
    { destruct (ok response); [exfalso; apply Hn, Hok; reflexivity|reflexivity]. }
    rewrite handleResponse_error by exact Eo.
    eexists. split; [reflexivity|].
    unfold class_of_status.
    destruct (Z.eqb_spec (status response) 401) as [E1|E1];
      [|destruct (Z.eqb_spec (status response) 403) as [E3|E3];
        [|destruct (Z.eqb_spec (status response) 402) as [E2|E2]]];
      cbn [orb err_status err_body err_class new_AuthenticationError
             new_PaymentRequiredError new_DenScopeError instanceof];
      (split; [congruence|]); (split; [reflexivity|]);
      (split; [reflexivity|]); (split; [reflexivity|]);
      split; split; intros H; try discriminate H; try reflexivity;
      try lia; auto.
Qed.

Lemma handleResponse_classification_witness :
  exists e : DenScopeError,
    handleResponse (response_of_status 403) = Err (Thrown e)
    /\ err_status e = 403%Z
    /\ err_class e = AuthenticationErrorClass.
Proof.
  destruct (handleResponse_classification (response_of_status 403))
    as (_ & _ & H).
  destruct H as (e & He & Hs & _ & Hc & _).
  { cbn. lia. }
  exists e. split; [exact He|]. split; [exact Hs|exact Hc].
Defined.

Lemma handleResponse_returns (response : Response) (v : JSON) :
  handleResponse response = Ok v ->
  (200 <= status response <= 299)%Z /\ json response = Ok v.
Proof.
  intros H. destruct (ok response) eqn:Eo.
  - unfold ok in Eo. apply andb_true_iff in Eo. rewrite !Z.leb_le in Eo.
    split; [exact Eo|]. unfold handleResponse in H.
    unfold ok in H. destruct Eo as [E1 E2].
    apply Z.leb_le in E1, E2. rewrite E1, E2 in H. exact H.
  - rewrite handleResponse_error in H by exact Eo. discriminate H.
Qed.

(* ================================================================== *)
(** * Requests that are not paid for *)
(* ================================================================== *)

(** X2.  When the first answer is not a 402, or no signing capability is
    configured, the request is the one transport call and nothing else: the
    answer goes to [handleResponse], the challenge is not read, no random
    bytes are drawn, the clock is not read and nothing is signed.  The call
    carries the bearer token exactly when an API key is configured. *)
Theorem request_without_payment
    (env : Env) (config : DenScopeConfig) (path : jsstring)
    (response : Response) :
  let url := DenScope_baseUrl config ++ js "/api/v1" ++ path in
  let hs := match apiKey config with
            | Some key => [(js "Authorization", js "Bearer " ++ key)]
            | None => []
            end in
  transport env [] url hs = Ok response ->
  status response <> 402%Z \/ account config = None ->
  run env (request config path) []
  = (outcome_of (handleResponse response), [ObsFetch url hs (Ok response)]).
Proof.
  cbv zeta. intros Hf Hc.
  change (transport env [] (request_url config path) (request_headers config)
          = Ok response) in Hf.
  change (DenScope_baseUrl config ++ js "/api/v1" ++ path)
    with (request_url config path).
  change (match apiKey config with
          | Some key => [(js "Authorization", js "Bearer " ++ key)]
          | None => []
          end) with (request_headers config).
  pose proof (run_request env config path) as R. cbv zeta in R.
  rewrite Hf in R. rewrite R.
  destruct Hc as [Hs|Ha].
  - destruct (Z.eqb_spec (status response) 402); [contradiction|reflexivity].
  - rewrite Ha. destruct (status response =? 402)%Z; reflexivity.
Qed.

Lemma request_without_payment_witness :
  run (constant_world (response_of_status 402))
      (request apiKey_config score_path) []
  = (outcome_of (handleResponse (response_of_status 402)),
     [ObsFetch (js "https://denscope.vercel.app/api/v1/agent/42220/5/score")
        [(js "Authorization", js "Bearer ds_test123")]
        (Ok (response_of_status 402))]).
Proof.
  apply (@request_without_payment (constant_world (response_of_status 402))
           apiKey_config score_path (response_of_status 402)).
  - reflexivity.
  - right. reflexivity.
Defined.

(* ================================================================== *)
(** * Failures of the transport *)
(* ================================================================== *)

(** X3.  A transport call that is rejected ends the request: the reason of
    the rejection is thrown to the caller as it is, and the rejected call is
    the last thing the request did; this holds for the first call and for
    the payment retry alike.  A rejected first call is the only call. *)
Theorem rejected_transport_call_ends_the_request
    (env : Env) (config : DenScopeConfig) (path : jsstring) :
  let url := request_url config path in
  let hs := request_headers config in
  let result := run env (request config path) [] in
  (forall e, transport env [] url hs = Err e ->
             result = (Throws e, [ObsFetch url hs (Err e)]))
  /\ (forall u h e,
        In (ObsFetch u h (Err e)) (snd result) ->
        fst result = Throws e
        /\ exists t, snd result = t ++ [ObsFetch u h (Err e)]).
Proof.
  cbv zeta. split.
  - intros e He. rewrite run_request. rewrite He. reflexivity.
  - intros u h e. rewrite run_request.
    destruct (transport env [] (request_url config path)
                (request_headers config)) as [response|e0] eqn:Ef.
    + assert (Hone : In (ObsFetch u h (Err e))
                        [ObsFetch (request_url config path)
                           (request_headers config) (Ok response)]
                     -> False).
      { intros [H|[]]. discriminate H. }
      destruct (status response =? 402)%Z;
        [|intros H; destruct (Hone H)].
      destruct (account config) as [acct|]; [|intros H; destruct (Hone H)].
      destruct (decodePaymentRequired response) as [v|e1];
        [|intros H; destruct (Hone H)].
      destruct (selection v) as [[requirement resource]|e1];
        [|intros H; destruct (Hone H)].
      pose proof (@RunTime_no_fetch env (narrowed config acct) requirement
                    resource
                    [ObsFetch (request_url config path)
                       (request_headers config) (Ok response)] u h (Err e))
        as Hb.
      destruct (run env (RunTime.buildPaymentHeader (narrowed config acct)
                           requirement resource) _) as [[header|e1|] t2];
        simpl in Hb; simpl;
        try (intros H; destruct (Hone (Hb H))).
      rewrite in_app_iff. intros [H|[H|[]]]; [destruct (Hone (Hb H))|].
      inversion H as [[Hu Hh Ha]]. rewrite Ha.
      split; [reflexivity|]. exists t2. reflexivity.
    + simpl. intros [H|[]]. inversion H; subst.
      split; [reflexivity|]. exists []. reflexivity.
Qed.

Lemma rejected_transport_call_ends_the_request_witness :
  run offline_world (request apiKey_config score_path) []
  = (Throws (Rejected (JStr (js "fetch failed"))),
     [ObsFetch (request_url apiKey_config score_path)
        (request_headers apiKey_config)
        (Err (Rejected (JStr (js "fetch failed"))))])
  /\ fst (run dropping_world (request account_config score_path) [])
     = Throws (Rejected (JStr (js "fetch failed")))
  /\ length (fetches (snd (run dropping_world
                             (request account_config score_path) [])))
     = 2%nat.
Proof.
  pose proof (rejected_transport_call_ends_the_request offline_world
                apiKey_config score_path) as H1.
  pose proof (rejected_transport_call_ends_the_request dropping_world
                account_config score_path) as H2.
  cbv zeta in H1, H2.
  split; [apply (proj1 H1); reflexivity|].
  split; [|vm_compute; reflexivity].
  refine (proj1 (proj2 H2 (request_url account_config score_path)
                   [(js "X-PAYMENT", mock_header)]
                   (Rejected (JStr (js "fetch failed"))) _)).
  vm_compute. do 4 right. left. reflexivity.
Defined.

(* ================================================================== *)
(** * The ways [buildPaymentHeader] fails *)
(* ================================================================== *)

(** X4.  With a random source and a clock that answer, [buildPaymentHeader]
    fails in four ways and no other, each at its own point of the call: on the network string, before anything is asked
    of the outside world; on an amount [BigInt] does not read, after the
    random bytes were drawn and the clock was read and before anything is
    signed; with the reason the signing capability gave when it declines;
    and with [InvalidCharacterError] when the text of the envelope has a
    character above U+00FF, which shows only after the signature was given.
    It never leaves the typed reading of the source. *)
Theorem buildPaymentHeader_failures
    (env : Env) (config : X402Config) (requirement : PaymentRequirement)
    (resource : ResourceInfo) (t : Trace) :
  let result := run env (buildPaymentHeader config requirement resource) t in
  let asked := build_history env t in
  fst result <> GoesWrong
  /\ forall e, fst result = Throws e ->
       (e = UnsupportedNetwork (network requirement) /\ snd result = t)
       \/ (e = SyntaxError (amount requirement)
           /\ StringToBigInt (amount requirement) = None
           /\ snd result = asked)
       \/ (exists args,
             signTypedData env asked args = Err e
             /\ snd result = asked ++ [ObsSign args (Err e)])
       \/ (e = InvalidCharacterError
           /\ exists args signature,
                signTypedData env asked args = Ok signature
                /\ snd result = asked ++ [ObsSign args (Ok signature)]
                /\ latin1 (JSON_stringify
                             (envelope config requirement resource signature
                                (build_validBefore env t)
                                (build_nonce env t))) = false).
Proof.
  cbv zeta. rewrite run_buildPaymentHeader.
  destruct (parseChainId_cases (network requirement))
    as [(_ & s & _ & E)|(_ & E)]; rewrite E.
  - unfold BigInt.
    destruct (StringToBigInt (amount requirement)) as [value|] eqn:Ev.
    + cbv zeta.
      destruct (signTypedData env (build_history env t) _) as [signature|e0]
        eqn:Es.
      * unfold btoa.
        destruct (forallb _ (JSON_stringify _)) eqn:El; simpl.
        -- split; [discriminate|]. intros e H. discriminate H.
        -- split; [discriminate|]. intros e H. inversion H.
           right; right; right. split; [reflexivity|].
           eexists; eexists. split; [exact Es|]. split; [reflexivity|].
           exact El.
      * simpl. split; [discriminate|]. intros e H. inversion H; subst.
        right; right; left. eexists. split; [exact Es|reflexivity].
    + simpl. split; [discriminate|]. intros e H. inversion H.
      right; left. auto.
  - simpl. split; [discriminate|]. intros e H. inversion H.
    left. auto.
Qed.

Lemma buildPaymentHeader_failures_witness :
  fst (run declining_world
         (buildPaymentHeader x402_config MOCK_REQUIREMENT MOCK_RESOURCE) [])
  = Throws (Rejected (JStr (js "User rejected")))
  /\ exists args,
       snd (run declining_world
              (buildPaymentHeader x402_config MOCK_REQUIREMENT MOCK_RESOURCE)
              [])
       = build_history declining_world []
         ++ [ObsSign args (Err (Rejected (JStr (js "User rejected"))))].
Proof.
  assert (E : fst (run declining_world
                     (buildPaymentHeader x402_config MOCK_REQUIREMENT
                        MOCK_RESOURCE) [])
              = Throws (Rejected (JStr (js "User rejected"))))
    by (vm_compute; reflexivity).
  split; [exact E|].
  pose proof (@buildPaymentHeader_failures declining_world x402_config
                MOCK_REQUIREMENT MOCK_RESOURCE []) as H.
  cbv zeta in H. destruct H as [_ H].
  destruct (H _ E) as [[H1 _]|[[H1 _]|[(args & _ & H1)|[H1 _]]]];
    try discriminate H1.
  exists args. exact H1.
Defined.

(* ================================================================== *)
(** * Amounts that are no integer literals *)
(* ================================================================== *)

Section Amounts.

Lemma trimStart_keeps (c : N) (s : jsstring) :
  is_whitespace c = false -> In c s -> In c (trimStart s).
Proof.
  intros Hc. induction s as [|d r IH]; simpl; [auto|].
  intros [E|H].
  - subst d. rewrite Hc. left; reflexivity.
  - destruct (is_whitespace d); [auto|right; exact H].
Qed.

Lemma trim_keeps (c : N) (s : jsstring) :
  is_whitespace c = false -> In c s -> In c (trim s).
Proof.
  intros Hc H. unfold trim, trimEnd. rewrite <- in_rev.
  apply trimStart_keeps; [exact Hc|]. rewrite <- in_rev.
  apply trimStart_keeps; assumption.
Qed.

Lemma no_digits_with (radix c : N) (ds : jsstring) :
  digit_val c = None -> In c ds -> all_radix_digits radix ds = false.
Proof.
  intros Hc H. unfold all_radix_digits.
  destruct ds as [|d r]; [reflexivity|].
  apply not_true_is_false. intros F. rewrite forallb_forall in F.
  specialize (F c H). unfold is_radix_digit in F. rewrite Hc in F.
  discriminate.
Qed.

Lemma is_literal_char_false (c : N) :
  is_literal_char c = false ->
  is_whitespace c = false /\ digit_val c = None
  /\ c <> ch "-" /\ c <> ch "+" /\ c <> ch "x" /\ c <> ch "X"
  /\ c <> ch "o" /\ c <> ch "O".
Proof.
  unfold is_literal_char. rewrite !orb_false_iff, !N.eqb_neq.
  intros [[[[[[[H1 H2] H3] H4] H5] H6] H7] H8].
  destruct (digit_val c); [discriminate|]. auto 10.
Qed.

Lemma In_tail (c d : N) (r : jsstring) : c <> d -> In c (d :: r) -> In c r.
Proof. intros Hn [E|H]; [congruence|exact H]. Qed.

(** A string with a character no integer literal has is no integer
    literal. *)
Lemma StringToBigInt_foreign (c : N) (s : jsstring) :
  is_literal_char c = false -> In c s -> StringToBigInt s = None.
Proof.
  intros Hc H. apply is_literal_char_false in Hc.
  destruct Hc as (Hw & Hd & Hm & Hp & Hx & HX & Ho & HO).
  apply (trim_keeps _ _ Hw) in H.
  unfold StringToBigInt. destruct (trim s) as [|c0 r0]; [destruct H|].
  assert (Hnd : forall (radix : N) (ds : jsstring), In c ds ->
                 all_radix_digits radix ds = false)
    by (intros radix ds Hi; exact (no_digits_with radix c ds Hd Hi)).
  cbv zeta.
  destruct (N.eqb_spec c0 (ch "-")) as [E|_]; cbv beta iota.
  { rewrite Hnd; [reflexivity|]. apply In_tail with c0; [congruence|exact H]. }
  destruct (N.eqb_spec c0 (ch "+")) as [E|_]; cbv beta iota.
  { rewrite Hnd; [reflexivity|]. apply In_tail with c0; [congruence|exact H]. }
  destruct (N.eqb_spec c0 (ch "0")) as [E|_]; cbv beta iota;
    [|rewrite Hnd; [reflexivity|exact H]].
  assert (H0 : In c r0).
  { apply In_tail with c0; [|exact H]. intros F. rewrite F, E in Hd.
    discriminate Hd. }
  destruct r0 as [|c1 ds]; [destruct H0|].
  assert (H1 : c <> c1 -> In c ds)
    by (intros F; apply In_tail with c1; assumption).
  destruct (N.eqb_spec c1 (ch "x")) as [E1|_]; cbn [orb]; cbv beta iota.
  { rewrite Hnd; [reflexivity|]. apply H1. congruence. }
  destruct (N.eqb_spec c1 (ch "X")) as [E1|_]; cbv beta iota.
  { rewrite Hnd; [reflexivity|]. apply H1. congruence. }
  destruct (N.eqb_spec c1 (ch "o")) as [E1|_]; cbn [orb]; cbv beta iota.
  { rewrite Hnd; [reflexivity|]. apply H1. congruence. }
  destruct (N.eqb_spec c1 (ch "O")) as [E1|_]; cbv beta iota.
  { rewrite Hnd; [reflexivity|]. apply H1. congruence. }
  destruct (N.eqb_spec c1 (ch "b")) as [E1|_]; cbn [orb]; cbv beta iota.
  { rewrite Hnd; [reflexivity|]. apply H1. intros F. rewrite F, E1 in Hd.
    discriminate Hd. }
  destruct (N.eqb_spec c1 (ch "B")) as [E1|_]; cbv beta iota.
  { rewrite Hnd; [reflexivity|]. apply H1. intros F. rewrite F, E1 in Hd.
    discriminate Hd. }
  rewrite Hnd; [reflexivity|exact H].
Qed.

End Amounts.

(** X5.  An amount with a character that no integer literal has (a decimal
    point, a thousands separator, a currency sign) is never signed for: once
    the network string is accepted, [buildPaymentHeader] draws its random
    bytes, reads the clock and then fails with the [SyntaxError] of
    [BigInt]; the signing capability is not asked. *)
Theorem foreign_amount_is_never_signed
    (env : Env) (config : X402Config) (requirement : PaymentRequirement)
    (resource : ResourceInfo) (t : Trace) (c : N) :
  supported_network (network requirement) ->
  In c (amount requirement) ->
  is_literal_char c = false ->
  let result := run env (buildPaymentHeader config requirement resource) t in
  result = (Throws (SyntaxError (amount requirement)), build_history env t)
  /\ signings (snd result) = signings t
  /\ draws (snd result) = draws t ++ [next_random env t].
Proof.
  intros Hs Hi Hc. cbv zeta. rewrite run_buildPaymentHeader.
  destruct (parseChainId_cases (network requirement))
    as [(_ & s & _ & E)|(Hn & _)]; [|contradiction].
  rewrite E. unfold BigInt.
  rewrite (StringToBigInt_foreign c (amount requirement) Hc Hi).
  split; [reflexivity|]. simpl.
  split; [apply build_history_signings|apply build_history_draws].
Qed.

Lemma foreign_amount_is_never_signed_witness :
  run paying_world
    (buildPaymentHeader x402_config decimal_amount_requirement MOCK_RESOURCE)
    []
  = (Throws (SyntaxError (js "0.01")), build_history paying_world []).
Proof.
  refine (proj1 (@foreign_amount_is_never_signed paying_world x402_config
                   decimal_amount_requirement MOCK_RESOURCE [] (ch ".")
                   _ _ _)).
  - exists (js "42220"). split; [reflexivity|].
    vm_compute. intuition discriminate.
  - vm_compute. auto.
  - reflexivity.
Defined.

(* ================================================================== *)
(** * The text of the envelope and [btoa] *)
(* ================================================================== *)

Section Latin1.

Lemma latin1_app (a b : jsstring) : latin1 (a ++ b) = latin1 a && latin1 b.
Proof. apply forallb_app. Qed.

Lemma latin1_weaken (p : N -> bool) (s : jsstring) :
  (forall c, p c = true -> c <= 255) -> forallb p s = true -> latin1 s = true.
Proof.
  intros Hp H. unfold latin1. rewrite forallb_forall in *.
  intros c Hc. apply N.leb_le, Hp, H, Hc.
Qed.

Lemma digits_latin1 (s : jsstring) : forallb is_digit s = true -> latin1 s = true.
Proof.
  apply latin1_weaken. intros c H. unfold is_digit in H.
  apply andb_true_iff in H. destruct H as [_ H]. apply N.leb_le in H. lia.
Qed.

Lemma String_of_Z_latin1 (z : Z) : latin1 (String_of_Z z) = true.
Proof.
  destruct z as [|p|p]; simpl String_of_Z; [reflexivity| |];
    destruct (decimal_digits (N.pos p)) as (Hd & _);
    [|change (latin1 ([ch "-"] ++ N_toString 10 (N.pos p)) = true);
      rewrite latin1_app]; rewrite (digits_latin1 _ Hd); reflexivity.
Qed.

Lemma number_latin1 (x : number) : latin1 (JSON_stringify (JNum x)) = true.
Proof.
  destruct x as [|z|m e]; cbn [JSON_stringify String_of_number];
    [reflexivity|apply String_of_Z_latin1|].
  rewrite !latin1_app, String_of_Z_latin1.
  destruct (decimal_digits (N.pos e)) as (Hd & _).
  rewrite (digits_latin1 _ Hd). reflexivity.
Qed.

Lemma nonce_latin1 (bs : list Byte.byte) : latin1 (nonce_of_bytes bs) = true.
Proof.
  unfold nonce_of_bytes. rewrite latin1_app.
  destruct (hex_of_bytes_shape bs) as [_ H].
  apply (latin1_weaken is_lower_hex) in H; [rewrite H; reflexivity|].
  intros c Hc. unfold is_lower_hex, is_digit in Hc.
  apply orb_true_iff in Hc. destruct Hc as [Hc|Hc];
    apply andb_true_iff in Hc; destruct Hc as [_ Hc]; apply N.leb_le in Hc;
    lia.
Qed.

Lemma control_escape_latin1 (c : N) : c < 32 -> latin1 (unicode_escape c) = true.
Proof.
  pose (p := fun c => latin1 (unicode_escape c)).
  apply (@check_below p 32). vm_compute. reflexivity.
Qed.

Lemma quote_chars_latin1 (s : jsstring) :
  latin1 s = true -> latin1 (quote_chars s) = true.
Proof.
  induction s as [|c r IH]; [reflexivity|].
  intros H. change (latin1 (c :: r)) with ((c <=? 255) && latin1 r) in H.
  apply andb_true_iff in H. destruct H as [Hc Hr].
  specialize (IH Hr). pose proof Hc as Hc'. apply N.leb_le in Hc'.
  assert (Eh : is_high_surrogate c = false).
  { unfold is_high_surrogate. apply andb_false_iff. left.
    apply N.leb_gt. lia. }
  assert (El : is_low_surrogate c = false).
  { unfold is_low_surrogate. apply andb_false_iff. left.
    apply N.leb_gt. lia. }
  cbn [quote_chars]. rewrite Eh, El.
  repeat match goal with
         | |- context [if ?b then _ else _] => destruct b eqn:?
         end;
    rewrite ?latin1_app, ?IH, ?andb_true_r; try reflexivity.
  - apply control_escape_latin1. apply N.ltb_lt. assumption.
  - change (latin1 (c :: quote_chars r))
      with ((c <=? 255) && latin1 (quote_chars r)).
    rewrite Hc, IH. reflexivity.
Qed.

Lemma quoted_latin1 (s : jsstring) :
  latin1 s = true -> latin1 (QuoteJSONString s) = true.
Proof.
  intros H. unfold QuoteJSONString.
  change (34 :: quote_chars s ++ [34]) with ([34] ++ quote_chars s ++ [34]).
  rewrite !latin1_app, (quote_chars_latin1 _ H). reflexivity.
Qed.

Lemma join_latin1 (sep : jsstring) (l : list jsstring) :
  latin1 sep = true -> Forall (fun x => latin1 x = true) l ->
  latin1 (join sep l) = true.
Proof.
  intros Hs H. induction H as [|x r Hx Hr IH]; [reflexivity|].
  destruct r as [|y r']; [exact Hx|].
  change (join sep (x :: y :: r')) with (x ++ sep ++ join sep (y :: r')).
  rewrite !latin1_app, Hx, Hs, IH. reflexivity.
Qed.

(** The text of a value whose strings are Latin-1 is Latin-1. *)
Lemma stringify_latin1 (v : JSON) :
  json_latin1 v = true -> latin1 (JSON_stringify v) = true.
Proof.
  induction v as [ |b|x|s|l IH|o IH] using JSON_ind_nested; intros H.
  - reflexivity.
  - destruct b; reflexivity.
  - apply number_latin1.
  - apply quoted_latin1. exact H.
  - cbn [JSON_stringify]. rewrite !latin1_app. cbn [json_latin1] in H.
    rewrite join_latin1; [reflexivity|reflexivity|].
    rewrite forallb_forall in H. rewrite Forall_forall in IH.
    apply Forall_forall. intros x Hx. apply in_map_iff in Hx.
    destruct Hx as (w & <- & Hw). apply IH; [exact Hw|apply H; exact Hw].
  - cbn [JSON_stringify]. rewrite !latin1_app. cbn [json_latin1] in H.
    rewrite join_latin1; [reflexivity|reflexivity|].
    rewrite forallb_forall in H. rewrite Forall_forall in IH.
    apply Forall_forall. intros x Hx. apply in_map_iff in Hx.
    destruct Hx as (kv & <- & Hkv).
    specialize (H kv Hkv). apply andb_true_iff in H. destruct H as [Hk Hv].
    rewrite !latin1_app, (quoted_latin1 _ Hk), (IH kv Hkv Hv). reflexivity.
Qed.

Lemma latin1_with (c : N) (s : jsstring) : 255 < c -> In c s -> latin1 s = false.
Proof.
  intros Hc Hi. apply not_true_is_false. intros F. unfold latin1 in F.
  rewrite forallb_forall in F. specialize (F c Hi). apply N.leb_le in F. lia.
Qed.

Lemma beyond_latin1_spec (c : N) :
  beyond_latin1 c = true ->
  255 < c /\ is_high_surrogate c = false /\ is_low_surrogate c = false.
Proof.
  unfold beyond_latin1. rewrite !andb_true_iff, !negb_true_iff, N.ltb_lt.
  tauto.
Qed.

(** [JSON.stringify] prints a character above U+00FF that is no surrogate
    as it is. *)
Lemma quote_chars_keeps (c : N) (n : nat) :
  beyond_latin1 c = true ->
  forall s, (length s <= n)%nat -> In c s -> In c (quote_chars s).
Proof.
  intros Hc. apply beyond_latin1_spec in Hc. destruct Hc as (Hc & Hh & Hl).
  induction n as [|n IH]; intros s Hn Hi.
  - destruct s; [destruct Hi|simpl in Hn; lia].
  - destruct s as [|d r]; [destruct Hi|]. simpl in Hn.
    destruct (N.eq_dec d c) as [E|E].
    + subst d. cbn [quote_chars]. rewrite Hh, Hl.
      repeat match goal with
             | |- context [if ?b =? ?k then _ else _] =>
                 destruct (N.eqb_spec b k); [lia|]
             end.
      destruct (N.ltb_spec c 32); [lia|]. left. reflexivity.
    + assert (Hr : In c r) by (destruct Hi; [contradiction|assumption]).
      assert (Hq : In c (quote_chars r)) by (apply IH; [lia|exact Hr]).
      cbn [quote_chars].
      destruct (is_high_surrogate d) eqn:Ed.
      * repeat match goal with
               | |- context [if ?b =? ?k then _ else _] => destruct (b =? k)
               | |- context [if ?b <? ?k then _ else _] => destruct (b <? k)
               end; try (apply in_or_app; right; exact Hq).
        destruct r as [|d' r']; [destruct Hr|].
        destruct (is_low_surrogate d') eqn:Ed'.
        -- right. right. apply IH; [simpl in Hn; lia|].
           destruct Hr as [F|Hr]; [|exact Hr].
           subst d'. rewrite Hl in Ed'. discriminate.
        -- apply in_or_app; right; exact Hq.
      * repeat match goal with
               | |- context [if ?b then _ else _] => destruct b
               end; try (apply in_or_app; right; exact Hq).
        right. exact Hq.
Qed.

Lemma In_join (c : N) (sep x : jsstring) (l : list jsstring) :
  In x l -> In c x -> In c (join sep l).
Proof.
  intros Hx Hc. induction l as [|y r IH]; [destruct Hx|].
  destruct r as [|z r'].
  - destruct Hx as [->|[]]. exact Hc.
  - change (join sep (y :: z :: r')) with (y ++ sep ++ join sep (z :: r')).
    destruct Hx as [->|Hx].
    + apply in_or_app. left. exact Hc.
    + apply in_or_app. right. apply in_or_app. right. apply IH. exact Hx.
Qed.

Lemma existsb_In (c : N) (s : jsstring) : existsb (N.eqb c) s = true <-> In c s.
Proof.
  rewrite existsb_exists. split.
  - intros (x & Hx & E). apply N.eqb_eq in E. subst x. exact Hx.
  - intros H. exists c. split; [exact H|apply N.eqb_refl].
Qed.

(** Such a character inside a string of a value is in the text of the
    value. *)
Lemma stringify_mentions (c : N) (v : JSON) :
  beyond_latin1 c = true -> mentions c v = true -> In c (JSON_stringify v).
Proof.
  intros Hc.
  induction v as [ |b|x|s|l IH|o IH] using JSON_ind_nested; intros H;
    try discriminate H.
  - cbn [mentions] in H. apply existsb_In in H.
    unfold JSON_stringify, QuoteJSONString. right. apply in_or_app. left.
    apply (@quote_chars_keeps c (length s) Hc); [lia|exact H].
  - cbn [mentions] in H. apply existsb_exists in H.
    destruct H as (x & Hx & Hm). rewrite Forall_forall in IH.
    cbn [JSON_stringify]. apply in_or_app. right. apply in_or_app. left.
    apply In_join with (JSON_stringify x);
      [apply in_map; exact Hx|apply IH; assumption].
  - cbn [mentions] in H. apply existsb_exists in H.
    destruct H as (kv & Hkv & Hm). rewrite Forall_forall in IH.
    cbn [JSON_stringify]. apply in_or_app. right. apply in_or_app. left.
    apply In_join with (QuoteJSONString (fst kv) ++ js ":"
                        ++ JSON_stringify (snd kv)).
    + apply (in_map (fun kv => QuoteJSONString (fst kv) ++ js ":"
                               ++ JSON_stringify (snd kv))). exact Hkv.
    + apply in_or_app. right. apply in_or_app. right. apply IH; assumption.
Qed.

Variable config : X402Config.
Variable requirement : PaymentRequirement.
Variable resource : ResourceInfo.

Lemma envelope_latin1 (signature : jsstring) (validBefore : Z)
    (bytes : list Byte.byte) :
  forallb latin1 (strings_of_requirement requirement) = true ->
  forallb latin1 (strings_of_resource resource) = true ->
  latin1 (address (x402_account config)) = true ->
  latin1 signature = true ->
  latin1 (JSON_stringify
            (envelope config requirement resource signature validBefore
               (nonce_of_bytes bytes))) = true.
Proof.
  intros Hq Hr Ha Hs. apply stringify_latin1.
  cbn [strings_of_requirement strings_of_resource forallb] in Hq, Hr.
  repeat match goal with
         | H : _ && _ = true |- _ =>
             apply andb_true_iff in H; destruct H
         end.
  unfold envelope, ResourceInfo_json, PaymentRequirement_json, Extra_json.
  cbn [json_latin1 forallb fst snd].
  rewrite (String_of_Z_latin1 validBefore), (nonce_latin1 bytes).
  repeat match goal with
         | H : latin1 _ = true |- _ => rewrite H; clear H
         end.
  reflexivity.
Qed.

Lemma envelope_mentions (c : N) (signature : jsstring) (validBefore : Z)
    (nonce : jsstring) :
  existsb (existsb (N.eqb c))
          (strings_of_resource resource ++ strings_of_requirement requirement)
  = true ->
  mentions c (envelope config requirement resource signature validBefore
                nonce) = true.
Proof.
  intros H. apply existsb_exists in H. destruct H as (s & Hs & Hc).
  unfold envelope, ResourceInfo_json, PaymentRequirement_json, Extra_json.
  cbn [mentions existsb fst snd].
  cbn [strings_of_requirement strings_of_resource app In] in Hs.
  repeat (destruct Hs as [Hs|Hs];
          [subst s; rewrite Hc; cbn [orb]; rewrite ?orb_true_r; reflexivity|]).
  destruct Hs.
Qed.

End Latin1.

(** X6.  A character above U+00FF that is no surrogate, anywhere in a string
    of the resource or of the requirement (a euro sign in the description,
    say), makes [buildPaymentHeader] fail with [InvalidCharacterError] at
    [btoa], its last step: the signing capability has been asked and has
    signed by then, and no header comes out. *)
Theorem text_beyond_latin1_fails_after_signing
    (env : Env) (config : X402Config) (requirement : PaymentRequirement)
    (resource : ResourceInfo) (t : Trace) (c : N) (chainId : number)
    (value : Z) (signature : jsstring) :
  let args := sign_request config requirement chainId value
                (build_validBefore env t) (build_nonce env t) in
  parseChainId (network requirement) = Ok chainId ->
  BigInt (amount requirement) = Ok value ->
  signTypedData env (build_history env t) args = Ok signature ->
  beyond_latin1 c = true ->
  existsb (existsb (N.eqb c))
          (strings_of_resource resource ++ strings_of_requirement requirement)
  = true ->
  run env (buildPaymentHeader config requirement resource) t
  = (Throws InvalidCharacterError,
     build_history env t ++ [ObsSign args (Ok signature)]).
Proof.
  cbv zeta. intros Hp Hv Hs Hc Hm.
  rewrite run_buildPaymentHeader, Hp, Hv. cbv zeta. rewrite Hs.
  unfold btoa.
  fold (latin1 (JSON_stringify
                  (envelope config requirement resource signature
                     (build_validBefore env t) (build_nonce env t)))).
  rewrite (@latin1_with c); [reflexivity| |].
  - apply beyond_latin1_spec in Hc. tauto.
  - apply stringify_mentions; [exact Hc|]. apply envelope_mentions. exact Hm.
Qed.

Lemma text_beyond_latin1_fails_after_signing_witness :
  fst (run paying_world
         (buildPaymentHeader x402_config MOCK_REQUIREMENT euro_resource) [])
  = Throws InvalidCharacterError
  /\ length (signings
               (snd (run paying_world
                       (buildPaymentHeader x402_config MOCK_REQUIREMENT
                          euro_resource) [])))
     = 1%nat.
Proof.
  pose proof (@text_beyond_latin1_fails_after_signing paying_world x402_config
                MOCK_REQUIREMENT euro_resource [] 8364 (Int 42220) 1000%Z
                (js "0xsig") eq_refl eq_refl eq_refl eq_refl eq_refl) as H.
  rewrite H. split; [reflexivity|].
  cbn [snd]. rewrite signings_app, build_history_signings. reflexivity.
Defined.

(** The run of a builder whose strings are all Latin-1. *)
Lemma run_latin1_payment
    (env : Env) (config : X402Config) (requirement : PaymentRequirement)
    (resource : ResourceInfo) (t : Trace) (chainId : number) (value : Z)
    (signature : jsstring) :
  let args := sign_request config requirement chainId value
                (build_validBefore env t) (build_nonce env t) in
  parseChainId (network requirement) = Ok chainId ->
  BigInt (amount requirement) = Ok value ->
  signTypedData env (build_history env t) args = Ok signature ->
  forallb latin1 (strings_of_requirement requirement) = true ->
  forallb latin1 (strings_of_resource resource) = true ->
  latin1 (address (x402_account config)) = true ->
  latin1 signature = true ->
  run env (buildPaymentHeader config requirement resource) t
  = (Returns (b64_encode
                (JSON_stringify
                   (envelope config requirement resource signature
                      (build_validBefore env t) (build_nonce env t)))),
     build_history env t ++ [ObsSign args (Ok signature)]).
Proof.
  cbv zeta. intros Hp Hv Hs Hq Hr Ha Hg.
  rewrite run_buildPaymentHeader, Hp, Hv. cbv zeta. rewrite Hs.
  unfold btoa.
  fold (latin1 (JSON_stringify
                  (envelope config requirement resource signature
                     (build_validBefore env t) (build_nonce env t)))).
  unfold build_nonce. rewrite envelope_latin1 by assumption. reflexivity.
Qed.

(** X7.  When every string of the requirement and of the resource, the
    address of the account and the signature are Latin-1, the last step
    cannot fail: [buildPaymentHeader] returns a header as soon as the
    network string is accepted, [BigInt] reads the amount and the signing
    capability signs; it has then drawn the random bytes, read the clock and
    asked for the one signature, in this order. *)
Theorem latin1_payment_is_built
    (env : Env) (config : X402Config) (requirement : PaymentRequirement)
    (resource : ResourceInfo) (t : Trace) (chainId : number) (value : Z)
    (signature : jsstring) :
  let args := sign_request config requirement chainId value
                (build_validBefore env t) (build_nonce env t) in
  parseChainId (network requirement) = Ok chainId ->
  BigInt (amount requirement) = Ok value ->
  signTypedData env (build_history env t) args = Ok signature ->
  forallb latin1 (strings_of_requirement requirement) = true ->
  forallb latin1 (strings_of_resource resource) = true ->
  latin1 (address (x402_account config)) = true ->
  latin1 signature = true ->
  exists header : jsstring,
    run env (buildPaymentHeader config requirement resource) t
    = (Returns header,
       t ++ [ObsRandom (next_random env t); ObsNow (build_clock env t);
             ObsSign args (Ok signature)]).
Proof.
  cbv zeta. intros Hp Hv Hs Hq Hr Ha Hg. eexists.
  rewrite (@run_latin1_payment env config requirement resource t chainId
             value signature Hp Hv Hs Hq Hr Ha Hg).
  unfold build_history. rewrite <- !app_assoc. reflexivity.
Qed.

Lemma latin1_payment_is_built_witness :
  exists header : jsstring,
    run paying_world
      (buildPaymentHeader x402_config MOCK_REQUIREMENT MOCK_RESOURCE) []
    = (Returns header,
       [ObsRandom (next_random paying_world []);
        ObsNow 1700000000123;
        ObsSign (sign_request x402_config MOCK_REQUIREMENT (Int 42220) 1000
                   1700003600 (build_nonce paying_world []))
                (Ok (js "0xsig"))]).
Proof.
  exact (@latin1_payment_is_built paying_world x402_config MOCK_REQUIREMENT
           MOCK_RESOURCE [] (Int 42220) 1000%Z (js "0xsig")
           eq_refl eq_refl eq_refl eq_refl eq_refl eq_refl eq_refl).
Defined.

(* ================================================================== *)
(** * The dispatcher and the payment *)
(* ================================================================== *)

Section Values.






Variable config : X402Config.
Variable requirement resource payTo amount : Value.
Variable signature : jsstring.
Variable validBefore : Z.




End Values.










(* ================================================================== *)
(** * The base URL *)
(* ================================================================== *)

Section BaseUrl.

Lemma strip_trailing_slash_one (u : jsstring) :
  strip_trailing_slash (u ++ js "/") = u.
Proof.
  unfold strip_trailing_slash. change (js "/") with [ch "/"].
  rewrite rev_unit, N.eqb_refl. apply rev_involutive.
Qed.

Lemma strip_trailing_slash_none (u : jsstring) :
  (forall r, u <> r ++ js "/") -> strip_trailing_slash u = u.
Proof.
  intros H. unfold strip_trailing_slash.
  destruct (rev u) as [|c r] eqn:E; [reflexivity|].
  destruct (N.eqb_spec c (ch "/")) as [->|_]; [|reflexivity].
  exfalso. apply (H (rev r)).
  rewrite <- (rev_involutive u), E. reflexivity.
Qed.

(** The dispatcher reads its configuration through the URL, the API key and
    the account. *)
Lemma run_request_config (env : Env) (c1 c2 : DenScopeConfig)
    (path : jsstring) :
  DenScope_baseUrl c1 = DenScope_baseUrl c2 ->
  apiKey c1 = apiKey c2 ->
  account c1 = account c2 ->
  run env (request c1 path) [] = run env (request c2 path) [].
Proof.
  intros Hu Hk Ha. rewrite !run_request. cbv zeta.
  unfold request_url, request_headers. rewrite Hu, Hk, Ha.
  destruct (transport env [] _ _) as [response|e]; [|reflexivity].
  destruct (status response =? 402)%Z; [|reflexivity].
  destruct (account c2) as [acct|]; [|reflexivity].
  destruct (decodePaymentRequired response) as [v|e]; [|reflexivity].
  destruct (selection v) as [[requirement resource]|e]; [|reflexivity].
  rewrite (@RunTime_account env (narrowed c1 acct) (narrowed c2 acct))
    by reflexivity.
  reflexivity.
Qed.

End BaseUrl.

(** X12.  The constructor drops one slash from the end of the base URL and
    nothing else: a base URL given with and without its final slash makes
    the same client (every request runs the same, step for step), a second
    slash stays, and without a base URL the default is used as it is. *)
Theorem trailing_slash_of_baseUrl
    (key : option jsstring) (acct : option Account) (u : jsstring) :
  (forall r, u <> r ++ js "/") ->
  let plain := {| apiKey := key; account := acct; baseUrl := Some u |} in
  let slash :=
    {| apiKey := key; account := acct; baseUrl := Some (u ++ js "/") |} in
  let double :=
    {| apiKey := key; account := acct; baseUrl := Some (u ++ js "//") |} in
  let absent := {| apiKey := key; account := acct; baseUrl := None |} in
  DenScope_baseUrl plain = u
  /\ DenScope_baseUrl slash = u
  /\ DenScope_baseUrl double = u ++ js "/"
  /\ DenScope_baseUrl absent = js "https://denscope.vercel.app"
  /\ forall (env : Env) (path : jsstring),
       fetches (snd (run env (request plain path) []))
       <> []
       /\ (forall x, In x (fetches (snd (run env (request plain path) []))) ->
                     fst x = u ++ js "/api/v1" ++ path)
       /\ run env (request slash path) [] = run env (request plain path) [].
Proof.
  intros Hu. cbv zeta.
  assert (E1 : DenScope_baseUrl
                 {| apiKey := key; account := acct; baseUrl := Some u |} = u)
    by (apply strip_trailing_slash_none; exact Hu).
  assert (E2 : DenScope_baseUrl
                 {| apiKey := key; account := acct;
                    baseUrl := Some (u ++ js "/") |} = u)
    by (apply strip_trailing_slash_one).
  split; [exact E1|]. split; [exact E2|].
  split.
  { unfold DenScope_baseUrl. cbn [baseUrl].
    change (u ++ js "//") with (u ++ js "/" ++ js "/").
    rewrite app_assoc. apply strip_trailing_slash_one. }
  split; [reflexivity|].
  intros env path.
  split; [|split].
  - destruct (request_fetches env
                {| apiKey := key; account := acct; baseUrl := Some u |} path)
      as [H|H]; cbv zeta in H.
    + rewrite H. discriminate.
    + destruct H as (r & a & v & q & o & header & t2 & _ & _ & _ & _ & _
                     & _ & Hf & Hr).
      rewrite Hr. cbn [snd]. rewrite fetches_app, Hf. discriminate.
  - intros x.
    destruct (request_fetches env
                {| apiKey := key; account := acct; baseUrl := Some u |} path)
      as [H|H]; cbv zeta in H.
    + rewrite H. intros [<-|[]]. cbn [fst]. unfold request_url.
      rewrite E1. reflexivity.
    + destruct H as (r & a & v & q & o & header & t2 & _ & _ & _ & _ & _
                     & _ & Hf & Hr).
      rewrite Hr. cbn [snd]. rewrite fetches_app, Hf.
      intros [<-|[<-|[]]]; cbn [fst]; unfold request_url; rewrite E1;
        reflexivity.
  - apply run_request_config; [rewrite E1, E2; reflexivity| |]; reflexivity.
Qed.

Lemma trailing_slash_of_baseUrl_witness :
  DenScope_baseUrl slash_config = js "https://custom.api.com"
  /\ forall (env : Env) (path : jsstring),
       run env (request slash_config path) []
       = run env
           (request {| apiKey := Some (js "ds_test123"); account := None;
                       baseUrl := Some (js "https://custom.api.com") |} path)
           [].
Proof.
  assert (Hu : forall r, js "https://custom.api.com" <> r ++ js "/").
  { intros r E. apply (f_equal (@rev N)) in E.
    change (js "/") with [ch "/"] in E. rewrite rev_unit in E.
    vm_compute in E. discriminate E. }
  pose proof (@trailing_slash_of_baseUrl (Some (js "ds_test123")) None
                (js "https://custom.api.com") Hu) as H.
  cbv zeta in H. destruct H as (_ & H2 & _ & _ & H5).
  split; [exact H2|].
  intros env path. exact (proj2 (proj2 (H5 env path))).
Defined.

(* ================================================================== *)
(** * Query strings *)
(* ================================================================== *)

Section Queries.

Lemma utf8_bytes_range (cp : N) : Forall (fun b => b < 256) (utf8_bytes cp).
Proof.
  unfold utf8_bytes.
  destruct (N.ltb_spec cp 128); [repeat constructor; lia|].
  assert (H64 : cp mod 64 < 64) by (apply N.mod_lt; lia).
  assert (H64' : (cp / 64) mod 64 < 64) by (apply N.mod_lt; lia).
  destruct (N.ltb_spec cp 2048).
  { assert (cp / 64 < 32) by (apply N.Div0.div_lt_upper_bound; lia).
    repeat constructor; lia. }
  destruct (N.ltb_spec cp 65536).
  { assert (cp / 4096 < 16) by (apply N.Div0.div_lt_upper_bound; lia).
    repeat constructor; lia. }
  assert ((cp / 262144) mod 8 < 8) by (apply N.mod_lt; lia).
  assert ((cp / 4096) mod 64 < 64) by (apply N.mod_lt; lia).
  repeat constructor; lia.
Qed.

Lemma utf8_encode_range (s : jsstring) : Forall (fun b => b < 256) (utf8_encode s).
Proof.
  unfold utf8_encode. induction (code_points s) as [|cp r IH]; [constructor|].
  cbn [flat_map]. apply Forall_app. split; [apply utf8_bytes_range|exact IH].
Qed.

(** On ASCII, UTF-8 changes nothing. *)
Lemma utf8_encode_ascii (s : jsstring) :
  forallb (fun c => c <? 128) s = true -> utf8_encode s = s.
Proof.
  unfold utf8_encode. induction s as [|c r IH]; [reflexivity|].
  cbn [forallb]. intros H. apply andb_true_iff in H. destruct H as [Hc Hr].
  pose proof Hc as Hc'. apply N.ltb_lt in Hc'.
  cbn [code_points].
  assert (Eh : is_high_surrogate c = false).
  { unfold is_high_surrogate. apply andb_false_iff. left.
    apply N.leb_gt. lia. }
  assert (El : is_low_surrogate c = false).
  { unfold is_low_surrogate. apply andb_false_iff. left.
    apply N.leb_gt. lia. }
  rewrite Eh, El. cbn [flat_map]. unfold utf8_bytes at 1. rewrite Hc.
  cbn [app]. rewrite IH by exact Hr. reflexivity.
Qed.

Lemma upper_hex_digit_facts (d : N) :
  d < 16 ->
  digit_val (upper_hex_digit d) = Some d
  /\ is_form_safe (upper_hex_digit d) = true
  /\ plus_to_space (upper_hex_digit d) = upper_hex_digit d.
Proof.
  intros H.
  pose (p := fun d =>
               match digit_val (upper_hex_digit d) with
               | Some x => x =? d
               | None => false
               end
               && is_form_safe (upper_hex_digit d)
               && (plus_to_space (upper_hex_digit d) =? upper_hex_digit d)).
  assert (Hp : p d = true)
    by (apply (@check_below p 16); [vm_compute; reflexivity|exact H]).
  unfold p in Hp. apply andb_true_iff in Hp. destruct Hp as [Hp H3].
  apply andb_true_iff in Hp. destruct Hp as [H1 H2].
  apply N.eqb_eq in H3.
  destruct (digit_val (upper_hex_digit d)) as [x|]; [|discriminate].
  apply N.eqb_eq in H1. subst x. auto.
Qed.

Lemma byte_nibbles (b : N) : b < 256 -> b / 16 < 16 /\ b mod 16 < 16.
Proof.
  intros H. split; [apply N.Div0.div_lt_upper_bound; lia|].
  apply N.mod_lt. lia.
Qed.

Lemma is_form_safe_query (c : N) : is_form_safe c = true -> is_query_char c = true.
Proof. intros H. unfold is_query_char. rewrite H. reflexivity. Qed.

(** What the serializer writes for a byte. *)
Lemma form_encode_byte_chars (b : N) :
  b < 256 -> forallb is_query_char (form_encode_byte b) = true.
Proof.
  intros H. unfold form_encode_byte.
  destruct (b =? 32); [reflexivity|].
  destruct (is_form_safe b) eqn:Es.
  - cbn [forallb]. rewrite (is_form_safe_query _ Es). reflexivity.
  - destruct (byte_nibbles H) as [Hh Hl].
    destruct (upper_hex_digit_facts Hh) as (_ & H1 & _).
    destruct (upper_hex_digit_facts Hl) as (_ & H2 & _).
    unfold percent_encode_byte. cbn [forallb].
    rewrite (is_form_safe_query _ H1), (is_form_safe_query _ H2).
    reflexivity.
Qed.

Lemma form_encode_chars (s : jsstring) :
  forallb is_query_char (form_encode s) = true.
Proof.
  unfold form_encode. pose proof (utf8_encode_range s) as H.
  induction H as [|b r Hb Hr IH]; [reflexivity|].
  cbn [flat_map]. rewrite forallb_app, IH, (form_encode_byte_chars Hb).
  reflexivity.
Qed.

Lemma is_query_char_not_separator (c : N) :
  is_query_char c = true -> c <> 38 /\ c <> 61.
Proof.
  unfold is_query_char, is_form_safe.
  intros H. split; intros ->; vm_compute in H; discriminate H.
Qed.

Lemma form_encode_free (sep : N) (s : jsstring) :
  sep = 38 \/ sep = 61 -> ~ In sep (form_encode s).
Proof.
  intros Hs Hi. pose proof (form_encode_chars s) as H.
  rewrite forallb_forall in H. specialize (H sep Hi).
  apply is_query_char_not_separator in H. destruct Hs; tauto.
Qed.

(** Reading back what the serializer wrote for a byte. *)
Lemma form_decode_byte (b : N) (rest : jsstring) :
  b < 256 ->
  percent_decode (map plus_to_space (form_encode_byte b) ++ rest)
  = b :: percent_decode rest.
Proof.
  intros H. unfold form_encode_byte.
  destruct (N.eqb_spec b 32) as [->|H32]; [reflexivity|].
  destruct (is_form_safe b) eqn:Es.
  - assert (b <> 43 /\ b <> 37).
    { split; intros ->; vm_compute in Es; discriminate Es. }
    cbn [map app]. unfold plus_to_space.
    destruct (N.eqb_spec b 43); [tauto|].
    cbn [percent_decode]. destruct (N.eqb_spec b 37); [tauto|reflexivity].
  - destruct (byte_nibbles H) as [Hh Hl].
    destruct (upper_hex_digit_facts Hh) as (H1 & _ & P1).
    destruct (upper_hex_digit_facts Hl) as (H2 & _ & P2).
    unfold percent_encode_byte. cbn [map app]. rewrite P1, P2.
    change (plus_to_space 37) with 37.
    cbn [percent_decode]. change (37 =? 37) with true. cbv iota.
    rewrite H1, H2. f_equal.
    rewrite N.mul_comm. symmetry. apply N.div_mod. lia.
Qed.

Lemma form_decode_encode (s : jsstring) :
  form_decode (form_encode s) = utf8_encode s.
Proof.
  unfold form_decode, form_encode. pose proof (utf8_encode_range s) as H.
  induction H as [|b r Hb Hr IH]; [reflexivity|].
  cbn [flat_map]. rewrite map_app, (form_decode_byte _ Hb), IH.
  reflexivity.
Qed.

Lemma form_parse_pair_text (nv : jsstring * jsstring) :
  form_parse_pair (pair_text nv) = received nv.
Proof.
  unfold form_parse_pair, pair_text, received. change (js "=") with [61].
  rewrite span_all.
  - cbn [app tl]. rewrite !form_decode_encode. reflexivity.
  - apply forallb_forall. intros c Hc. apply negb_true_iff, N.eqb_neq.
    intros ->. apply (@form_encode_free 61 (fst nv)); [right; reflexivity|].
    exact Hc.
  - reflexivity.
Qed.

Lemma split_joined (sep : N) (l : list jsstring) :
  l <> [] -> Forall (fun p => ~ In sep p) l ->
  split sep (join [sep] l) = l.
Proof.
  intros Hne H. revert Hne.
  induction H as [|x r Hx Hr IH]; intros Hne; [exfalso; apply Hne; reflexivity|].
  destruct r as [|y r'].
  - apply split_free. exact Hx.
  - change (join [sep] (x :: y :: r')) with (x ++ sep :: join [sep] (y :: r')).
    rewrite split_app by exact Hx. rewrite IH by discriminate. reflexivity.
Qed.

Lemma pair_text_shape (nv : jsstring * jsstring) :
  pair_text nv <> [] /\ ~ In 38 (pair_text nv).
Proof.
  unfold pair_text. split.
  - intros E. apply app_eq_nil in E. destruct E as [_ E]. discriminate E.
  - rewrite !in_app_iff. intros [H|[H|H]].
    + revert H. apply form_encode_free. left; reflexivity.
    + destruct H as [H|[]]. discriminate H.
    + revert H. apply form_encode_free. left; reflexivity.
Qed.

(** The receiver reads the names and values the sender set, in UTF-8. *)
Lemma form_parse_toString (params : URLSearchParams) :
  form_parse (URLSearchParams_toString params)
  = map received params.
Proof.
  unfold form_parse, URLSearchParams_toString. fold pair_text.
  change (js "&") with [38].
  destruct params as [|nv r]; [reflexivity|].
  rewrite split_joined.
  - rewrite filter_all.
    + rewrite map_map. apply map_ext. exact form_parse_pair_text.
    + intros x Hx. apply in_map_iff in Hx. destruct Hx as (w & <- & _).
      destruct (pair_text_shape w) as [Hn _].
      destruct (pair_text w); [congruence|reflexivity].
  - discriminate.
  - apply Forall_forall. intros x Hx. apply in_map_iff in Hx.
    destruct Hx as (w & <- & _). apply pair_text_shape.
Qed.

(** The characters of a serialized query. *)
Lemma toString_chars (params : URLSearchParams) :
  forallb (fun c => is_query_char c || (c =? 38) || (c =? 61))
          (URLSearchParams_toString params) = true.
Proof.
  unfold URLSearchParams_toString. fold pair_text.
  assert (Hq : forall s, forallb is_query_char s = true ->
                 forallb (fun c => is_query_char c || (c =? 38) || (c =? 61))
                         s = true).
  { intros s H. rewrite forallb_forall in *. intros c Hc.
    rewrite (H c Hc). reflexivity. }
  induction params as [|nv r IH]; [reflexivity|].
  assert (Hp : forallb (fun c => is_query_char c || (c =? 38) || (c =? 61))
                       (pair_text nv) = true).
  { unfold pair_text. rewrite !forallb_app.
    rewrite (Hq _ (form_encode_chars (fst nv))).
    rewrite (Hq _ (form_encode_chars (snd nv))). reflexivity. }
  destruct r as [|nv' r']; [exact Hp|].
  change (join (js "&") (map pair_text (nv :: nv' :: r')))
    with (pair_text nv ++ js "&" ++ join (js "&") (map pair_text (nv' :: r'))).
  rewrite forallb_app, Hp. cbn [andb].
  rewrite (forallb_app _ (js "&")).
  apply andb_true_iff. split; [reflexivity|exact IH].
Qed.

Lemma toString_empty (params : URLSearchParams) :
  URLSearchParams_toString params = [] <-> params = [].
Proof.
  split; [|intros ->; reflexivity].
  unfold URLSearchParams_toString. fold pair_text.
  destruct params as [|nv r]; [reflexivity|]. intros E. exfalso.
  destruct (pair_text_shape nv) as [Hn _].
  destruct r as [|nv' r'].
  - apply Hn. exact E.
  - change (join (js "&") (map pair_text (nv :: nv' :: r')))
      with (pair_text nv ++ js "&" ++ join (js "&") (map pair_text (nv' :: r')))
      in E.
    apply app_eq_nil in E. tauto.
Qed.

Lemma String_of_Z_ascii (z : Z) :
  forallb (fun c => c <? 128) (String_of_Z z) = true.
Proof.
  assert (Hd : forall s, forallb is_digit s = true ->
                         forallb (fun c => c <? 128) s = true).
  { intros s H. rewrite forallb_forall in *. intros c Hc.
    specialize (H c Hc). unfold is_digit in H. apply andb_true_iff in H.
    destruct H as [_ H]. apply N.leb_le in H. apply N.ltb_lt. lia. }
  destruct z as [|p|p]; simpl String_of_Z; [reflexivity| |];
    destruct (decimal_digits (N.pos p)) as (H & _).
  - apply Hd. exact H.
  - cbn [forallb]. rewrite (Hd _ H). reflexivity.
Qed.

End Queries.

(* ================================================================== *)
(** * The endpoint methods *)
(* ================================================================== *)

Section EndpointFacts.

(** Every transport call of a request goes to the URL of the request, and
    the first carries the headers of the configuration. *)
Lemma request_goes_to (env : Env) (config : DenScopeConfig) (path : jsstring) :
  goes_to env (request config path) (request_url config path)
          (request_headers config).
Proof.
  unfold goes_to, calls.
  destruct (request_fetches env config path) as [H|H]; cbv zeta in H.
  - exists []. split; [exact H|constructor].
  - destruct H as (r & a & v & q & o & header & t2 & _ & _ & _ & _ & _
                   & _ & Hf & Hr).
    rewrite Hr. cbn [snd]. rewrite fetches_app, Hf.
    eexists. split; [reflexivity|]. repeat constructor.
Qed.

Lemma agent_url (config : DenScopeConfig) (chainId agentId : Z)
    (rest : jsstring) :
  request_url config (agent_path chainId agentId ++ rest)
  = (DenScope_baseUrl config ++ js "/api/v1/agent/" ++ String_of_Z chainId
     ++ js "/" ++ String_of_Z agentId) ++ rest.
Proof.
  unfold request_url, agent_path.
  change API_PREFIX with (js "/api/v1").
  change (js "/api/v1/agent/") with (js "/api/v1" ++ js "/agent/").
  rewrite <- !app_assoc. reflexivity.
Qed.

Lemma set_on_empty (name value : jsstring) :
  URLSearchParams_set [] name value = [(name, value)].
Proof. reflexivity. Qed.

(** A parameter with an ASCII name and an ASCII value is read as it was
    set. *)
Lemma received_ascii_value (n v : jsstring) :
  ascii v = true -> ascii n = true -> received (n, v) = (n, v).
Proof.
  intros Hv Hn. unfold received. cbn [fst snd].
  rewrite !utf8_encode_ascii by assumption. reflexivity.
Qed.

End EndpointFacts.

(** X13.  Where the endpoint methods send their requests.  Each method makes
    its request through the dispatcher, so every transport call of the
    method goes to one URL: the base URL, [/api/v1], and the path of the
    method with the two identifiers in decimal ([/agent/<chainId>/<agentId>]
    for the profile, [.../score], [.../signals], [.../events], [/search]);
    without options there is no query string, and the status filter of
    [getSignals] is the query [status=<value>]. *)
Theorem endpoint_urls
    (env : Env) (config : DenScopeConfig) (chainId agentId : Z) :
  safe_integer chainId = true ->
  safe_integer agentId = true ->
  let agent :=
    DenScope_baseUrl config ++ js "/api/v1/agent/" ++ String_of_Z chainId
    ++ js "/" ++ String_of_Z agentId in
  let hs := request_headers config in
  goes_to env (getAgent config chainId agentId) agent hs
  /\ goes_to env (getScore config chainId agentId) (agent ++ js "/score") hs
  /\ goes_to env (getSignals config chainId agentId None)
             (agent ++ js "/signals") hs
  /\ (forall s,
        goes_to env
          (getSignals config chainId agentId
             (Some {| SignalsOptions.status := Some s |}))
          (agent ++ js "/signals?status=" ++ SignalStatus_string s) hs)
  /\ goes_to env (getEvents config chainId agentId None)
             (agent ++ js "/events") hs
  /\ goes_to env (search config None)
             (DenScope_baseUrl config ++ js "/api/v1/search") hs.
Proof.
  intros _ _. cbv zeta.
  assert (U : forall rest,
            request_url config (agent_path chainId agentId ++ rest)
            = (DenScope_baseUrl config ++ js "/api/v1/agent/"
               ++ String_of_Z chainId ++ js "/" ++ String_of_Z agentId)
              ++ rest) by (intros rest; apply agent_url).
  split; [|split; [|split; [|split; [|split]]]].
  - pose proof (request_goes_to env config (agent_path chainId agentId)) as H.
    rewrite <- (app_nil_r (agent_path chainId agentId)) in H at 2.
    rewrite U, app_nil_r in H. exact H.
  - pose proof (request_goes_to env config
                  (agent_path chainId agentId ++ js "/score")) as H.
    rewrite U in H. unfold agent_path in H. rewrite <- !app_assoc in H.
    unfold getScore. rewrite <- !app_assoc. exact H.
  - pose proof (request_goes_to env config
                  (agent_path chainId agentId ++ js "/signals")) as H.
    rewrite U in H.
    unfold getSignals, getSignals_path. cbn [optional].
    change (query_suffix (URLSearchParams_toString [])) with (@nil N).
    rewrite app_nil_r. exact H.
  - intros s.
    pose proof (request_goes_to env config
                  (agent_path chainId agentId
                   ++ js "/signals?status=" ++ SignalStatus_string s)) as H.
    rewrite U in H.
    unfold getSignals, getSignals_path. cbn [optional SignalsOptions.status].
    rewrite set_on_empty.
    replace (js "/signals"
             ++ query_suffix
                  (URLSearchParams_toString
                     [(js "status", SignalStatus_string s)]))
      with (js "/signals?status=" ++ SignalStatus_string s)
      by (destruct s; reflexivity).
    exact H.
  - pose proof (request_goes_to env config
                  (agent_path chainId agentId ++ js "/events")) as H.
    rewrite U in H.
    unfold getEvents, getEvents_path. cbn [optional].
    change (query_suffix (URLSearchParams_toString (getEvents_params None)))
      with (@nil N).
    rewrite app_nil_r. exact H.
  - exact (request_goes_to env config (js "/search")).
Qed.

Lemma endpoint_urls_witness :
  goes_to (constant_world response_200)
    (getSignals apiKey_config 42220 5
       (Some {| SignalsOptions.status := Some status_resolved |}))
    (js "https://denscope.vercel.app/api/v1/agent/42220/5/signals?status=resolved")
    [(js "Authorization", js "Bearer ds_test123")].
Proof.
  pose proof (@endpoint_urls (constant_world response_200) apiKey_config
                42220 5 eq_refl eq_refl) as H.
  cbv zeta in H. destruct H as (_ & _ & _ & H & _).
  exact (H status_resolved).
Defined.

(** X14.  The query of [search].  The parameters are [q], [chainId] and
    [limit], in this order, each only when it is given (an empty search term
    counts as not given), and the path has a query string only when there is
    a parameter.  Whatever the search term holds, it stays the value of [q]:
    the query string is made of letters, digits and [* - . _ + %] besides the
    [&] between and the [=] inside the parameters, and the receiver's parser
    reads back exactly the names and values that were set (in UTF-8). *)
Theorem search_query (options : option SearchOptions.t) :
  safe_option (optional options SearchOptions.chainId) = true ->
  safe_option (optional options SearchOptions.limit) = true ->
  let params := search_params options in
  let qs := URLSearchParams_toString params in
  params
  = given "q" (truthy (optional options SearchOptions.q))
    ++ given "chainId"
         (option_map String_of_Z (optional options SearchOptions.chainId))
    ++ given "limit"
         (option_map String_of_Z (optional options SearchOptions.limit))
  /\ search_path options
     = js "/search" ++ match params with [] => [] | _ => js "?" ++ qs end
  /\ forallb (fun c => is_query_char c || (c =? 38) || (c =? 61)) qs = true
  /\ form_parse qs = map received params
  /\ (forall nv, In nv params -> ascii (snd nv) = true -> received nv = nv).
Proof.
  intros _ _. cbv zeta.
  assert (Hshape :
    search_params options
    = given "q" (truthy (optional options SearchOptions.q))
      ++ given "chainId"
           (option_map String_of_Z (optional options SearchOptions.chainId))
      ++ given "limit"
           (option_map String_of_Z (optional options SearchOptions.limit))).
  { unfold search_params.
    destruct (truthy (optional options SearchOptions.q)) as [s|];
      destruct (optional options SearchOptions.chainId) as [c|];
      destruct (optional options SearchOptions.limit) as [l|]; reflexivity. }
  split; [exact Hshape|].
  split; [|split; [|split]].
  - unfold search_path, query_suffix.
    destruct (search_params options) as [|nv r] eqn:E; [reflexivity|].
    destruct (URLSearchParams_toString (nv :: r)) eqn:Eq; [|reflexivity].
    apply toString_empty in Eq. discriminate Eq.
  - apply toString_chars.
  - apply form_parse_toString.
  - intros [n v] Hin Ha. apply (received_ascii_value n v Ha).
    rewrite Hshape in Hin. rewrite !in_app_iff in Hin. unfold given in Hin.
    clear Hshape.
    destruct (truthy (optional options SearchOptions.q));
      destruct (optional options SearchOptions.chainId);
      destruct (optional options SearchOptions.limit);
      cbn [In option_map] in Hin; intuition (try congruence);
      match goal with E : (_, _) = (n, v) |- _ => inversion E; reflexivity end.
Qed.

Lemma search_query_witness :
  search_path (Some search_options) = js "/search?q=0xabc&chainId=42220&limit=5"
  /\ search_path (Some crafted_search)
     = js "/search?q=a+b%26limit%3D1000%23&limit=5"
  /\ form_parse (URLSearchParams_toString (search_params (Some crafted_search)))
     = [(js "q", js "a b&limit=1000#"); (js "limit", js "5")].
Proof.
  destruct (@search_query (Some search_options) eq_refl eq_refl)
    as (_ & Ho & _).
  destruct (@search_query (Some crafted_search) eq_refl eq_refl)
    as (_ & Hp & _ & Hf & _).
  split; [rewrite Ho; vm_compute; reflexivity|].
  split; [rewrite Hp; vm_compute; reflexivity|].
  rewrite Hf. vm_compute. reflexivity.
Defined.

(** X15.  The query of [getEvents]: [limit], [offset] and [kind], in this
    order, each only when it is given (a limit or an offset of 0 is given; an
    empty kind is not), with a query string only when there is a parameter;
    the receiver's parser reads back exactly the names and values that were
    set, whatever the kind holds. *)
Theorem events_query (chainId agentId : Z) (options : option EventsOptions.t) :
  safe_integer chainId = true ->
  safe_integer agentId = true ->
  safe_option (optional options EventsOptions.limit) = true ->
  safe_option (optional options EventsOptions.offset) = true ->
  let params := getEvents_params options in
  let qs := URLSearchParams_toString params in
  params
  = given "limit"
      (option_map String_of_Z (optional options EventsOptions.limit))
    ++ given "offset"
         (option_map String_of_Z (optional options EventsOptions.offset))
    ++ given "kind" (truthy (optional options EventsOptions.kind))
  /\ getEvents_path chainId agentId options
     = agent_path chainId agentId ++ js "/events"
       ++ match params with [] => [] | _ => js "?" ++ qs end
  /\ forallb (fun c => is_query_char c || (c =? 38) || (c =? 61)) qs = true
  /\ form_parse qs = map received params
  /\ (forall nv, In nv params -> ascii (snd nv) = true -> received nv = nv).
Proof.
  intros _ _ _ _. cbv zeta.
  assert (Hshape :
    getEvents_params options
    = given "limit"
        (option_map String_of_Z (optional options EventsOptions.limit))
      ++ given "offset"
           (option_map String_of_Z (optional options EventsOptions.offset))
      ++ given "kind" (truthy (optional options EventsOptions.kind))).
  { unfold getEvents_params.
    destruct (truthy (optional options EventsOptions.kind)) as [s|];
      destruct (optional options EventsOptions.limit) as [c|];
      destruct (optional options EventsOptions.offset) as [l|]; reflexivity. }
  split; [exact Hshape|].
  split; [|split; [|split]].
  - unfold getEvents_path, query_suffix.
    destruct (getEvents_params options) as [|nv r] eqn:E; [reflexivity|].
    destruct (URLSearchParams_toString (nv :: r)) eqn:Eq; [|reflexivity].
    apply toString_empty in Eq. discriminate Eq.
  - apply toString_chars.
  - apply form_parse_toString.
  - intros [n v] Hin Ha. apply (received_ascii_value n v Ha).
    rewrite Hshape in Hin. rewrite !in_app_iff in Hin. unfold given in Hin.
    clear Hshape.
    destruct (truthy (optional options EventsOptions.kind));
      destruct (optional options EventsOptions.limit);
      destruct (optional options EventsOptions.offset);
      cbn [In option_map] in Hin; intuition (try congruence);
      match goal with E : (_, _) = (n, v) |- _ => inversion E; reflexivity end.
Qed.

Lemma events_query_witness :
  getEvents_path 42220 5 (Some events_options)
  = js "/agent/42220/5/events?limit=10&offset=20&kind=feedback"
  /\ getEvents_path 42220 5
       (Some {| EventsOptions.limit := Some 0%Z;
                EventsOptions.offset := None;
                EventsOptions.kind := Some [] |})
     = js "/agent/42220/5/events?limit=0".
Proof.
  destruct (@events_query 42220 5 (Some events_options) eq_refl eq_refl
              eq_refl eq_refl)
    as (_ & Hp & _).
  split; [rewrite Hp; vm_compute; reflexivity|].
  destruct (@events_query 42220 5
              (Some {| EventsOptions.limit := Some 0%Z;
                       EventsOptions.offset := None;
                       EventsOptions.kind := Some [] |}) eq_refl eq_refl
              eq_refl eq_refl)
    as (_ & Hq & _).
  rewrite Hq. vm_compute. reflexivity.
Defined.

(* ================================================================== *)
(** * The challenge header *)
(* ================================================================== *)

Section ChallengeHeader.

(** A character outside the base64 alphabet that is no white space and not
    the padding makes [atob] fail. *)
Lemma atob_foreign (c : N) (s : jsstring) :
  b64_val c = None -> is_ascii_whitespace c = false -> c <> ch "=" ->
  In c s -> atob s = None.
Proof.
  intros Hv Hw Hp Hi. unfold atob.
  set (d := filter (fun c => negb (is_ascii_whitespace c)) s).
  assert (Hd : In c d).
  { apply filter_In. split; [exact Hi|]. rewrite Hw. reflexivity. }
  clearbody d.
  set (d' := if (length d mod 4 =? 0)%nat then _ else d).
  assert (Hd' : In c d').
  { unfold d'. destruct (length d mod 4 =? 0)%nat; [|exact Hd].
    rewrite (in_rev d) in Hd.
    destruct (rev d) as [|e1 [|e2 r]] eqn:E.
    - destruct Hd.
    - destruct Hd as [->|[]].
      destruct (N.eqb_spec c (ch "=")); [contradiction|].
      rewrite <- (rev_involutive d), E. left. reflexivity.
    - destruct (N.eqb_spec e1 (ch "=")) as [->|_].
      + destruct Hd as [F|Hd]; [congruence|].
        destruct (N.eqb_spec e2 (ch "=")) as [->|_].
        * destruct Hd as [F|Hd]; [congruence|].
          rewrite <- in_rev. exact Hd.
        * rewrite <- in_rev. exact Hd.
      + rewrite (in_rev d), E. exact Hd. }
  clearbody d'.
  destruct (length d' mod 4 =? 1)%nat; [reflexivity|].
  assert (Hm : map_option b64_val d' = None).
  { induction d' as [|x r IH]; [destruct Hd'|].
    simpl. destruct Hd' as [->|Hr].
    - rewrite Hv. reflexivity.
    - rewrite (IH Hr). destruct (b64_val x); reflexivity. }
  rewrite Hm. reflexivity.
Qed.

Lemma Headers_get_challenge (response : Response) :
  Headers_get (headers response) (js "payment-required")
  = match challenge_headers response with
    | [] => None
    | vs => Some (join (js ", ") (map snd vs))
    end.
Proof. reflexivity. Qed.

End ChallengeHeader.

(** X16.  How [decodePaymentRequired] finds the challenge.  The header is
    looked up by name without regard to the case of its letters, and nothing
    else of the response is read: two responses that each have one such
    header, of the same value, decode alike, whatever the spelling of the
    name, the other headers, the status and the body are.  With no such
    header the challenge is missing.  With two or more, the values come
    joined by a comma, which is no base64: the challenge is malformed,
    whatever the values are. *)
Theorem challenge_header_lookup (response : Response) :
  (challenge_headers response = [] ->
   decodePaymentRequired response = Err MissingChallenge)
  /\ (forall other name name' value,
        challenge_headers response = [(name, value)] ->
        challenge_headers other = [(name', value)] ->
        decodePaymentRequired response = decodePaymentRequired other)
  /\ (forall h1 h2 more,
        challenge_headers response = h1 :: h2 :: more ->
        decodePaymentRequired response = Err MalformedChallenge).
Proof.
  unfold decodePaymentRequired. rewrite Headers_get_challenge.
  split; [|split].
  - intros ->. reflexivity.
  - intros other name name' value -> H'.
    rewrite Headers_get_challenge, H'. reflexivity.
  - intros h1 h2 more ->.
    change (join (js ", ") (map snd (h1 :: h2 :: more)))
      with (snd h1 ++ js ", " ++ join (js ", ") (map snd (h2 :: more))).
    assert (Hi : In (ch ",")
                    (snd h1 ++ js ", "
                     ++ join (js ", ") (map snd (h2 :: more)))).
    { apply in_or_app. right. left. reflexivity. }
    destruct (snd h1 ++ js ", " ++ join (js ", ") (map snd (h2 :: more)))
      as [|c r] eqn:E; [destruct Hi|].
    rewrite (@atob_foreign (ch ",") (c :: r)); try reflexivity;
      [discriminate|exact Hi].
Qed.

Lemma challenge_header_lookup_witness :
  decodePaymentRequired
    (response_402 [(js "PAYMENT-REQUIRED",
                    encode_challenge MOCK_PAYMENT_REQUIRED_BODY)])
  = Ok (PaymentRequiredBody_json MOCK_PAYMENT_REQUIRED_BODY)
  /\ decodePaymentRequired
       (response_402 [(js "payment-required",
                       encode_challenge MOCK_PAYMENT_REQUIRED_BODY);
                      (js "Payment-Required",
                       encode_challenge MOCK_PAYMENT_REQUIRED_BODY)])
     = Err MalformedChallenge.
Proof.
  split.
  - destruct (challenge_header_lookup
                (response_402 [(js "PAYMENT-REQUIRED",
                                encode_challenge MOCK_PAYMENT_REQUIRED_BODY)]))
      as (_ & H & _).
    rewrite (H (challenge_response MOCK_PAYMENT_REQUIRED_BODY)
               (js "PAYMENT-REQUIRED") (js "payment-required")
               (encode_challenge MOCK_PAYMENT_REQUIRED_BODY) eq_refl eq_refl).
    vm_compute. reflexivity.
  - destruct (challenge_header_lookup
                (response_402
                   [(js "payment-required",
                     encode_challenge MOCK_PAYMENT_REQUIRED_BODY);
                    (js "Payment-Required",
                     encode_challenge MOCK_PAYMENT_REQUIRED_BODY)]))
      as (_ & _ & H).
    exact (H _ _ _ eq_refl).
Defined.

(* ================================================================== *)
(** * Lenient chain identifiers *)
(* ================================================================== *)

(** X17.  The chain identifier is read with [parseInt], which does not
    refuse what is no number.  After [eip155:], digits followed by anything
    else (no colon) are read as the number the digits denote, and a suffix
    that is empty or starts with something else than a digit, a sign or
    white space gives [NaN]: [buildPaymentHeader] does not stop there, and
    asks for a signature over a domain whose chain identifier is [NaN] as
    soon as the amount is read. *)
Theorem chain_id_is_read_leniently
    (env : Env) (config : X402Config) (requirement : PaymentRequirement)
    (resource : ResourceInfo) (t : Trace) (suffix : jsstring) :
  network requirement = js "eip155:" ++ suffix ->
  ~ In (ch ":") suffix ->
  (forall digits rest,
     suffix = digits ++ rest -> digits <> [] ->
     forallb is_digit digits = true ->
     safe_integer (Z.of_N (digits_value 10 digits)) = true ->
     match rest with [] => True | c :: _ => is_digit c = false end ->
     parseChainId (network requirement)
     = Ok (Int (Z.of_N (digits_value 10 digits))))
  /\ (match suffix with
      | [] => True
      | c :: _ => is_digit c = false /\ is_whitespace c = false
                  /\ c <> ch "-" /\ c <> ch "+"
      end ->
      parseChainId (network requirement) = Ok NaN
      /\ forall value,
           BigInt (amount requirement) = Ok value ->
           exists args,
             signings (snd (run env (buildPaymentHeader config requirement
                                       resource) t))
             = signings t ++ [args]
             /\ Domain.chainId (domain args) = NaN).
Proof.
  intros En Hs.
  assert (Hp : parseChainId (network requirement) = Ok (parseInt10 suffix))
    by (rewrite En; apply parseChainId_supported; exact Hs).
  split.
  - intros digits rest -> Hne Hd _ Hr. rewrite Hp.
    rewrite parseInt10_leading by assumption. reflexivity.
  - intros Hn. rewrite (parseInt10_no_number suffix Hn) in Hp.
    split; [exact Hp|].
    intros value Hv. rewrite buildPaymentHeader_signings, Hp, Hv.
    eexists. split; reflexivity.
Qed.

Lemma chain_id_is_read_leniently_witness :
  parseChainId (js "eip155:42220abc") = Ok (Int 42220)
  /\ parseChainId (js "eip155:mainnet") = Ok NaN
  /\ exists args,
       signings (snd (run paying_world
                        (buildPaymentHeader x402_config
                           unnamed_chain_requirement MOCK_RESOURCE) []))
       = [args]
       /\ Domain.chainId (domain args) = NaN.
Proof.
  assert (Hc : forall s : jsstring,
            forallb (fun c => negb (c =? ch ":")) s = true -> ~ In (ch ":") s).
  { intros s H Hi. rewrite forallb_forall in H. specialize (H _ Hi).
    rewrite N.eqb_refl in H. discriminate H. }
  split; [|split].
  - destruct (@chain_id_is_read_leniently paying_world x402_config
                {| scheme := js "exact"; network := js "eip155:42220abc";
                   amount := js "1"; asset := []; payTo := [];
                   maxTimeoutSeconds := Int 0;
                   extra := {| assetTransferMethod := []; name := [];
                               version := [] |} |}
                MOCK_RESOURCE [] (js "42220abc") eq_refl
                (Hc (js "42220abc") eq_refl)) as [H _].
    exact (H (js "42220") (js "abc") eq_refl ltac:(discriminate) eq_refl
             eq_refl eq_refl).
  - destruct (@chain_id_is_read_leniently paying_world x402_config
                unnamed_chain_requirement MOCK_RESOURCE [] (js "mainnet")
                eq_refl (Hc (js "mainnet") eq_refl)) as [_ H].
    apply H. vm_compute. repeat split; discriminate.
  - destruct (@chain_id_is_read_leniently paying_world x402_config
                unnamed_chain_requirement MOCK_RESOURCE [] (js "mainnet")
                eq_refl (Hc (js "mainnet") eq_refl)) as [_ H].
    destruct H as [_ H]; [vm_compute; repeat split; discriminate|].
    exact (H 1000%Z eq_refl).
Defined.

(* ================================================================== *)
(** * What a request returns *)
(* ================================================================== *)

(** X18.  A request returns nothing of its own making: whatever it returns
    is the JSON body of the answer to its last transport call, and that
    answer has a status from 200 to 299.  In particular the body of a 402
    answer, of a challenge or of the first answer of a paid request is never
    returned. *)
Theorem request_returns_a_success_body
    (env : Env) (config : DenScopeConfig) (path : jsstring) (v : JSON) :
  fst (run env (request config path) []) = Returns v ->
  exists (t : Trace) (h : Headers) (response : Response),
    snd (run env (request config path) [])
    = t ++ [ObsFetch (request_url config path) h (Ok response)]
    /\ (200 <= status response <= 299)%Z
    /\ json response = Ok v.
Proof.
  rewrite run_request.
  assert (Hout : forall r : Response,
            outcome_of (handleResponse r) = Returns v ->
            (200 <= status r <= 299)%Z /\ json r = Ok v).
  { intros r H. apply handleResponse_returns.
    destruct (handleResponse r); simpl in H; congruence. }
  destruct (transport env [] (request_url config path) (request_headers config))
    as [response|e] eqn:Ef; [|discriminate].
  assert (Hplain : fst (outcome_of (handleResponse response),
                        [ObsFetch (request_url config path)
                           (request_headers config) (Ok response)])
                   = Returns v ->
                   exists t h r,
                     snd (outcome_of (handleResponse response),
                          [ObsFetch (request_url config path)
                             (request_headers config) (Ok response)])
                     = t ++ [ObsFetch (request_url config path) h (Ok r)]
                     /\ (200 <= status r <= 299)%Z /\ json r = Ok v).
  { intros H. exists [], (request_headers config), response.
    split; [reflexivity|]. apply Hout. exact H. }
  destruct (status response =? 402)%Z; [|exact Hplain].
  destruct (account config) as [acct|]; [|exact Hplain].
  destruct (decodePaymentRequired response) as [pr|e]; [|discriminate].
  destruct (selection pr) as [[requirement resource]|e]; [|discriminate].
  destruct (run env (RunTime.buildPaymentHeader (narrowed config acct)
                       requirement resource) _) as [[header|e|] t2];
    [|discriminate|discriminate].
  cbv zeta. cbn [fst snd].
  destruct (transport env t2 (request_url config path)
              [(js "X-PAYMENT", header)]) as [r2|e]; [|discriminate].
  intros H. exists t2, [(js "X-PAYMENT", header)], r2.
  split; [reflexivity|]. apply Hout. exact H.
Qed.

Lemma request_returns_a_success_body_witness :
  exists (t : Trace) (h : Headers) (response : Response),
    snd (run paying_world (request account_config score_path) [])
    = t ++ [ObsFetch (request_url account_config score_path) h (Ok response)]
    /\ (200 <= status response <= 299)%Z
    /\ json response = Ok scoreBody.
Proof.
  apply (@request_returns_a_success_body paying_world account_config
           score_path scoreBody).
  vm_compute. reflexivity.
Defined.

